(** * PDF question answering bridge: ingestion, retrieval and answer synthesis

    A shallow embedding of [PYTHON/apiBridge.py] (class [PdfQAProcessor] and
    the Flask handlers that mutate or read its stores), with the properties
    of its natural-language specification stated and proved over it.

    Conventions of the embedding.
    - A Python [str] is a [string] holding its UTF-8 encoding; [len],
      slicing, [strip], [isupper] and [istitle] work on its characters
      (code points), with the character classes of the Unicode database.
    - A Python [dict] is an insertion-ordered association list with unique
      keys ([dict_set], [dict_del], [dict_get]), because the handlers
      iterate over [documents] in insertion order.
    - A call either returns or raises; in both cases the processor state it
      leaves behind is explicit (Python does not roll anything back).
    - The collaborators that are not part of the repository (PyMuPDF, OCR,
      the text splitter, FAISS, the generative model, the clock,
      [os.path.basename]) are fields of the record [Externals].
    - A distance reported by the index is a rational number: the finite
      values of a float, compared exactly. *)

From Stdlib Require Import List String Ascii Arith NArith Bool Lia.
From Stdlib Require Import QArith Sorted Permutation.
Import ListNotations.
Local Close Scope Q_scope.
Local Open Scope string_scope.
Local Open Scope nat_scope.

(** ** Python string primitives *)

Module PyStr.

Definition nl : string := String (ascii_of_nat 10) EmptyString.

(** *** Characters

    A [str] is a sequence of code points, written here in UTF-8: a
    character is a leading byte followed by its continuation bytes. *)

Definition byte (c : ascii) : N := N_of_ascii c.

(** A byte [10xxxxxx] continues the character begun before it. *)
Definition is_continuation (c : ascii) : bool :=
  ((128 <=? byte c) && (byte c <? 192))%N.

(** [len(s)]: one for every byte that begins a character. *)
Fixpoint len (s : string) : nat :=
  match s with
  | EmptyString => 0
  | String c r => (if is_continuation c then 0 else 1) + len r
  end.

(** The payload of up to [k] continuation bytes at the head of [s],
    appended to the bits [acc] of the leading byte. *)
Fixpoint continue_with (k : nat) (acc : N) (s : string) : N :=
  match k, s with
  | S k', String c r =>
      if is_continuation c
      then continue_with k' (acc * 64 + (byte c - 128))%N r
      else acc
  | _, _ => acc
  end.

(** [ord(ch)] for the character that begins with the byte [c] and goes
    on in [r]. *)
Definition code_point (c : ascii) (r : string) : N :=
  let n := byte c in
  if (n <? 192)%N then n
  else if (n <? 224)%N then continue_with 1 (n - 192)%N r
  else if (n <? 240)%N then continue_with 2 (n - 224)%N r
  else continue_with 3 (n - 240)%N r.

(** Membership in a table of code point ranges in increasing order. *)
Fixpoint in_ranges (n : N) (ranges : list (N * N)) : bool :=
  match ranges with
  | [] => false
  | (lo, hi) :: rest =>
      if (n <? lo)%N then false else (n <=? hi)%N || in_ranges n rest
  end.

(** *** The character classes of the interpreter

    [str.strip], [str.isupper] and [str.istitle] consult the Unicode
    character database compiled into CPython; the tables below are those
    of version 14.0 of the database. *)

(** The characters for which [ch.isspace()] holds. *)
Definition whitespace : list (N * N) :=
  [ (9, 13); (28, 32); (133, 133); (160, 160); (5760, 5760); (8192, 8202);
    (8232, 8233); (8239, 8239); (8287, 8287); (12288, 12288) ]%N.

(** The characters with the property Uppercase. *)
Definition uppercase : list (N * N) :=
  [ (65, 90); (192, 214); (216, 222); (256, 256); (258, 258); (260, 260);
    (262, 262); (264, 264); (266, 266); (268, 268); (270, 270); (272, 272);
    (274, 274); (276, 276); (278, 278); (280, 280); (282, 282); (284, 284);
    (286, 286); (288, 288); (290, 290); (292, 292); (294, 294); (296, 296);
    (298, 298); (300, 300); (302, 302); (304, 304); (306, 306); (308, 308);
    (310, 310); (313, 313); (315, 315); (317, 317); (319, 319); (321, 321);
    (323, 323); (325, 325); (327, 327); (330, 330); (332, 332); (334, 334);
    (336, 336); (338, 338); (340, 340); (342, 342); (344, 344); (346, 346);
    (348, 348); (350, 350); (352, 352); (354, 354); (356, 356); (358, 358);
    (360, 360); (362, 362); (364, 364); (366, 366); (368, 368); (370, 370);
    (372, 372); (374, 374); (376, 377); (379, 379); (381, 381); (385, 386);
    (388, 388); (390, 391); (393, 395); (398, 401); (403, 404); (406, 408);
    (412, 413); (415, 416); (418, 418); (420, 420); (422, 423); (425, 425);
    (428, 428); (430, 431); (433, 435); (437, 437); (439, 440); (444, 444);
    (452, 452); (455, 455); (458, 458); (461, 461); (463, 463); (465, 465);
    (467, 467); (469, 469); (471, 471); (473, 473); (475, 475); (478, 478);
    (480, 480); (482, 482); (484, 484); (486, 486); (488, 488); (490, 490);
    (492, 492); (494, 494); (497, 497); (500, 500); (502, 504); (506, 506);
    (508, 508); (510, 510); (512, 512); (514, 514); (516, 516); (518, 518);
    (520, 520); (522, 522); (524, 524); (526, 526); (528, 528); (530, 530);
    (532, 532); (534, 534); (536, 536); (538, 538); (540, 540); (542, 542);
    (544, 544); (546, 546); (548, 548); (550, 550); (552, 552); (554, 554);
    (556, 556); (558, 558); (560, 560); (562, 562); (570, 571); (573, 574);
    (577, 577); (579, 582); (584, 584); (586, 586); (588, 588); (590, 590);
    (880, 880); (882, 882); (886, 886); (895, 895); (902, 902); (904, 906);
    (908, 908); (910, 911); (913, 929); (931, 939); (975, 975); (978, 980);
    (984, 984); (986, 986); (988, 988); (990, 990); (992, 992); (994, 994);
    (996, 996); (998, 998); (1000, 1000); (1002, 1002); (1004, 1004);
    (1006, 1006); (1012, 1012); (1015, 1015); (1017, 1018); (1021, 1071);
    (1120, 1120); (1122, 1122); (1124, 1124); (1126, 1126); (1128, 1128);
    (1130, 1130); (1132, 1132); (1134, 1134); (1136, 1136); (1138, 1138);
    (1140, 1140); (1142, 1142); (1144, 1144); (1146, 1146); (1148, 1148);
    (1150, 1150); (1152, 1152); (1162, 1162); (1164, 1164); (1166, 1166);
    (1168, 1168); (1170, 1170); (1172, 1172); (1174, 1174); (1176, 1176);
    (1178, 1178); (1180, 1180); (1182, 1182); (1184, 1184); (1186, 1186);
    (1188, 1188); (1190, 1190); (1192, 1192); (1194, 1194); (1196, 1196);
    (1198, 1198); (1200, 1200); (1202, 1202); (1204, 1204); (1206, 1206);
    (1208, 1208); (1210, 1210); (1212, 1212); (1214, 1214); (1216, 1217);
    (1219, 1219); (1221, 1221); (1223, 1223); (1225, 1225); (1227, 1227);
    (1229, 1229); (1232, 1232); (1234, 1234); (1236, 1236); (1238, 1238);
    (1240, 1240); (1242, 1242); (1244, 1244); (1246, 1246); (1248, 1248);
    (1250, 1250); (1252, 1252); (1254, 1254); (1256, 1256); (1258, 1258);
    (1260, 1260); (1262, 1262); (1264, 1264); (1266, 1266); (1268, 1268);
    (1270, 1270); (1272, 1272); (1274, 1274); (1276, 1276); (1278, 1278);
    (1280, 1280); (1282, 1282); (1284, 1284); (1286, 1286); (1288, 1288);
    (1290, 1290); (1292, 1292); (1294, 1294); (1296, 1296); (1298, 1298);
    (1300, 1300); (1302, 1302); (1304, 1304); (1306, 1306); (1308, 1308);
    (1310, 1310); (1312, 1312); (1314, 1314); (1316, 1316); (1318, 1318);
    (1320, 1320); (1322, 1322); (1324, 1324); (1326, 1326); (1329, 1366);
    (4256, 4293); (4295, 4295); (4301, 4301); (5024, 5109); (7312, 7354);
    (7357, 7359); (7680, 7680); (7682, 7682); (7684, 7684); (7686, 7686);
    (7688, 7688); (7690, 7690); (7692, 7692); (7694, 7694); (7696, 7696);
    (7698, 7698); (7700, 7700); (7702, 7702); (7704, 7704); (7706, 7706);
    (7708, 7708); (7710, 7710); (7712, 7712); (7714, 7714); (7716, 7716);
    (7718, 7718); (7720, 7720); (7722, 7722); (7724, 7724); (7726, 7726);
    (7728, 7728); (7730, 7730); (7732, 7732); (7734, 7734); (7736, 7736);
    (7738, 7738); (7740, 7740); (7742, 7742); (7744, 7744); (7746, 7746);
    (7748, 7748); (7750, 7750); (7752, 7752); (7754, 7754); (7756, 7756);
    (7758, 7758); (7760, 7760); (7762, 7762); (7764, 7764); (7766, 7766);
    (7768, 7768); (7770, 7770); (7772, 7772); (7774, 7774); (7776, 7776);
    (7778, 7778); (7780, 7780); (7782, 7782); (7784, 7784); (7786, 7786);
    (7788, 7788); (7790, 7790); (7792, 7792); (7794, 7794); (7796, 7796);
    (7798, 7798); (7800, 7800); (7802, 7802); (7804, 7804); (7806, 7806);
    (7808, 7808); (7810, 7810); (7812, 7812); (7814, 7814); (7816, 7816);
    (7818, 7818); (7820, 7820); (7822, 7822); (7824, 7824); (7826, 7826);
    (7828, 7828); (7838, 7838); (7840, 7840); (7842, 7842); (7844, 7844);
    (7846, 7846); (7848, 7848); (7850, 7850); (7852, 7852); (7854, 7854);
    (7856, 7856); (7858, 7858); (7860, 7860); (7862, 7862); (7864, 7864);
    (7866, 7866); (7868, 7868); (7870, 7870); (7872, 7872); (7874, 7874);
    (7876, 7876); (7878, 7878); (7880, 7880); (7882, 7882); (7884, 7884);
    (7886, 7886); (7888, 7888); (7890, 7890); (7892, 7892); (7894, 7894);
    (7896, 7896); (7898, 7898); (7900, 7900); (7902, 7902); (7904, 7904);
    (7906, 7906); (7908, 7908); (7910, 7910); (7912, 7912); (7914, 7914);
    (7916, 7916); (7918, 7918); (7920, 7920); (7922, 7922); (7924, 7924);
    (7926, 7926); (7928, 7928); (7930, 7930); (7932, 7932); (7934, 7934);
    (7944, 7951); (7960, 7965); (7976, 7983); (7992, 7999); (8008, 8013);
    (8025, 8025); (8027, 8027); (8029, 8029); (8031, 8031); (8040, 8047);
    (8120, 8123); (8136, 8139); (8152, 8155); (8168, 8172); (8184, 8187);
    (8450, 8450); (8455, 8455); (8459, 8461); (8464, 8466); (8469, 8469);
    (8473, 8477); (8484, 8484); (8486, 8486); (8488, 8488); (8490, 8493);
    (8496, 8499); (8510, 8511); (8517, 8517); (8544, 8559); (8579, 8579);
    (9398, 9423); (11264, 11311); (11360, 11360); (11362, 11364);
    (11367, 11367); (11369, 11369); (11371, 11371); (11373, 11376);
    (11378, 11378); (11381, 11381); (11390, 11392); (11394, 11394);
    (11396, 11396); (11398, 11398); (11400, 11400); (11402, 11402);
    (11404, 11404); (11406, 11406); (11408, 11408); (11410, 11410);
    (11412, 11412); (11414, 11414); (11416, 11416); (11418, 11418);
    (11420, 11420); (11422, 11422); (11424, 11424); (11426, 11426);
    (11428, 11428); (11430, 11430); (11432, 11432); (11434, 11434);
    (11436, 11436); (11438, 11438); (11440, 11440); (11442, 11442);
    (11444, 11444); (11446, 11446); (11448, 11448); (11450, 11450);
    (11452, 11452); (11454, 11454); (11456, 11456); (11458, 11458);
    (11460, 11460); (11462, 11462); (11464, 11464); (11466, 11466);
    (11468, 11468); (11470, 11470); (11472, 11472); (11474, 11474);
    (11476, 11476); (11478, 11478); (11480, 11480); (11482, 11482);
    (11484, 11484); (11486, 11486); (11488, 11488); (11490, 11490);
    (11499, 11499); (11501, 11501); (11506, 11506); (42560, 42560);
    (42562, 42562); (42564, 42564); (42566, 42566); (42568, 42568);
    (42570, 42570); (42572, 42572); (42574, 42574); (42576, 42576);
    (42578, 42578); (42580, 42580); (42582, 42582); (42584, 42584);
    (42586, 42586); (42588, 42588); (42590, 42590); (42592, 42592);
    (42594, 42594); (42596, 42596); (42598, 42598); (42600, 42600);
    (42602, 42602); (42604, 42604); (42624, 42624); (42626, 42626);
    (42628, 42628); (42630, 42630); (42632, 42632); (42634, 42634);
    (42636, 42636); (42638, 42638); (42640, 42640); (42642, 42642);
    (42644, 42644); (42646, 42646); (42648, 42648); (42650, 42650);
    (42786, 42786); (42788, 42788); (42790, 42790); (42792, 42792);
    (42794, 42794); (42796, 42796); (42798, 42798); (42802, 42802);
    (42804, 42804); (42806, 42806); (42808, 42808); (42810, 42810);
    (42812, 42812); (42814, 42814); (42816, 42816); (42818, 42818);
    (42820, 42820); (42822, 42822); (42824, 42824); (42826, 42826);
    (42828, 42828); (42830, 42830); (42832, 42832); (42834, 42834);
    (42836, 42836); (42838, 42838); (42840, 42840); (42842, 42842);
    (42844, 42844); (42846, 42846); (42848, 42848); (42850, 42850);
    (42852, 42852); (42854, 42854); (42856, 42856); (42858, 42858);
    (42860, 42860); (42862, 42862); (42873, 42873); (42875, 42875);
    (42877, 42878); (42880, 42880); (42882, 42882); (42884, 42884);
    (42886, 42886); (42891, 42891); (42893, 42893); (42896, 42896);
    (42898, 42898); (42902, 42902); (42904, 42904); (42906, 42906);
    (42908, 42908); (42910, 42910); (42912, 42912); (42914, 42914);
    (42916, 42916); (42918, 42918); (42920, 42920); (42922, 42926);
    (42928, 42932); (42934, 42934); (42936, 42936); (42938, 42938);
    (42940, 42940); (42942, 42942); (42944, 42944); (42946, 42946);
    (42948, 42951); (42953, 42953); (42960, 42960); (42966, 42966);
    (42968, 42968); (42997, 42997); (65313, 65338); (66560, 66599);
    (66736, 66771); (66928, 66938); (66940, 66954); (66956, 66962);
    (66964, 66965); (68736, 68786); (71840, 71871); (93760, 93791);
    (119808, 119833); (119860, 119885); (119912, 119937); (119964, 119964);
    (119966, 119967); (119970, 119970); (119973, 119974); (119977, 119980);
    (119982, 119989); (120016, 120041); (120068, 120069); (120071, 120074);
    (120077, 120084); (120086, 120092); (120120, 120121); (120123, 120126);
    (120128, 120132); (120134, 120134); (120138, 120144); (120172, 120197);
    (120224, 120249); (120276, 120301); (120328, 120353); (120380, 120405);
    (120432, 120457); (120488, 120512); (120546, 120570); (120604, 120628);
    (120662, 120686); (120720, 120744); (120778, 120778); (125184, 125217);
    (127280, 127305); (127312, 127337); (127344, 127369) ]%N.

(** The characters with the property Lowercase. *)
Definition lowercase : list (N * N) :=
  [ (97, 122); (170, 170); (181, 181); (186, 186); (223, 246); (248, 255);
    (257, 257); (259, 259); (261, 261); (263, 263); (265, 265); (267, 267);
    (269, 269); (271, 271); (273, 273); (275, 275); (277, 277); (279, 279);
    (281, 281); (283, 283); (285, 285); (287, 287); (289, 289); (291, 291);
    (293, 293); (295, 295); (297, 297); (299, 299); (301, 301); (303, 303);
    (305, 305); (307, 307); (309, 309); (311, 312); (314, 314); (316, 316);
    (318, 318); (320, 320); (322, 322); (324, 324); (326, 326); (328, 329);
    (331, 331); (333, 333); (335, 335); (337, 337); (339, 339); (341, 341);
    (343, 343); (345, 345); (347, 347); (349, 349); (351, 351); (353, 353);
    (355, 355); (357, 357); (359, 359); (361, 361); (363, 363); (365, 365);
    (367, 367); (369, 369); (371, 371); (373, 373); (375, 375); (378, 378);
    (380, 380); (382, 384); (387, 387); (389, 389); (392, 392); (396, 397);
    (402, 402); (405, 405); (409, 411); (414, 414); (417, 417); (419, 419);
    (421, 421); (424, 424); (426, 427); (429, 429); (432, 432); (436, 436);
    (438, 438); (441, 442); (445, 447); (454, 454); (457, 457); (460, 460);
    (462, 462); (464, 464); (466, 466); (468, 468); (470, 470); (472, 472);
    (474, 474); (476, 477); (479, 479); (481, 481); (483, 483); (485, 485);
    (487, 487); (489, 489); (491, 491); (493, 493); (495, 496); (499, 499);
    (501, 501); (505, 505); (507, 507); (509, 509); (511, 511); (513, 513);
    (515, 515); (517, 517); (519, 519); (521, 521); (523, 523); (525, 525);
    (527, 527); (529, 529); (531, 531); (533, 533); (535, 535); (537, 537);
    (539, 539); (541, 541); (543, 543); (545, 545); (547, 547); (549, 549);
    (551, 551); (553, 553); (555, 555); (557, 557); (559, 559); (561, 561);
    (563, 569); (572, 572); (575, 576); (578, 578); (583, 583); (585, 585);
    (587, 587); (589, 589); (591, 659); (661, 696); (704, 705); (736, 740);
    (837, 837); (881, 881); (883, 883); (887, 887); (890, 893); (912, 912);
    (940, 974); (976, 977); (981, 983); (985, 985); (987, 987); (989, 989);
    (991, 991); (993, 993); (995, 995); (997, 997); (999, 999); (1001, 1001);
    (1003, 1003); (1005, 1005); (1007, 1011); (1013, 1013); (1016, 1016);
    (1019, 1020); (1072, 1119); (1121, 1121); (1123, 1123); (1125, 1125);
    (1127, 1127); (1129, 1129); (1131, 1131); (1133, 1133); (1135, 1135);
    (1137, 1137); (1139, 1139); (1141, 1141); (1143, 1143); (1145, 1145);
    (1147, 1147); (1149, 1149); (1151, 1151); (1153, 1153); (1163, 1163);
    (1165, 1165); (1167, 1167); (1169, 1169); (1171, 1171); (1173, 1173);
    (1175, 1175); (1177, 1177); (1179, 1179); (1181, 1181); (1183, 1183);
    (1185, 1185); (1187, 1187); (1189, 1189); (1191, 1191); (1193, 1193);
    (1195, 1195); (1197, 1197); (1199, 1199); (1201, 1201); (1203, 1203);
    (1205, 1205); (1207, 1207); (1209, 1209); (1211, 1211); (1213, 1213);
    (1215, 1215); (1218, 1218); (1220, 1220); (1222, 1222); (1224, 1224);
    (1226, 1226); (1228, 1228); (1230, 1231); (1233, 1233); (1235, 1235);
    (1237, 1237); (1239, 1239); (1241, 1241); (1243, 1243); (1245, 1245);
    (1247, 1247); (1249, 1249); (1251, 1251); (1253, 1253); (1255, 1255);
    (1257, 1257); (1259, 1259); (1261, 1261); (1263, 1263); (1265, 1265);
    (1267, 1267); (1269, 1269); (1271, 1271); (1273, 1273); (1275, 1275);
    (1277, 1277); (1279, 1279); (1281, 1281); (1283, 1283); (1285, 1285);
    (1287, 1287); (1289, 1289); (1291, 1291); (1293, 1293); (1295, 1295);
    (1297, 1297); (1299, 1299); (1301, 1301); (1303, 1303); (1305, 1305);
    (1307, 1307); (1309, 1309); (1311, 1311); (1313, 1313); (1315, 1315);
    (1317, 1317); (1319, 1319); (1321, 1321); (1323, 1323); (1325, 1325);
    (1327, 1327); (1376, 1416); (4304, 4346); (4349, 4351); (5112, 5117);
    (7296, 7304); (7424, 7615); (7681, 7681); (7683, 7683); (7685, 7685);
    (7687, 7687); (7689, 7689); (7691, 7691); (7693, 7693); (7695, 7695);
    (7697, 7697); (7699, 7699); (7701, 7701); (7703, 7703); (7705, 7705);
    (7707, 7707); (7709, 7709); (7711, 7711); (7713, 7713); (7715, 7715);
    (7717, 7717); (7719, 7719); (7721, 7721); (7723, 7723); (7725, 7725);
    (7727, 7727); (7729, 7729); (7731, 7731); (7733, 7733); (7735, 7735);
    (7737, 7737); (7739, 7739); (7741, 7741); (7743, 7743); (7745, 7745);
    (7747, 7747); (7749, 7749); (7751, 7751); (7753, 7753); (7755, 7755);
    (7757, 7757); (7759, 7759); (7761, 7761); (7763, 7763); (7765, 7765);
    (7767, 7767); (7769, 7769); (7771, 7771); (7773, 7773); (7775, 7775);
    (7777, 7777); (7779, 7779); (7781, 7781); (7783, 7783); (7785, 7785);
    (7787, 7787); (7789, 7789); (7791, 7791); (7793, 7793); (7795, 7795);
    (7797, 7797); (7799, 7799); (7801, 7801); (7803, 7803); (7805, 7805);
    (7807, 7807); (7809, 7809); (7811, 7811); (7813, 7813); (7815, 7815);
    (7817, 7817); (7819, 7819); (7821, 7821); (7823, 7823); (7825, 7825);
    (7827, 7827); (7829, 7837); (7839, 7839); (7841, 7841); (7843, 7843);
    (7845, 7845); (7847, 7847); (7849, 7849); (7851, 7851); (7853, 7853);
    (7855, 7855); (7857, 7857); (7859, 7859); (7861, 7861); (7863, 7863);
    (7865, 7865); (7867, 7867); (7869, 7869); (7871, 7871); (7873, 7873);
    (7875, 7875); (7877, 7877); (7879, 7879); (7881, 7881); (7883, 7883);
    (7885, 7885); (7887, 7887); (7889, 7889); (7891, 7891); (7893, 7893);
    (7895, 7895); (7897, 7897); (7899, 7899); (7901, 7901); (7903, 7903);
    (7905, 7905); (7907, 7907); (7909, 7909); (7911, 7911); (7913, 7913);
    (7915, 7915); (7917, 7917); (7919, 7919); (7921, 7921); (7923, 7923);
    (7925, 7925); (7927, 7927); (7929, 7929); (7931, 7931); (7933, 7933);
    (7935, 7943); (7952, 7957); (7968, 7975); (7984, 7991); (8000, 8005);
    (8016, 8023); (8032, 8039); (8048, 8061); (8064, 8071); (8080, 8087);
    (8096, 8103); (8112, 8116); (8118, 8119); (8126, 8126); (8130, 8132);
    (8134, 8135); (8144, 8147); (8150, 8151); (8160, 8167); (8178, 8180);
    (8182, 8183); (8305, 8305); (8319, 8319); (8336, 8348); (8458, 8458);
    (8462, 8463); (8467, 8467); (8495, 8495); (8500, 8500); (8505, 8505);
    (8508, 8509); (8518, 8521); (8526, 8526); (8560, 8575); (8580, 8580);
    (9424, 9449); (11312, 11359); (11361, 11361); (11365, 11366);
    (11368, 11368); (11370, 11370); (11372, 11372); (11377, 11377);
    (11379, 11380); (11382, 11389); (11393, 11393); (11395, 11395);
    (11397, 11397); (11399, 11399); (11401, 11401); (11403, 11403);
    (11405, 11405); (11407, 11407); (11409, 11409); (11411, 11411);
    (11413, 11413); (11415, 11415); (11417, 11417); (11419, 11419);
    (11421, 11421); (11423, 11423); (11425, 11425); (11427, 11427);
    (11429, 11429); (11431, 11431); (11433, 11433); (11435, 11435);
    (11437, 11437); (11439, 11439); (11441, 11441); (11443, 11443);
    (11445, 11445); (11447, 11447); (11449, 11449); (11451, 11451);
    (11453, 11453); (11455, 11455); (11457, 11457); (11459, 11459);
    (11461, 11461); (11463, 11463); (11465, 11465); (11467, 11467);
    (11469, 11469); (11471, 11471); (11473, 11473); (11475, 11475);
    (11477, 11477); (11479, 11479); (11481, 11481); (11483, 11483);
    (11485, 11485); (11487, 11487); (11489, 11489); (11491, 11492);
    (11500, 11500); (11502, 11502); (11507, 11507); (11520, 11557);
    (11559, 11559); (11565, 11565); (42561, 42561); (42563, 42563);
    (42565, 42565); (42567, 42567); (42569, 42569); (42571, 42571);
    (42573, 42573); (42575, 42575); (42577, 42577); (42579, 42579);
    (42581, 42581); (42583, 42583); (42585, 42585); (42587, 42587);
    (42589, 42589); (42591, 42591); (42593, 42593); (42595, 42595);
    (42597, 42597); (42599, 42599); (42601, 42601); (42603, 42603);
    (42605, 42605); (42625, 42625); (42627, 42627); (42629, 42629);
    (42631, 42631); (42633, 42633); (42635, 42635); (42637, 42637);
    (42639, 42639); (42641, 42641); (42643, 42643); (42645, 42645);
    (42647, 42647); (42649, 42649); (42651, 42653); (42787, 42787);
    (42789, 42789); (42791, 42791); (42793, 42793); (42795, 42795);
    (42797, 42797); (42799, 42801); (42803, 42803); (42805, 42805);
    (42807, 42807); (42809, 42809); (42811, 42811); (42813, 42813);
    (42815, 42815); (42817, 42817); (42819, 42819); (42821, 42821);
    (42823, 42823); (42825, 42825); (42827, 42827); (42829, 42829);
    (42831, 42831); (42833, 42833); (42835, 42835); (42837, 42837);
    (42839, 42839); (42841, 42841); (42843, 42843); (42845, 42845);
    (42847, 42847); (42849, 42849); (42851, 42851); (42853, 42853);
    (42855, 42855); (42857, 42857); (42859, 42859); (42861, 42861);
    (42863, 42872); (42874, 42874); (42876, 42876); (42879, 42879);
    (42881, 42881); (42883, 42883); (42885, 42885); (42887, 42887);
    (42892, 42892); (42894, 42894); (42897, 42897); (42899, 42901);
    (42903, 42903); (42905, 42905); (42907, 42907); (42909, 42909);
    (42911, 42911); (42913, 42913); (42915, 42915); (42917, 42917);
    (42919, 42919); (42921, 42921); (42927, 42927); (42933, 42933);
    (42935, 42935); (42937, 42937); (42939, 42939); (42941, 42941);
    (42943, 42943); (42945, 42945); (42947, 42947); (42952, 42952);
    (42954, 42954); (42961, 42961); (42963, 42963); (42965, 42965);
    (42967, 42967); (42969, 42969); (42998, 42998); (43000, 43002);
    (43824, 43866); (43868, 43880); (43888, 43967); (64256, 64262);
    (64275, 64279); (65345, 65370); (66600, 66639); (66776, 66811);
    (66967, 66977); (66979, 66993); (66995, 67001); (67003, 67004);
    (67456, 67456); (67459, 67461); (67463, 67504); (67506, 67514);
    (68800, 68850); (71872, 71903); (93792, 93823); (119834, 119859);
    (119886, 119892); (119894, 119911); (119938, 119963); (119990, 119993);
    (119995, 119995); (119997, 120003); (120005, 120015); (120042, 120067);
    (120094, 120119); (120146, 120171); (120198, 120223); (120250, 120275);
    (120302, 120327); (120354, 120379); (120406, 120431); (120458, 120485);
    (120514, 120538); (120540, 120545); (120572, 120596); (120598, 120603);
    (120630, 120654); (120656, 120661); (120688, 120712); (120714, 120719);
    (120746, 120770); (120772, 120777); (120779, 120779); (122624, 122633);
    (122635, 122654); (125218, 125251) ]%N.

(** The characters of category Lt. *)
Definition titlecase : list (N * N) :=
  [ (453, 453); (456, 456); (459, 459); (498, 498); (8072, 8079);
    (8088, 8095); (8104, 8111); (8124, 8124); (8140, 8140); (8188, 8188) ]%N.

Definition isspace_at (n : N) : bool := in_ranges n whitespace.
Definition isupper_at (n : N) : bool := in_ranges n uppercase.
Definition islower_at (n : N) : bool := in_ranges n lowercase.
Definition istitle_at (n : N) : bool := in_ranges n titlecase.

(** *** Methods of [str] *)

Definition isupper_c (c : ascii) : bool :=
  let n := nat_of_ascii c in (65 <=? n) && (n <=? 90).

Definition lower_c (c : ascii) : ascii :=
  if isupper_c c then ascii_of_nat (nat_of_ascii c + 32) else c.

(** [s.lower()] on the letters A to Z.  The program lower-cases a string
    only to look for one of the words "page", "source", "chapter",
    "section", "part", "introduction", "conclusion" or for the ending
    ".pdf"; the lower-case form of a character outside ASCII holds an
    ASCII letter only for U+0130 (an "i" followed by U+0307) and U+212A
    (a "k"), neither of which can complete one of these words. *)
Fixpoint lower (s : string) : string :=
  match s with
  | EmptyString => EmptyString
  | String c r => String (lower_c c) (lower r)
  end.

Definition is_empty (s : string) : bool :=
  match s with EmptyString => true | String _ _ => false end.

(** [s.lstrip()]: [inside] says that the character whose continuation
    bytes come next is being removed. *)
Fixpoint lstrip_from (inside : bool) (s : string) : string :=
  match s with
  | EmptyString => EmptyString
  | String c r =>
      if is_continuation c then
        if inside then lstrip_from true r else s
      else if isspace_at (code_point c r) then lstrip_from true r
      else s
  end.

Definition lstrip (s : string) : string := lstrip_from false s.

(** [s.rstrip()]: [s] is cut at the first character from which on there
    is nothing but white space. *)
Fixpoint rstrip (s : string) : string :=
  match s with
  | EmptyString => EmptyString
  | String c r =>
      if negb (is_continuation c) && is_empty (lstrip s) then EmptyString
      else String c (rstrip r)
  end.

(** [s.strip()] *)
Definition strip (s : string) : string := rstrip (lstrip s).

(** [s.isupper()]: no lower-case or title-case character and at least
    one upper-case one. *)
Fixpoint isupper_from (cased : bool) (s : string) : bool :=
  match s with
  | EmptyString => cased
  | String c r =>
      if is_continuation c then isupper_from cased r
      else
        let n := code_point c r in
        if islower_at n || istitle_at n then false
        else isupper_from (cased || isupper_at n) r
  end.

Definition isupper (s : string) : bool := isupper_from false s.

(** [s.istitle()]: an upper-case or title-case character only after an
    uncased one, a lower-case character only after a cased one, and at
    least one cased character. *)
Fixpoint istitle_from (cased previous_is_cased : bool) (s : string) : bool :=
  match s with
  | EmptyString => cased
  | String c r =>
      if is_continuation c then istitle_from cased previous_is_cased r
      else
        let n := code_point c r in
        if isupper_at n || istitle_at n then
          if previous_is_cased then false else istitle_from true true r
        else if islower_at n then
          if previous_is_cased then istitle_from true true r else false
        else istitle_from cased false r
  end.

Definition istitle (s : string) : bool := istitle_from false false s.

(** [s.startswith(p)] and [p in s] *)
Fixpoint startswith (p s : string) : bool :=
  match p, s with
  | EmptyString, _ => true
  | String _ _, EmptyString => false
  | String a p', String b s' => Ascii.eqb a b && startswith p' s'
  end.

Fixpoint contains (p s : string) : bool :=
  startswith p s ||
  match s with
  | EmptyString => false
  | String _ r => contains p r
  end.

(** [s.split(sep)] for a one-character separator: one more piece than
    there are separators, so the empty string gives one empty piece. *)
Fixpoint split_at (sep : ascii) (cur s : string) : list string :=
  match s with
  | EmptyString => [cur]
  | String c r =>
      if Ascii.eqb c sep then cur :: split_at sep EmptyString r
      else split_at sep (cur ++ String c EmptyString) r
  end.

Definition split_lines (s : string) : list string :=
  split_at (ascii_of_nat 10) EmptyString s.

(** [s[:n]]: the first [n] characters, each with its continuation
    bytes. *)
Fixpoint take (n : nat) (s : string) : string :=
  match s with
  | EmptyString => EmptyString
  | String c r =>
      if is_continuation c then String c (take n r)
      else
        match n with
        | 0 => EmptyString
        | S n' => String c (take n' r)
        end
  end.

(** [sep.join(parts)] *)
Fixpoint join (sep : string) (parts : list string) : string :=
  match parts with
  | [] => EmptyString
  | [p] => p
  | p :: rest => p ++ sep ++ join sep rest
  end.

(** [str(n)] for a non-negative [int]. *)
Definition digit (d : nat) : string :=
  String (ascii_of_nat (48 + d)) EmptyString.

Fixpoint str_of_nat_fuel (fuel n : nat) (acc : string) : string :=
  match fuel with
  | 0 => acc
  | S fuel' =>
      let acc' := digit (n mod 10) ++ acc in
      if n <? 10 then acc' else str_of_nat_fuel fuel' (n / 10) acc'
  end.

Definition str_of_nat (n : nat) : string := str_of_nat_fuel (S n) n EmptyString.

(** [p] occurs in [s] as a contiguous run of characters. *)
Definition Substring (p s : string) : Prop :=
  exists pre post, s = pre ++ p ++ post.

End PyStr.

(** ** Section title detection (apiBridge.py, lines 143-154) *)

Module Title.
Import PyStr.

Definition markers : list string :=
  ["chapter"; "section"; "part"; "introduction"; "conclusion"].

(** The test of lines 148-152 on a line that has been stripped. *)
Definition is_title (line : string) : bool :=
  negb (is_empty line) && (5 <? len line) && (len line <? 80) &&
  (isupper line || istitle line ||
   existsb (fun marker => contains marker (lower line)) markers).

(** The [for ... break] loop over the candidate lines. *)
Fixpoint scan_lines (lines : list string) (section_title : string) : string :=
  match lines with
  | [] => section_title
  | line :: rest =>
      let line := strip line in
      if is_title line then line else scan_lines rest section_title
  end.

Definition section_title_of (text : string) : string :=
  scan_lines (firstn 15 (split_lines text)) "Unknown".

(** The detector of the notebook script (main.py, lines 74-79, with the
    [section_title or "Unknown"] of line 89): every line is scanned, and
    only the upper-case test and the lower length bound apply. *)
Fixpoint scan_lines_notebook (lines : list string) : string :=
  match lines with
  | [] => EmptyString
  | line :: rest =>
      if isupper (strip line) && (5 <? len (strip line))
      then strip line else scan_lines_notebook rest
  end.

Definition section_title_notebook (text : string) : string :=
  let t := scan_lines_notebook (split_lines text) in
  if is_empty t then "Unknown" else t.

(** The qualification test in the words of the specification. *)
Definition Qualifies (line : string) : Prop :=
  5 < len line /\ len line < 80 /\
  (isupper line = true \/ istitle line = true \/
   exists marker, In marker markers /\ Substring marker (lower line)).

(** The detector as the specification words it: the window is the first
    15 non-empty lines. *)
Definition section_title_spec (text : string) : string :=
  scan_lines
    (firstn 15 (filter (fun l => negb (is_empty l)) (split_lines text)))
    "Unknown".

(** The outcome of the detector on the lines of a page: the first line
    among the first 15 that qualifies, stripped, or the default. *)
Inductive FirstQualifying (lines : list string) : string -> Prop :=
| first_qualifying i l :
    i < 15 ->
    nth_error lines i = Some l ->
    Qualifies (strip l) ->
    (forall j l', j < i -> nth_error lines j = Some l' ->
                  ~ Qualifies (strip l')) ->
    FirstQualifying lines (strip l)
| none_qualifying :
    (forall j l', j < 15 -> nth_error lines j = Some l' ->
                  ~ Qualifies (strip l')) ->
    FirstQualifying lines "Unknown".

(** Fifteen empty lines, then a heading. *)
Definition late_heading : string :=
  nl ++ nl ++ nl ++ nl ++ nl ++ nl ++ nl ++ nl ++ nl ++ nl ++
  nl ++ nl ++ nl ++ nl ++ nl ++ "CHAPTER ONE".

End Title.

(** ** Data model *)

(** A langchain [Document]: the chunk text and the metadata dictionary
    built at lines 170-179. *)
Record Document := mkDocument {
  page_content : string;
  source : string;
  source_path : string;
  page_number : nat;
  total_pages : nat;
  section : string;
  chunk_index : nat;
  extraction_method : string;
  processed_at : string
}.

(** The [pdf_info] dictionary of lines 109-117. *)
Record PdfInfo := mkPdfInfo {
  filename : string;
  full_path : string;
  info_processed_at : string;
  info_total_pages : nat
}.

(** A source-detail dictionary (lines 388-394). *)
Record SourceDetail := mkSourceDetail {
  pdf_name : string;
  sd_page_number : nat;
  sd_section : string;
  content_preview : string;
  sd_extraction_method : string
}.

(** An entry of [qa_log] (lines 398-404). *)
Record QAEntry := mkQAEntry {
  question : string;
  answer : string;
  sources : list string;
  source_details : list SourceDetail;
  timestamp : string
}.

(** An element of ["relevant_chunks"] (lines 410-415). *)
Record RelevantChunk := mkRelevantChunk {
  content : string;
  metadata : Document
}.

(** ** Insertion-ordered dictionaries *)

Module Dict.

Definition dict (V : Type) : Type := list (string * V).

Section Ops.
Context {V : Type}.

(** [d.get(k)] *)
Fixpoint dict_get (k : string) (d : dict V) : option V :=
  match d with
  | [] => None
  | (k', v) :: rest => if String.eqb k k' then Some v else dict_get k rest
  end.

(** [k in d] *)
Definition dict_mem (k : string) (d : dict V) : bool :=
  match dict_get k d with Some _ => true | None => false end.

(** [d[k] = v]: a present key keeps its position, a new one goes last. *)
Fixpoint dict_set (k : string) (v : V) (d : dict V) : dict V :=
  match d with
  | [] => [(k, v)]
  | (k', v') :: rest =>
      if String.eqb k k' then (k', v) :: rest
      else (k', v') :: dict_set k v rest
  end.

(** [del d[k]] on a present key (a no-operation on an absent one; the
    callers raise [KeyError] themselves). *)
Fixpoint dict_del (k : string) (d : dict V) : dict V :=
  match d with
  | [] => []
  | (k', v') :: rest =>
      if String.eqb k k' then rest else (k', v') :: dict_del k rest
  end.

(** [list(d.keys())] *)
Definition dict_keys (d : dict V) : list string := map fst d.

End Ops.

End Dict.
Import Dict.

(** ** Exceptions, outcomes and the processor state *)

Inductive Exc :=
| ValueError (msg : string)
| KeyError (key : string)
| CollaboratorError (who : string).

Inductive Outcome (A : Type) :=
| Returns (a : A)
| Raises (e : Exc).
Arguments Returns {A} a.
Arguments Raises {A} e.

(** The four stores of [PdfQAProcessor.__init__] (lines 50-53), together
    with what the environment remembers: how many times the clock was
    read, and the prompts sent to the generative model so far. *)
Record World (Ix : Type) := mkWorld {
  documents : dict (list Document);
  vectorstores : dict Ix;
  qa_log : list QAEntry;
  document_metadata : dict PdfInfo;
  clock_reads : nat;
  prompts_sent : list string
}.
Arguments mkWorld {Ix}.
Arguments documents {Ix} w.
Arguments vectorstores {Ix} w.
Arguments qa_log {Ix} w.
Arguments document_metadata {Ix} w.
Arguments clock_reads {Ix} w.
Arguments prompts_sent {Ix} w.

(** The collaborators outside the repository.  [None] stands for a raised
    exception. *)
Record Externals := mkExternals {
  Index : Type;
  (* os.path.basename *)
  basename : string -> string;
  (* fitz.open(path) and page.get_text() for every page, in page order *)
  fitz_open : string -> option (list string);
  (* convert_from_path, preprocess_image_for_ocr, image_to_string and
     image_to_data for one page of a file *)
  ocr_page : string -> nat -> option string;
  (* RecursiveCharacterTextSplitter(chunk_size=800, chunk_overlap=200,
     separators=[...]).split_text *)
  split_text : string -> list string;
  (* FAISS.from_documents(documents, embedding_model) *)
  from_documents : list Document -> option Index;
  (* vectordb.similarity_search_with_score(query, k) *)
  similarity_search_with_score :
    Index -> string -> nat -> option (list (Document * Q));
  (* model.generate_content(prompt).text, given the earlier prompts *)
  generate_content : list string -> string -> option string;
  (* datetime.now().isoformat() at the n-th reading of the clock *)
  isoformat_now : nat -> string
}.

(** Computations over the processor state that may raise. *)
Definition M (Ix A : Type) : Type := World Ix -> Outcome A * World Ix.

Definition ret {Ix A} (a : A) : M Ix A := fun w => (Returns a, w).

Definition raise {Ix A} (e : Exc) : M Ix A := fun w => (Raises e, w).

Definition bind {Ix A B} (m : M Ix A) (k : A -> M Ix B) : M Ix B :=
  fun w =>
    match m w with
    | (Returns a, w') => k a w'
    | (Raises e, w') => (Raises e, w')
    end.

(** [try: m except Exception as e: h e] *)
Definition try_except {Ix A} (m : M Ix A) (h : Exc -> M Ix A) : M Ix A :=
  fun w =>
    match m w with
    | (Returns a, w') => (Returns a, w')
    | (Raises e, w') => h e w'
    end.

Definition get {Ix} : M Ix (World Ix) := fun w => (Returns w, w).

Definition modify {Ix} (f : World Ix -> World Ix) : M Ix unit :=
  fun w => (Returns tt, f w).

Declare Scope py_scope.
Delimit Scope py_scope with py.
Notation "x <- m ;; k" := (bind m (fun x => k))
  (at level 61, m at next level, right associativity) : py_scope.
Notation "m ;;; k" := (bind m (fun _ => k))
  (at level 61, right associativity) : py_scope.
Local Open Scope py_scope.

Definition set_documents {Ix} (d : dict (list Document)) (w : World Ix) :=
  mkWorld d (vectorstores w) (qa_log w) (document_metadata w)
          (clock_reads w) (prompts_sent w).

Definition set_vectorstores {Ix} (v : dict Ix) (w : World Ix) :=
  mkWorld (documents w) v (qa_log w) (document_metadata w)
          (clock_reads w) (prompts_sent w).

Definition set_qa_log {Ix} (l : list QAEntry) (w : World Ix) :=
  mkWorld (documents w) (vectorstores w) l (document_metadata w)
          (clock_reads w) (prompts_sent w).

Definition set_document_metadata {Ix} (m : dict PdfInfo) (w : World Ix) :=
  mkWorld (documents w) (vectorstores w) (qa_log w) m
          (clock_reads w) (prompts_sent w).

(** The state right after [PdfQAProcessor()] (line 427). *)
Definition init_world {Ix} : World Ix := mkWorld [] [] [] [] 0 [].

(** [w'] differs from [w] at most in the number of clock readings. *)
Definition same_stores {Ix} (w w' : World Ix) : Prop :=
  documents w' = documents w /\ vectorstores w' = vectorstores w /\
  qa_log w' = qa_log w /\ document_metadata w' = document_metadata w /\
  prompts_sent w' = prompts_sent w.

(** ** The processor (class [PdfQAProcessor]) *)

Section Processor.
Import PyStr Title.

Variable ext : Externals.

Local Abbreviation Ix := (Index ext).
Local Abbreviation W := (World (Index ext)).

(** [datetime.now().isoformat()] *)
Definition now : M Ix string :=
  fun w =>
    (Returns (isoformat_now ext (clock_reads w)),
     mkWorld (documents w) (vectorstores w) (qa_log w) (document_metadata w)
             (S (clock_reads w)) (prompts_sent w)).

(** A call into a collaborator that may raise. *)
Definition call {A} (who : string) (r : option A) : M Ix A :=
  match r with
  | Some a => ret a
  | None => raise (CollaboratorError who)
  end.

(** *** extract_text_from_pdf (lines 102-192) *)

(** The test of line 169. *)
Definition keep_chunk (chunk : string) : bool :=
  negb (is_empty (strip chunk)) && (10 <? len (strip chunk)).

(** The test of line 157. *)
Definition skip_page (text : string) : bool :=
  is_empty (strip text) || (len (strip text) <? 20).

(** The loop of lines 168-180 over [enumerate(chunks)], from position
    [chunk_idx] on. *)
Fixpoint chunk_loop (pdf_path document_name : string)
    (page_num total : nat) (section_title method : string)
    (chunk_idx : nat) (chunks : list string) (all_docs : list Document)
  : M Ix (list Document) :=
  match chunks with
  | [] => ret all_docs
  | chunk :: rest =>
      if keep_chunk chunk then
        stamp <- now ;;
        chunk_loop pdf_path document_name page_num total section_title
          method (S chunk_idx) rest
          (all_docs ++
           [mkDocument chunk document_name pdf_path page_num total
              section_title chunk_idx method stamp])
      else
        chunk_loop pdf_path document_name page_num total section_title
          method (S chunk_idx) rest all_docs
  end.

(** Lines 120-129: the text layer of the page, or the OCR text when the
    text layer is blank ([None] when the OCR raises). *)
Definition extract_page (pdf_path : string) (page_num : nat)
    (page_text : string) : option (string * string) :=
  if is_empty (strip page_text)
  then option_map (pair "ocr") (ocr_page ext pdf_path page_num)
  else Some ("direct", page_text).

(** The body of the page loop (lines 120-180) for one page. *)
Definition page_body (pdf_path document_name : string)
    (page_num total : nat) (page_text : string) (all_docs : list Document)
  : M Ix (list Document) :=
  extracted <- call "ocr" (extract_page pdf_path page_num page_text) ;;
  let extraction_method := fst extracted in
  let text := snd extracted in
  let section_title := section_title_of text in
  if skip_page text then ret all_docs
  else
    chunk_loop pdf_path document_name page_num total section_title
      extraction_method 0 (split_text ext text) all_docs.

(** The loop of line 119 over [enumerate(doc, start=1)]. *)
Fixpoint page_loop (pdf_path document_name : string)
    (page_num total : nat) (pages : list string) (all_docs : list Document)
  : M Ix (list Document) :=
  match pages with
  | [] => ret all_docs
  | page_text :: rest =>
      all_docs' <- page_body pdf_path document_name page_num total
                     page_text all_docs ;;
      page_loop pdf_path document_name (S page_num) total rest all_docs'
  end.

Definition extract_text_from_pdf (pdf_path document_name : string)
  : M Ix (list Document) :=
  stamp <- now ;;
  pages <- call "fitz" (fitz_open ext pdf_path) ;;
  let total := List.length pages in
  all_docs <- page_loop pdf_path document_name 1 total pages [] ;;
  modify (fun w =>
    set_document_metadata
      (dict_set document_name
         (mkPdfInfo document_name pdf_path stamp total)
         (document_metadata w)) w) ;;;
  ret all_docs.

(** *** create_vectorstore (lines 194-203) *)

Definition create_vectorstore (docs : list Document) : M Ix Ix :=
  call "faiss" (from_documents ext docs).

(** *** search_similar_chunks (lines 205-226) *)

(** [docs_with_scores.sort(key=lambda x: x[1])]: a stable sort on the
    distance. *)
Fixpoint insert_by_score (x : Document * Q) (l : list (Document * Q))
  : list (Document * Q) :=
  match l with
  | [] => [x]
  | y :: rest =>
      if Qle_bool (snd x) (snd y) then x :: y :: rest
      else y :: insert_by_score x rest
  end.

Fixpoint sort_by_score (l : list (Document * Q)) : list (Document * Q) :=
  match l with
  | [] => []
  | x :: rest => insert_by_score x (sort_by_score rest)
  end.

Definition search_similar_chunks (query document_id : string) (top_k : nat)
  : M Ix (list Document) :=
  w <- get ;;
  match dict_get document_id (vectorstores w) with
  | None => raise (ValueError ("Document " ++ document_id ++ " not found"))
  | Some vectordb =>
      docs_with_scores <-
        call "faiss" (similarity_search_with_score ext vectordb query top_k) ;;
      let docs_with_scores := sort_by_score docs_with_scores in
      let relevant_docs := map fst docs_with_scores in
      ret relevant_docs
  end.

(** *** format_source_info (lines 228-239) *)

Definition page_emoji : string :=
  String (ascii_of_nat 240) (String (ascii_of_nat 159)
    (String (ascii_of_nat 147) (String (ascii_of_nat 132) EmptyString))).

Definition bullet : string :=
  String (ascii_of_nat 226) (String (ascii_of_nat 128)
    (String (ascii_of_nat 162) EmptyString)).

Definition format_source_info (doc : Document) : string :=
  let source_info :=
    page_emoji ++ " " ++ source doc ++ " | Page " ++
    str_of_nat (page_number doc) in
  if negb (is_empty (section doc)) && negb (String.eqb (section doc) "Unknown")
  then source_info ++ " | Section: " ++ section doc
  else source_info.

(** *** generate_answer (lines 241-288) *)

Definition dquote : string := String (ascii_of_nat 34) EmptyString.

(** [enumerate(relevant_docs, 1)] building [context_parts]. *)
Fixpoint context_parts (i : nat) (relevant_docs : list Document)
  : list string :=
  match relevant_docs with
  | [] => []
  | doc :: rest =>
      ("[SOURCE " ++ str_of_nat i ++ "] " ++ format_source_info doc ++ nl ++
       page_content doc ++ nl) :: context_parts (S i) rest
  end.

Definition make_prompt (query : string) (relevant_docs : list Document)
  : string :=
  let context := join nl (context_parts 1 relevant_docs) in
  nl ++
  "You are a helpful assistant that answers questions based on PDF documents. " ++ nl ++
  "Use the following context to answer the question. ALWAYS mention the source document name and page number when referencing information." ++ nl ++
  nl ++
  "Context:" ++ nl ++
  context ++ nl ++
  nl ++
  "Question: " ++ query ++ nl ++
  nl ++
  "Instructions:" ++ nl ++
  "1. Provide a comprehensive answer based on the context" ++ nl ++
  "2. ALWAYS cite your sources by mentioning the document name and page number like: " ++
    dquote ++ "According to [Document Name], page [X]..." ++ dquote ++ nl ++
  "3. If information comes from multiple sources, cite all relevant sources" ++ nl ++
  "4. Format your citations clearly in your response" ++ nl ++
  "5. If you cannot find relevant information in the context, state that clearly" ++ nl ++
  nl ++
  "Answer:" ++ nl.

(** [self.model.generate_content(prompt).text] *)
Definition ask_model (prompt : string) : M Ix string :=
  fun w =>
    let w' := mkWorld (documents w) (vectorstores w) (qa_log w)
                (document_metadata w) (clock_reads w)
                (prompts_sent w ++ [prompt]) in
    match generate_content ext (prompts_sent w) prompt with
    | Some text => (Returns text, w')
    | None => (Raises (CollaboratorError "gemini"), w')
    end.

(** The loop of lines 280-281. *)
Fixpoint sources_summary (acc : string) (relevant_docs : list Document)
  : string :=
  match relevant_docs with
  | [] => acc
  | doc :: rest =>
      sources_summary (acc ++ bullet ++ " " ++ format_source_info doc ++ nl)
        rest
  end.

(** Lines 277-282. *)
Definition add_sources (answer : string) (relevant_docs : list Document)
  : string :=
  if negb (contains "page" (lower answer)) &&
     negb (contains "source" (lower answer))
  then answer ++ sources_summary (nl ++ nl ++ "Sources:" ++ nl) relevant_docs
  else answer.

Definition generate_answer (query : string) (relevant_docs : list Document)
  : M Ix string :=
  answer <- ask_model (make_prompt query relevant_docs) ;;
  ret (add_sources answer relevant_docs).

(** *** process_pdf (lines 325-356) *)

Record ProcessResult := mkProcessResult {
  pr_document_id : string;
  pr_document_name : string;
  pr_status : string;
  chunks_count : nat;
  (* [None] is the string "Unknown" of the [.get] defaults *)
  pr_total_pages : option nat;
  pr_processed_at : string
}.

Definition is_nil {A} (l : list A) : bool :=
  match l with [] => true | _ :: _ => false end.

Definition process_pdf (pdf_path document_id : string) : M Ix ProcessResult :=
  let document_name := basename ext pdf_path in
  docs <- extract_text_from_pdf pdf_path document_name ;;
  if is_nil docs
  then raise (ValueError "No text could be extracted from the PDF")
  else
    vectorstore <- create_vectorstore docs ;;
    modify (fun w => set_documents (dict_set document_id docs (documents w)) w) ;;;
    modify (fun w =>
      set_vectorstores (dict_set document_id vectorstore (vectorstores w)) w) ;;;
    w <- get ;;
    let total :=
      option_map info_total_pages
        (dict_get document_name (document_metadata w)) in
    stamp <- now ;;
    ret (mkProcessResult document_id document_name "success" (List.length docs)
           total stamp).

(** *** answer_question (lines 358-423) *)

(** [doc.page_content[:n].strip() + ("..." if len(doc.page_content) > n
    else "")] *)
Definition preview (n : nat) (doc : Document) : string :=
  strip (take n (page_content doc)) ++
  (if n <? len (page_content doc) then "..." else EmptyString).

Definition source_detail_of (doc : Document) : SourceDetail :=
  mkSourceDetail (source doc) (page_number doc) (section doc)
    (preview 200 doc) (extraction_method doc).

Definition relevant_chunk_of (doc : Document) : RelevantChunk :=
  mkRelevantChunk (preview 300 doc) doc.

(** The loop of lines 384-395 (and of lines 526-537), appending to the
    two lists it is given. *)
Fixpoint collect_sources (relevant_docs : list Document)
    (sources : list string) (source_details : list SourceDetail)
  : list string * list SourceDetail :=
  match relevant_docs with
  | [] => (sources, source_details)
  | doc :: rest =>
      collect_sources rest (sources ++ [format_source_info doc])
        (source_details ++ [source_detail_of doc])
  end.

(** The dictionary returned by [answer_question]; the early return of
    lines 370-375 has no ["relevant_chunks"] key. *)
Record Answer := mkAnswer {
  ans_answer : string;
  ans_sources : list string;
  ans_source_details : list SourceDetail;
  ans_relevant_chunks : option (list RelevantChunk);
  ans_answered_at : string
}.

Definition no_information : string :=
  "I couldn't find relevant information in the document to answer your question.".

Definition append_log (entry : QAEntry) : M Ix unit :=
  modify (fun w => set_qa_log (qa_log w ++ [entry]) w).

Definition answer_question (document_id question : string) : M Ix Answer :=
  w <- get ;;
  if negb (dict_mem document_id (documents w))
  then raise (ValueError ("Document " ++ document_id ++
                 " not found. Please upload and process the PDF first."))
  else
    relevant_docs <- search_similar_chunks question document_id 5 ;;
    if is_nil relevant_docs then
      stamp <- now ;;
      ret (mkAnswer no_information [] [] None stamp)
    else
      answer <- generate_answer question relevant_docs ;;
      let collected := collect_sources relevant_docs [] [] in
      let sources := fst collected in
      let source_details := snd collected in
      stamp <- now ;;
      append_log (mkQAEntry question answer sources source_details stamp) ;;;
      answered_at <- now ;;
      ret (mkAnswer answer sources source_details
             (Some (map relevant_chunk_of relevant_docs)) answered_at).

(** ** The Flask handlers that touch the stores *)

Inductive Body :=
| ErrorBody (error : string) (details : option Exc)
| StatusBody (status message stamp : string)
| DeletedBody (message document_id document_name : string)
| NoAnswerBody (text : string) (documents_searched : nat)
    (answered_at : string)
| AnswerBody (text : string) (cited : list string)
    (cited_details : list SourceDetail)
    (relevant_chunks : list RelevantChunk) (documents_searched : nat)
    (answered_at : string).

(** A JSON body with its HTTP status. *)
Definition Response : Type := Body * nat.

(** [except Exception as e: return jsonify({"error": "Internal server
    error", "details": str(e)}), 500] *)
Definition internal_error (e : Exc) : M Ix Response :=
  ret (ErrorBody "Internal server error" (Some e), 500).

(** *** initialize (lines 429-444) and clear_documents (lines 703-718) *)

Definition clear_stores (w : W) : W :=
  set_document_metadata [] (set_qa_log [] (set_vectorstores []
    (set_documents [] w))).

Definition initialize : M Ix Response :=
  try_except
    (modify clear_stores ;;;
     stamp <- now ;;
     ret (StatusBody "success"
            "PDF Q&A processor initialized successfully" stamp, 200))
    (fun e => ret (ErrorBody "Failed to initialize" (Some e), 500)).

Definition clear_documents : M Ix Response :=
  try_except
    (modify clear_stores ;;;
     stamp <- now ;;
     ret (StatusBody "success"
            "All documents and Q&A history cleared successfully" stamp, 200))
    internal_error.

(** *** delete_document (lines 776-801) *)

Definition delete_document (document_id : string) : M Ix Response :=
  try_except
    (w <- get ;;
     match dict_get document_id (documents w) with
     | None => ret (ErrorBody "Document not found" None, 404)
     | Some docs =>
         let doc_name :=
           match docs with
           | [] => "Unknown"
           | first :: _ => source first
           end in
         modify (fun w => set_documents (dict_del document_id (documents w)) w) ;;;
         w1 <- get ;;
         if dict_mem document_id (vectorstores w1) then
           modify (fun w =>
             set_vectorstores (dict_del document_id (vectorstores w)) w) ;;;
           modify (fun w =>
             if dict_mem doc_name (document_metadata w)
             then set_document_metadata
                    (dict_del doc_name (document_metadata w)) w
             else w) ;;;
           ret (DeletedBody "Document deleted successfully" document_id
                  doc_name, 200)
         else raise (KeyError document_id)
     end)
    internal_error.

(** *** ask_question_multiple (lines 501-578) *)

Definition Found : Type :=
  list Document * list string * list SourceDetail.

(** Lines 524-537: [extend], then the inner loop. *)
Definition extend_found (acc : Found) (relevant_docs : list Document)
  : Found :=
  let '(all_relevant_docs, all_sources, all_source_details) := acc in
  let collected :=
    collect_sources relevant_docs all_sources all_source_details in
  ((all_relevant_docs ++ relevant_docs)%list, fst collected, snd collected).

(** The loop of lines 521-540 over [processor.documents.keys()]. *)
Fixpoint search_loop (question : string) (document_ids : list string)
    (acc : Found) : M Ix Found :=
  match document_ids with
  | [] => ret acc
  | document_id :: rest =>
      acc' <-
        try_except
          (relevant_docs <- search_similar_chunks question document_id 3 ;;
           ret (extend_found acc relevant_docs))
          (fun _ => ret acc) ;;
      search_loop question rest acc'
  end.

Definition no_information_any : string :=
  "I couldn't find relevant information in any of the processed documents.".

(** [data] is the ["question"] field of the request body, if there is
    one. *)
Definition ask_question_multiple (data : option string) : M Ix Response :=
  try_except
    (match data with
     | None => ret (ErrorBody "Missing question" None, 400)
     | Some question =>
         if is_empty (strip question)
         then ret (ErrorBody "Question cannot be empty" None, 400)
         else
           w <- get ;;
           if is_nil (documents w)
           then ret (ErrorBody
                  "No documents found. Please upload and process PDFs first."
                  None, 400)
           else
             found <- search_loop question (dict_keys (documents w))
                        ([], [], []) ;;
             let '(all_relevant_docs, all_sources, all_source_details) :=
               found in
             if is_nil all_relevant_docs then
               w' <- get ;;
               stamp <- now ;;
               ret (NoAnswerBody no_information_any
                      (List.length (documents w')) stamp, 200)
             else
               answer <- generate_answer question
                           (firstn 5 all_relevant_docs) ;;
               stamp <- now ;;
               append_log (mkQAEntry question answer (firstn 5 all_sources)
                             (firstn 5 all_source_details) stamp) ;;;
               w' <- get ;;
               answered_at <- now ;;
               ret (AnswerBody answer (firstn 5 all_sources)
                      (firstn 5 all_source_details)
                      (map relevant_chunk_of (firstn 5 all_relevant_docs))
                      (List.length (documents w')) answered_at, 200)
     end)
    internal_error.

(** ** Reachable states

    The operations that write to a store, started from the state left by
    the constructor. *)
Inductive step : W -> W -> Prop :=
| step_process_pdf pdf_path document_id w :
    step w (snd (process_pdf pdf_path document_id w))
| step_delete_document document_id w :
    step w (snd (delete_document document_id w))
| step_clear_documents w :
    step w (snd (clear_documents w))
| step_initialize w :
    step w (snd (initialize w))
| step_answer_question document_id question w :
    step w (snd (answer_question document_id question w))
| step_ask_question_multiple data w :
    step w (snd (ask_question_multiple data w)).

Inductive reachable : W -> Prop :=
| reachable_init : reachable init_world
| reachable_step w w' : reachable w -> step w w' -> reachable w'.

End Processor.

(** ** Notions used in the statements *)

(** The value of a call that returned. *)
Definition returned {A} (o : Outcome A) : option A :=
  match o with Returns a => Some a | Raises _ => None end.

(** The chunks of a splitter output that pass the test of line 169, each
    with its position in that output, counted from [chunk_idx]. *)
Definition retained (chunk_idx : nat) (chunks : list string)
  : list (nat * string) :=
  filter (fun p => keep_chunk (snd p))
    (combine (seq chunk_idx (List.length chunks)) chunks).

(** [documents] and [vectorstores] list the same identifiers, in the same
    order. *)
Definition keys_agree {Ix} (w : World Ix) : Prop :=
  dict_keys (documents w) = dict_keys (vectorstores w).

(** One line of the "Sources:" block, and the block for a chunk list. *)
Definition source_line (doc : Document) : string :=
  bullet ++ " " ++ format_source_info doc ++ PyStr.nl.

Definition sources_block (docs : list Document) : string :=
  PyStr.nl ++ PyStr.nl ++ "Sources:" ++ PyStr.nl ++
  String.concat EmptyString (map source_line docs).

(** The chunks that the cross-document handler gets from one document:
    those of a search with [top_k = 3], none when the search raises. *)
Definition per_document_hits (ext : Externals) (question : string)
    (w : World (Index ext)) (document_id : string) : list Document :=
  match fst (search_similar_chunks ext question document_id 3 w) with
  | Returns relevant_docs => relevant_docs
  | Raises _ => []
  end.

(** ** A small installation used to run the model

    Test doubles for the collaborators: two readable files, a splitter that
    cuts at line breaks, an index that keeps the chunks it was built from
    and reports a distance that shrinks with the chunk position (and finds
    nothing for the query "?"), a model with one fixed reply, and a clock
    that counts. *)

Module Demo.
Import PyStr.

Definition guide_page_1 : string :=
  "INTRODUCTION TO WIDGETS" ++ nl ++ "Hi" ++ nl ++
  "Widgets are covered in depth here.".

Definition guide_page_2 : string :=
  "Warranty terms last two years." ++ nl ++ "See annex.".

Definition guide_page_3 : string := "The end.".

Fixpoint posix_basename (cur path : string) : string :=
  match path with
  | EmptyString => cur
  | String c r =>
      if Ascii.eqb c "/"%char then posix_basename EmptyString r
      else posix_basename (cur ++ String c EmptyString) r
  end.

Definition demo_open (path : string) : option (list string) :=
  if String.eqb path "/data/guide.pdf"
  then Some [guide_page_1; guide_page_2; guide_page_3]
  else if String.eqb path "/data/memo.pdf" then Some ["Short memo."]
  else None.

Definition demo_distance (d : Document) : Q :=
  inject_Z (Z.of_nat (10 - chunk_index d)).

Definition demo : Externals :=
  mkExternals
    (list Document)
    (posix_basename EmptyString)
    demo_open
    (fun _ _ => Some EmptyString)
    split_lines
    (fun docs => Some docs)
    (fun index query k =>
       if String.eqb query "?" then Some []
       else Some (firstn k (map (fun d => (d, demo_distance d)) index)))
    (fun _ _ => Some "Widgets are covered in depth.")
    (fun n => "2024-01-01T00:00:0" ++ str_of_nat n).

Definition start : World (Index demo) := init_world.

(** The chunks of the guide and the state after extracting them. *)
Definition guide_docs : list Document :=
  match fst (extract_text_from_pdf demo "/data/guide.pdf" "guide.pdf" start)
  with
  | Returns docs => docs
  | Raises _ => []
  end.

Definition after_extraction : World (Index demo) :=
  snd (extract_text_from_pdf demo "/data/guide.pdf" "guide.pdf" start).

(** The state after ingesting the guide as [doc_1]. *)
Definition with_guide : World (Index demo) :=
  snd (process_pdf demo "/data/guide.pdf" "doc_1" start).

(** The state after ingesting the guide a second time, as [doc_2]. *)
Definition two_guides : World (Index demo) :=
  snd (process_pdf demo "/data/guide.pdf" "doc_2" with_guide).

(** What the index of [doc_1] reports for a query with [k = 3]. *)
Definition guide_raw : list (Document * Q) :=
  firstn 3 (map (fun d => (d, demo_distance d)) guide_docs).

(** The chunks that the page loop makes of the first page of the guide. *)
Definition first_page_docs : list Document :=
  match returned (fst (page_body demo "/data/guide.pdf" "guide.pdf" 1 3
                         guide_page_1 [] start)) with
  | Some docs => docs
  | None => []
  end.

(** A question made of U+00A0 (no-break space) and a space. *)
Definition blank_question : string :=
  String (ascii_of_nat 194) (String (ascii_of_nat 160) " ").

(** The chunks that a cross-document question uses in [two_guides]. *)
Definition used_chunks : list Document :=
  firstn 5 (List.concat (map (per_document_hits demo "What is covered?"
                                two_guides)
                           (dict_keys (documents two_guides)))).

End Demo.

(** ** The remaining handlers *)

(** What the batch and upload handlers take from outside the repository. *)
Record BatchExternals := mkBatchExternals {
  (* os.path.exists *)
  path_exists : string -> bool;
  (* datetime.now().strftime('%Y%m%d_%H%M%S') at the n-th reading of the
     clock *)
  strftime_now : nat -> string;
  (* abs(hash(s)) % 10000 *)
  hash_mod_10000 : string -> nat
}.

(** [s.endswith(suffix)] *)
Fixpoint endswith (suffix s : string) : bool :=
  String.eqb s suffix ||
  match s with
  | EmptyString => false
  | String _ r => endswith suffix r
  end.

(** The ["PdfPaths"] field of the body of a [/process] request. *)
Inductive PdfPathsField :=
| PathsMissing
| PathsNotAList
| PathsList (pdf_paths : list string).

(** An element of ["results"] (lines 465-483). *)
Inductive FileResult :=
| FileNotFound (pdf_path : string)
| FileFailed (pdf_path : string) (e : Exc)
| FileProcessed (result : ProcessResult) (pdf_path : string).

(** [r.get("status")] and [r["pdf_path"]] *)
Definition result_status (r : FileResult) : string :=
  match r with
  | FileProcessed result _ => pr_status result
  | FileNotFound _ | FileFailed _ _ => "error"
  end.

Definition result_path (r : FileResult) : string :=
  match r with
  | FileProcessed _ pdf_path | FileNotFound pdf_path
  | FileFailed pdf_path _ => pdf_path
  end.

Inductive BatchBody :=
| BatchError (error : string) (details : option Exc)
| BatchCompleted (status : string) (total_files successful failed : nat)
    (results : list FileResult) (processed_at : string).

Inductive UploadBody :=
| UploadError (error : string) (details : option Exc)
| UploadDone (result : ProcessResult).

(** The body of [/ask/<document_id>]: an error, or the dictionary that
    [answer_question] builds. *)
Inductive SingleBody :=
| SingleError (error : string) (details : option Exc)
| SingleAnswer (a : Answer).

(** A [doc_info] dictionary (lines 676-695 and 750-763); an absent key is
    [None]. *)
Record DocInfo := mkDocInfo {
  di_document_id : string;
  di_chunks_count : nat;
  di_status : string;
  di_document_name : option string;
  di_total_pages : option nat;
  di_processed_at : option string;
  di_content : option (list Document)
}.

(** The body of [/documents]. *)
Record Listing := mkListing {
  listed : list DocInfo;
  total_count : nat;
  qa_history_count : nat;
  listed_metadata : dict PdfInfo
}.

(** The body of [/export/json]. *)
Record Export := mkExport {
  exported_at : string;
  total_documents : nat;
  exported_metadata : dict PdfInfo;
  qa_history : list QAEntry;
  exported : list DocInfo
}.

(** The bodies of [/health] and [/test]. *)
Record Health := mkHealth {
  health_status : string;
  health_timestamp : string;
  version : string;
  documents_loaded : nat;
  vectorstores_loaded : nat
}.

Record TestReply := mkTestReply {
  test_status : string;
  test_message : string;
  test_timestamp : string;
  method : string;
  documents_count : nat;
  vectorstores_count : nat;
  test_qa_history_count : nat
}.

Section Handlers.
Import PyStr.

Variable ext : Externals.
Variable bext : BatchExternals.

Local Abbreviation Ix := (Index ext).
Local Abbreviation W := (World (Index ext)).

(** [datetime.now().strftime('%Y%m%d_%H%M%S')] *)
Definition strftime : M Ix string :=
  fun w =>
    (Returns (strftime_now bext (clock_reads w)),
     mkWorld (documents w) (vectorstores w) (qa_log w) (document_metadata w)
             (S (clock_reads w)) (prompts_sent w)).

(** *** process_pdfs (lines 447-498) *)

(** The identifier of line 472. *)
Definition batch_document_id (stamp : string) (i : nat) (pdf_path : string)
  : string :=
  "doc_" ++ stamp ++ "_" ++ str_of_nat i ++ "_" ++
  str_of_nat (hash_mod_10000 bext pdf_path).

(** The body of the loop of line 461 for the file at position [i]. *)
Definition batch_file (i : nat) (pdf_path : string) : M Ix FileResult :=
  try_except
    (if negb (path_exists bext pdf_path) then ret (FileNotFound pdf_path)
     else
       stamp <- strftime ;;
       let document_id := batch_document_id stamp i pdf_path in
       result <- process_pdf ext pdf_path document_id ;;
       ret (FileProcessed result pdf_path))
    (fun e => ret (FileFailed pdf_path e)).

(** The loop of lines 461-483 over [enumerate(pdf_paths)], from position
    [i] on. *)
Fixpoint batch_loop (i : nat) (pdf_paths : list string)
    (results : list FileResult) : M Ix (list FileResult) :=
  match pdf_paths with
  | [] => ret results
  | pdf_path :: rest =>
      r <- batch_file i pdf_path ;;
      batch_loop (S i) rest (results ++ [r])
  end.

Definition count_successful (results : list FileResult) : nat :=
  List.length
    (filter (fun r => String.eqb (result_status r) "success") results).

Definition process_pdfs (data : PdfPathsField) : M Ix (BatchBody * nat) :=
  try_except
    (match data with
     | PathsMissing => ret (BatchError "Missing PdfPaths" None, 400)
     | PathsNotAList =>
         ret (BatchError "PdfPaths must be a non-empty list" None, 400)
     | PathsList pdf_paths =>
         if is_nil pdf_paths
         then ret (BatchError "PdfPaths must be a non-empty list" None, 400)
         else
           results <- batch_loop 0 pdf_paths [] ;;
           let successful := count_successful results in
           let failed := List.length results - successful in
           stamp <- now ext ;;
           ret (BatchCompleted "completed" (List.length pdf_paths) successful
                  failed results stamp, 200)
     end)
    (fun e => ret (BatchError "Internal server error" (Some e), 500)).

(** *** upload_pdf (lines 721-742)

    [file] is the name of the uploaded ["file"] part, if there is one;
    [tmp_name] is the name that [NamedTemporaryFile] gives the copy. *)

Definition upload_document_id (stamp filename : string) : string :=
  "doc_" ++ stamp ++ "_" ++ str_of_nat (hash_mod_10000 bext filename).

Definition upload_pdf (file : option string) (tmp_name : string)
  : M Ix (UploadBody * nat) :=
  try_except
    (match file with
     | None => ret (UploadError "No file provided" None, 400)
     | Some filename =>
         if is_empty filename
         then ret (UploadError "No file selected" None, 400)
         else if negb (endswith ".pdf" (lower filename))
         then ret (UploadError "Only PDF files are supported" None, 400)
         else
           stamp <- strftime ;;
           let document_id := upload_document_id stamp filename in
           result <- process_pdf ext tmp_name document_id ;;
           ret (UploadDone result, 200)
     end)
    (fun e => ret (UploadError "Internal server error" (Some e), 500)).

(** *** ask_question_single (lines 581-644) *)

Definition ask_question_single (document_id : string) (data : option string)
  : M Ix (SingleBody * nat) :=
  try_except
    (match data with
     | None => ret (SingleError "Missing question" None, 400)
     | Some question =>
         if is_empty (strip question)
         then ret (SingleError "Question cannot be empty" None, 400)
         else
           w <- get ;;
           if negb (dict_mem document_id (documents w))
           then ret (SingleError
                  ("Document " ++ document_id ++
                   " not found. Please upload and process the PDF first.")
                  None, 404)
           else
             relevant_docs <-
               search_similar_chunks ext question document_id 5 ;;
             if is_nil relevant_docs then
               stamp <- now ext ;;
               ret (SingleAnswer (mkAnswer no_information [] [] None stamp),
                    200)
             else
               answer <- generate_answer ext question relevant_docs ;;
               let collected := collect_sources relevant_docs [] [] in
               let sources := fst collected in
               let source_details := snd collected in
               stamp <- now ext ;;
               append_log ext
                 (mkQAEntry question answer sources source_details stamp) ;;;
               answered_at <- now ext ;;
               ret (SingleAnswer
                      (mkAnswer answer sources source_details
                         (Some (map relevant_chunk_of relevant_docs))
                         answered_at), 200)
     end)
    (fun e => ret (SingleError "Internal server error" (Some e), 500)).

(** *** list_documents (lines 745-773) and export_qa_json (lines 662-700) *)

(** The [doc_info] of one entry of [documents]; [with_processed_at] and
    [include_content] tell the two handlers apart. *)
Definition doc_info (with_processed_at include_content : bool)
    (entry : string * list Document) : DocInfo :=
  let doc_id := fst entry in
  let docs := snd entry in
  let first_doc := hd_error docs in
  mkDocInfo doc_id (List.length docs) "processed"
    (option_map source first_doc)
    (option_map total_pages first_doc)
    (if with_processed_at then option_map processed_at first_doc else None)
    (if include_content then Some docs else None).

Definition list_documents : M Ix (Listing * nat) :=
  w <- get ;;
  let infos := map (doc_info true false) (documents w) in
  ret (mkListing infos (List.length infos) (List.length (qa_log w))
         (document_metadata w), 200).

Definition export_qa_json (include_content : bool) : M Ix (Export * nat) :=
  stamp <- now ext ;;
  w <- get ;;
  ret (mkExport stamp (List.length (documents w)) (document_metadata w)
         (qa_log w) (map (doc_info false include_content) (documents w)),
       200).

(** *** health_check (lines 804-812) and test_endpoint (lines 815-829) *)

Definition health_check : M Ix (Health * nat) :=
  stamp <- now ext ;;
  w <- get ;;
  ret (mkHealth "healthy" stamp "1.0.0" (List.length (documents w))
         (List.length (vectorstores w)), 200).

Definition test_endpoint (request_method : string) : M Ix (TestReply * nat) :=
  stamp <- now ext ;;
  w <- get ;;
  ret (mkTestReply "success" "Test endpoint working" stamp request_method
         (List.length (documents w)) (List.length (vectorstores w))
         (List.length (qa_log w)), 200).

(** ** Every way into the processor

    A request to one of the handlers, or a direct call of [process_pdf]
    or [answer_question]; no handler calls [extract_text_from_pdf] or
    [create_vectorstore] other than through [process_pdf]. *)
Inductive Request :=
| ReqInitialize
| ReqProcess (data : PdfPathsField)
| ReqAsk (data : option string)
| ReqAskSingle (document_id : string) (data : option string)
| ReqExportJson (include_content : bool)
| ReqClear
| ReqUpload (file : option string) (tmp_name : string)
| ReqList
| ReqDelete (document_id : string)
| ReqHealth
| ReqTest (request_method : string)
| CallProcessPdf (pdf_path document_id : string)
| CallAnswerQuestion (document_id question : string).

(** The state that a request leaves behind. *)
Definition handle (r : Request) (w : W) : W :=
  match r with
  | ReqInitialize => snd (initialize ext w)
  | ReqProcess data => snd (process_pdfs data w)
  | ReqAsk data => snd (ask_question_multiple ext data w)
  | ReqAskSingle document_id data =>
      snd (ask_question_single document_id data w)
  | ReqExportJson include_content => snd (export_qa_json include_content w)
  | ReqClear => snd (clear_documents ext w)
  | ReqUpload file tmp_name => snd (upload_pdf file tmp_name w)
  | ReqList => snd (list_documents w)
  | ReqDelete document_id => snd (delete_document ext document_id w)
  | ReqHealth => snd (health_check w)
  | ReqTest request_method => snd (test_endpoint request_method w)
  | CallProcessPdf pdf_path document_id =>
      snd (process_pdf ext pdf_path document_id w)
  | CallAnswerQuestion document_id question =>
      snd (answer_question ext document_id question w)
  end.

Inductive served : W -> Prop :=
| served_init : served init_world
| served_request w r : served w -> served (handle r w).

End Handlers.

(** ** Notions used in the statements about the whole service *)

(** Where a chunk sits in its document, and the order of the pages and of
    the splitter output within a page. *)
Definition chunk_position (d : Document) : nat * nat :=
  (page_number d, chunk_index d).

Definition position_lt (a b : nat * nat) : Prop :=
  fst a < fst b \/ (fst a = fst b /\ snd a < snd b).

(** A chunk as extraction makes it. *)
Definition well_formed_chunk (d : Document) : Prop :=
  10 < PyStr.len (PyStr.strip (page_content d)) /\
  1 <= page_number d /\ page_number d <= total_pages d /\
  (extraction_method d = "direct" \/ extraction_method d = "ocr").

(** Two chunks of one file. *)
Definition same_origin (d d' : Document) : Prop :=
  source d = source d' /\ source_path d = source_path d' /\
  total_pages d = total_pages d'.

(** A chunk list as ingestion registers it. *)
Definition well_formed_chunks (docs : list Document) : Prop :=
  docs <> [] /\
  Forall well_formed_chunk docs /\
  (forall d d', In d docs -> In d' docs -> same_origin d d') /\
  StronglySorted position_lt (map chunk_position docs).

(** The stores fit together: same identifiers on both sides, each index
    built from the chunk list beside it, every chunk list well formed,
    every metadata entry filed under its own file name, every log entry
    with as many source labels as source details. *)
Definition stores_consistent (ext : Externals) (w : World (Index ext))
  : Prop :=
  keys_agree w /\
  NoDup (dict_keys (documents w)) /\
  NoDup (dict_keys (document_metadata w)) /\
  (forall document_id docs,
     dict_get document_id (documents w) = Some docs ->
     well_formed_chunks docs /\
     exists index,
       dict_get document_id (vectorstores w) = Some index /\
       from_documents ext docs = Some index) /\
  (forall name info,
     dict_get name (document_metadata w) = Some info ->
     filename info = name /\ basename ext (full_path info) = name) /\
  Forall (fun entry =>
            List.length (sources entry) = List.length (source_details entry))
         (qa_log w).

(** The requests that empty the stores. *)
Definition is_reset (r : Request) : bool :=
  match r with
  | ReqInitialize | ReqClear => true
  | _ => false
  end.

(** The number that a string of decimal digits writes after the digits
    of [v], and whether a character occurs in a string. *)
Fixpoint digits_value (v : nat) (s : string) : nat :=
  match s with
  | EmptyString => v
  | String c r => digits_value (10 * v + (nat_of_ascii c - 48)) r
  end.

Fixpoint has_char (c : ascii) (s : string) : bool :=
  match s with
  | EmptyString => false
  | String c' r => Ascii.eqb c c' || has_char c r
  end.

(** ** The small installation, with its request handlers *)

Module Site.
Import PyStr Demo.

(** The two files of [Demo] exist; an identifier carries a time stamp of
    15 characters and the length of the name in place of its hash. *)
Definition site : BatchExternals :=
  mkBatchExternals
    (fun path => String.eqb path "/data/guide.pdf" ||
                 String.eqb path "/data/memo.pdf")
    (fun n => "20240101_00000" ++ digit (n mod 10))
    (fun s => length s).

(** The chunk list registered under an identifier, and its first chunk. *)
Definition registered (w : World (Index demo)) (document_id : string)
  : list Document :=
  match dict_get document_id (documents w) with
  | Some docs => docs
  | None => []
  end.

Definition blank : Document :=
  mkDocument EmptyString EmptyString EmptyString 0 0 EmptyString 0
    EmptyString EmptyString.

Definition first_chunk (w : World (Index demo)) (document_id : string)
  : Document :=
  hd blank (registered w document_id).

(** A batch of three paths, the second of which does not exist. *)
Definition batch_paths : list string :=
  ["/data/guide.pdf"; "/data/none.pdf"; "/data/guide.pdf"].

Definition batch_run :=
  process_pdfs demo site (PathsList batch_paths) start.

Definition batch_results : list FileResult :=
  match fst batch_run with
  | Returns (BatchCompleted _ _ _ _ results _, _) => results
  | _ => []
  end.

Definition batch_stamp : string :=
  match fst batch_run with
  | Returns (BatchCompleted _ _ _ _ _ stamp, _) => stamp
  | _ => EmptyString
  end.

(** The outcome of ingesting the guide as [doc_3] in [two_guides]. *)
Definition third_result : ProcessResult :=
  match fst (process_pdf demo "/data/guide.pdf" "doc_3" two_guides) with
  | Returns result => result
  | Raises _ => mkProcessResult EmptyString EmptyString EmptyString 0 None
                  EmptyString
  end.

Definition three_guides : World (Index demo) :=
  snd (process_pdf demo "/data/guide.pdf" "doc_3" two_guides).

End Site.

(** * Properties *)

(** ** Strings *)

Module PyStrFacts.
Import PyStr.

Lemma startswith_prefix p s :
  startswith p s = true <-> exists post, s = p ++ post.
Proof.
  revert s; induction p as [|a p IH]; intros s; simpl.
  - split; [intros _; now exists s | reflexivity].
  - destruct s as [|b s]; simpl.
    + split; [discriminate | intros [post H]; discriminate].
    + rewrite andb_true_iff, Ascii.eqb_eq, IH. split.
      * intros [-> [post ->]]. now exists post.
      * intros [post H]. injection H as -> ->. split; [reflexivity | now exists post].
Qed.

Lemma contains_Substring p s : contains p s = true <-> Substring p s.
Proof.
  unfold Substring. induction s as [|c r IH].
  - simpl. rewrite orb_false_r, startswith_prefix. split.
    + intros [post H]. exists EmptyString, post. exact H.
    + intros [pre [post H]]. destruct pre; [now exists post | discriminate].
  - change (contains p (String c r))
      with (startswith p (String c r) || contains p r).
    rewrite orb_true_iff, startswith_prefix, IH. split.
    + intros [[post H] | [pre [post H]]].
      * exists EmptyString, post. exact H.
      * exists (String c pre), post. simpl. now rewrite H.
    + intros [pre [post H]]. destruct pre as [|c' pre]; simpl in H.
      * left. now exists post.
      * right. injection H as _ H. now exists pre, post.
Qed.

Lemma is_empty_true s : is_empty s = true <-> s = EmptyString.
Proof. destruct s; simpl; split; congruence. Qed.

Lemma is_empty_false s : is_empty s = false <-> s <> EmptyString.
Proof. destruct s; simpl; split; congruence. Qed.

End PyStrFacts.

(** ** Section titles *)

Module TitleFacts.
Import PyStr PyStrFacts Title.

Lemma is_title_Qualifies line : is_title line = true <-> Qualifies line.
Proof.
  unfold is_title, Qualifies.
  rewrite !andb_true_iff, !orb_true_iff, negb_true_iff, is_empty_false,
    !Nat.ltb_lt, existsb_exists.
  split.
  - intros [[[_ H5] H80] [[U | T] | [m [Hin Hm]]]]; repeat split; auto.
    right; right. exists m. split; [exact Hin | now apply contains_Substring].
  - intros [H5 [H80 H]]. repeat split; auto.
    + intros ->. simpl in H5. lia.
    + destruct H as [U | [T | [m [Hin Hm]]]]; auto.
      right. exists m. split; [exact Hin | now apply contains_Substring].
Qed.

(** What the scan returns on any list of lines. *)
Lemma scan_lines_first lines dflt :
  (exists i l,
      nth_error lines i = Some l /\ is_title (strip l) = true /\
      (forall j l', j < i -> nth_error lines j = Some l' ->
                    is_title (strip l') = false) /\
      scan_lines lines dflt = strip l) \/
  ((forall j l', nth_error lines j = Some l' -> is_title (strip l') = false) /\
   scan_lines lines dflt = dflt).
Proof.
  induction lines as [|line rest IH]; simpl.
  - right. split; [intros [|j] l' H; discriminate | reflexivity].
  - destruct (is_title (strip line)) eqn:E.
    + left. exists 0, line. repeat split; auto. intros j l' Hj. lia.
    + destruct IH as [[i [l [Hn [Ht [Hbefore Hs]]]]] | [Hnone Hs]].
      * left. exists (S i), l. repeat split; auto.
        intros [|j] l' Hj Hl; simpl in Hl.
        -- now injection Hl as <-.
        -- apply (Hbefore j); [lia | exact Hl].
      * right. split; [|exact Hs].
        intros [|j] l' Hl; simpl in Hl.
        -- now injection Hl as <-.
        -- now apply (Hnone j).
Qed.

Lemma not_title_not_Qualifies line :
  is_title line = false -> ~ Qualifies line.
Proof.
  intros E Q. apply is_title_Qualifies in Q. congruence.
Qed.

Lemma nth_error_firstn_Some {A} n (l : list A) i x :
  nth_error (firstn n l) i = Some x <-> i < n /\ nth_error l i = Some x.
Proof.
  rewrite nth_error_firstn. destruct (i <? n) eqn:E.
  - apply Nat.ltb_lt in E. tauto.
  - apply Nat.ltb_ge in E. split; [discriminate | lia].
Qed.

(** C4, as the code has it: the window is the first 15 lines of the
    page text, empty or not; within it the first line whose stripped
    form has more than 5 and fewer than 80 characters and is upper-case,
    title-cased or contains a marker (case-insensitively) is returned,
    stripped; otherwise the result is "Unknown".  The detector is a
    function of the page text alone. *)
Theorem section_title_first_qualifying_of_15_lines (text : string) :
  FirstQualifying (split_lines text) (section_title_of text).
Proof.
  unfold section_title_of.
  destruct (scan_lines_first (firstn 15 (split_lines text)) "Unknown")
    as [[i [l [Hn [Ht [Hbefore ->]]]]] | [Hnone ->]].
  - apply nth_error_firstn_Some in Hn as [Hi Hn].
    apply (first_qualifying _ i l); auto.
    + now apply is_title_Qualifies.
    + intros j l' Hj Hl. apply not_title_not_Qualifies.
      apply (Hbefore j); [exact Hj |].
      apply nth_error_firstn_Some. split; [lia | exact Hl].
  - apply none_qualifying. intros j l' Hj Hl.
    apply not_title_not_Qualifies, (Hnone j).
    apply nth_error_firstn_Some. split; assumption.
Qed.

(** C4, as stated, fails: with a window of the first 15 non-empty lines
    the heading on line 16 would be found, but the code stops after the
    15 empty lines before it. *)
Lemma section_title_window_counts_empty_lines :
  section_title_of late_heading = "Unknown" /\
  section_title_spec late_heading = "CHAPTER ONE" /\
  section_title_of late_heading <> section_title_spec late_heading.
Proof.
  split; [reflexivity | split; [reflexivity | discriminate]].
Qed.

(** The notebook script's detector is a different function: a
    title-cased heading is a title for the service and not for the
    notebook. *)
Remark section_title_notebook_is_stricter :
  section_title_of "Chapter One: Basics" = "Chapter One: Basics" /\
  section_title_notebook "Chapter One: Basics" = "Unknown".
Proof. split; reflexivity. Qed.

(** Length and letter case are those of characters, not of bytes: a
    heading in title case that begins with an accented capital is a
    title, and accented lower-case letters keep a line from being
    upper-case. *)
Remark accented_headings_are_titles :
  section_title_of "École Nationale" = "École Nationale" /\
  len "École Nationale" = 15 /\
  isupper "DÉJÀ éé" = false /\
  section_title_of "DÉJÀ VU" = "DÉJÀ VU".
Proof. repeat split; reflexivity. Qed.

End TitleFacts.

(** ** Extraction and chunking *)

Section ExtractionFacts.
Import PyStr PyStrFacts Title.

Variable ext : Externals.

Local Abbreviation W := (World (Index ext)).

Lemma same_stores_refl (w : W) : same_stores w w.
Proof. repeat split. Qed.

Lemma same_stores_trans (w1 w2 w3 : W) :
  same_stores w1 w2 -> same_stores w2 w3 -> same_stores w1 w3.
Proof.
  unfold same_stores. intros (a & b & c & d & e) (a' & b' & c' & d' & e').
  repeat split; congruence.
Qed.

Lemma now_same_stores (w : W) : same_stores w (snd (now ext w)).
Proof. repeat split. Qed.

Lemma keep_chunk_length chunk :
  keep_chunk chunk = true <-> 10 < len (strip chunk).
Proof.
  unfold keep_chunk.
  rewrite andb_true_iff, negb_true_iff, is_empty_false, Nat.ltb_lt.
  split; [tauto |]. intros H. split; [|exact H].
  intros E. rewrite E in H. simpl in H. lia.
Qed.

Lemma skip_page_short text :
  skip_page text = true <->
  strip text = EmptyString \/ len (strip text) < 20.
Proof.
  unfold skip_page. now rewrite orb_true_iff, is_empty_true, Nat.ltb_lt.
Qed.

(** The loop over the chunks of a page always returns; it appends one
    document per retained chunk, in order, with the position of the
    chunk in the splitter output as its index. *)
Lemma chunk_loop_appends pdf_path name page total title method chunks :
  forall chunk_idx all_docs (w : W),
  exists new w',
    chunk_loop ext pdf_path name page total title method chunk_idx chunks
      all_docs w = (Returns (all_docs ++ new)%list, w') /\
    same_stores w w' /\
    map (fun d => (chunk_index d, page_content d)) new =
      retained chunk_idx chunks /\
    Forall (fun d => page_number d = page /\ total_pages d = total /\
                     source d = name /\ source_path d = pdf_path /\
                     section d = title /\ extraction_method d = method) new.
Proof.
  induction chunks as [|chunk rest IH]; intros chunk_idx all_docs w.
  - exists [], w. rewrite app_nil_r. repeat split. constructor.
  - unfold retained. simpl. destruct (keep_chunk chunk) eqn:K.
    + unfold bind at 1. simpl.
      match goal with
      | |- context [chunk_loop _ _ _ _ _ _ _ _ _ (all_docs ++ [?d])%list ?w1] =>
          destruct (IH (S chunk_idx) (all_docs ++ [d])%list w1)
            as (new & w' & E & S & R & F);
          exists (d :: new), w'
      end.
      rewrite E, <- app_assoc. simpl. split; [reflexivity |].
      split; [|split].
      * eapply same_stores_trans; [|exact S]. repeat split.
      * rewrite R. reflexivity.
      * constructor; [repeat split | exact F].
    + destruct (IH (S chunk_idx) all_docs w) as (new & w' & E & S & R & F).
      exists new, w'. repeat split; try apply S; auto.
Qed.

Lemma in_combine_seq {A} (l : list A) :
  forall s i x,
    In (i, x) (combine (seq s (List.length l)) l) <->
    s <= i /\ nth_error l (i - s) = Some x.
Proof.
  induction l as [|y l IH]; intros s i x; simpl.
  - split; [tauto |]. intros [_ H]. destruct (i - s); discriminate.
  - rewrite IH. split.
    + intros [E | [Hle Hn]].
      * injection E as <- <-. rewrite Nat.sub_diag. split; [lia | reflexivity].
      * split; [lia |]. replace (i - s) with (S (i - S s)) by lia. exact Hn.
    + intros [Hle Hn]. destruct (i - s) as [|k] eqn:E.
      * left. simpl in Hn. injection Hn as <-. f_equal. lia.
      * right. split; [lia |]. simpl in Hn.
        replace (i - S s) with k by lia. exact Hn.
Qed.

Lemma in_retained chunk_idx chunks i chunk :
  In (i, chunk) (retained chunk_idx chunks) <->
  chunk_idx <= i /\ nth_error chunks (i - chunk_idx) = Some chunk /\
  keep_chunk chunk = true.
Proof.
  unfold retained. rewrite filter_In, in_combine_seq. simpl. tauto.
Qed.

Lemma retained_increasing chunks :
  forall chunk_idx, StronglySorted lt (map fst (retained chunk_idx chunks)).
Proof.
  unfold retained.
  induction chunks as [|chunk rest IH]; intros chunk_idx; simpl.
  - constructor.
  - assert (Hrest : Forall (lt chunk_idx)
              (map fst (filter (fun p => keep_chunk (snd p))
                 (combine (seq (S chunk_idx) (List.length rest)) rest)))).
    { apply Forall_forall. intros i Hi. apply in_map_iff in Hi.
      destruct Hi as [[j c] [<- Hin]]. apply filter_In in Hin as [Hin _].
      apply in_combine_seq in Hin. simpl. lia. }
    destruct (keep_chunk chunk); simpl.
    + constructor; [apply IH | exact Hrest].
    + apply IH.
Qed.

(** The three ways through the body of the page loop. *)
Lemma page_body_ocr_fails pdf_path name page total page_text all_docs
    (w : W) :
  extract_page ext pdf_path page page_text = None ->
  page_body ext pdf_path name page total page_text all_docs w =
    (Raises (CollaboratorError "ocr"), w).
Proof. unfold page_body, bind. now intros ->. Qed.

Lemma page_body_skips pdf_path name page total page_text method text
    all_docs (w : W) :
  extract_page ext pdf_path page page_text = Some (method, text) ->
  skip_page text = true ->
  page_body ext pdf_path name page total page_text all_docs w =
    (Returns all_docs, w).
Proof. unfold page_body, bind. intros ->. simpl. now intros ->. Qed.

Lemma page_body_chunks pdf_path name page total page_text method text
    all_docs (w : W) :
  extract_page ext pdf_path page page_text = Some (method, text) ->
  skip_page text = false ->
  page_body ext pdf_path name page total page_text all_docs w =
    chunk_loop ext pdf_path name page total (section_title_of text) method
      0 (split_text ext text) all_docs w.
Proof. unfold page_body, bind. intros ->. simpl. now intros ->. Qed.

(** What one page adds to the chunk list. *)
Lemma page_body_appends pdf_path name page total page_text all_docs
    (w : W) :
  match extract_page ext pdf_path page page_text with
  | None =>
      page_body ext pdf_path name page total page_text all_docs w =
        (Raises (CollaboratorError "ocr"), w)
  | Some (method, text) =>
      exists new w',
        page_body ext pdf_path name page total page_text all_docs w =
          (Returns (all_docs ++ new)%list, w') /\
        same_stores w w' /\
        map (fun d => (chunk_index d, page_content d)) new =
          (if skip_page text then []
           else retained 0 (split_text ext text)) /\
        Forall (fun d => page_number d = page /\
                         section d = section_title_of text /\
                         extraction_method d = method) new
  end.
Proof.
  destruct (extract_page ext pdf_path page page_text) as [[method text]|]
    eqn:E.
  - destruct (skip_page text) eqn:K.
    + exists [], w. rewrite app_nil_r.
      rewrite (page_body_skips _ _ _ _ _ _ _ _ _ E K).
      repeat split. constructor.
    + rewrite (page_body_chunks _ _ _ _ _ _ _ _ _ E K).
      destruct (chunk_loop_appends pdf_path name page total
                  (section_title_of text) method (split_text ext text)
                  0 all_docs w) as (new & w' & E' & S & R & F).
      exists new, w'. repeat split; try apply S; auto.
      eapply Forall_impl; [|exact F]. simpl. tauto.
  - now apply page_body_ocr_fails.
Qed.

(** The page loop: whatever it does, it only reads the clock; when it
    returns, the documents it added are exactly the retained chunks of
    the pages that were not skipped. *)
Lemma page_loop_same_stores pdf_path name total pages :
  forall start all_docs (w : W),
    same_stores w
      (snd (page_loop ext pdf_path name start total pages all_docs w)).
Proof.
  induction pages as [|page_text rest IH]; intros start all_docs w; simpl.
  - apply same_stores_refl.
  - unfold bind.
    pose proof (page_body_appends pdf_path name start total page_text
                  all_docs w) as P.
    destruct (extract_page ext pdf_path start page_text) as [[m t]|].
    + destruct P as (new & w' & -> & S & _).
      eapply same_stores_trans; [exact S | apply IH].
    + rewrite P. apply same_stores_refl.
Qed.

Lemma page_loop_appends pdf_path name total pages :
  forall start all_docs (w : W) docs w',
    page_loop ext pdf_path name start total pages all_docs w =
      (Returns docs, w') ->
    exists new,
      docs = (all_docs ++ new)%list /\
      (forall d, In d new ->
         exists page_text method text,
           start <= page_number d /\
           nth_error pages (page_number d - start) = Some page_text /\
           extract_page ext pdf_path (page_number d) page_text =
             Some (method, text) /\
           skip_page text = false /\
           In (chunk_index d, page_content d)
              (retained 0 (split_text ext text)) /\
           section d = section_title_of text /\
           extraction_method d = method) /\
      (forall i page_text method text j chunk,
         nth_error pages i = Some page_text ->
         extract_page ext pdf_path (start + i) page_text =
           Some (method, text) ->
         skip_page text = false ->
         In (j, chunk) (retained 0 (split_text ext text)) ->
         exists d, In d new /\ page_number d = start + i /\
                   chunk_index d = j /\ page_content d = chunk).
Proof.
  induction pages as [|page_text rest IH];
    intros start all_docs w docs w' H; simpl in H.
  - injection H as <- <-. exists []. rewrite app_nil_r.
    split; [reflexivity |]. split.
    + intros d [].
    + intros [|i] ? ? ? ? ? Hn; discriminate.
  - unfold bind in H.
    pose proof (page_body_appends pdf_path name start total page_text
                  all_docs w) as P.
    destruct (extract_page ext pdf_path start page_text) as [[m t]|] eqn:E.
    2:{ rewrite P in H. discriminate. }
    destruct P as (new1 & w1 & P & _ & R & F). rewrite P in H.
    destruct (IH _ _ _ _ _ H) as (new2 & -> & Sound & Complete).
    exists (new1 ++ new2)%list. rewrite app_assoc.
    split; [reflexivity |]. split.
    + intros d Hd. apply in_app_or in Hd as [Hd | Hd].
      * rewrite Forall_forall in F. destruct (F d Hd) as (Pg & Sec & Meth).
        assert (Hin : In (chunk_index d, page_content d)
                        (map (fun d => (chunk_index d, page_content d)) new1))
          by (apply in_map_iff; now exists d).
        rewrite R in Hin. destruct (skip_page t) eqn:K; [destruct Hin |].
        exists page_text, m, t. rewrite Pg, Nat.sub_diag. simpl.
        repeat split; auto.
      * destruct (Sound d Hd)
          as (pt & m' & t' & Hle & Hn & He & Hk & Hin & Hs & Hm).
        exists pt, m', t'. repeat split; auto; [lia |].
        replace (page_number d - start) with (S (page_number d - S start))
          by lia.
        exact Hn.
    + intros [|i] pt m' t' j chunk Hn He Hk Hin; simpl in Hn.
      * injection Hn as <-. rewrite Nat.add_0_r in He.
        rewrite E in He. injection He as <- <-. rewrite Hk in R.
        rewrite <- R in Hin. apply in_map_iff in Hin.
        destruct Hin as (d & Hd & Hin). injection Hd as <- <-.
        exists d. rewrite Forall_forall in F. destruct (F d Hin) as (Pg & _).
        repeat split; auto; [apply in_or_app; now left | lia].
      * replace (start + S i) with (S start + i) in He by lia.
        destruct (Complete i pt m' t' j chunk Hn He Hk Hin)
          as (d & Hd & Pg & Ci & Pc).
        exists d. repeat split; auto; [apply in_or_app; now right | lia].
Qed.

Lemma extract_text_from_pdf_cases pdf_path name (w : W) :
  let stamp := isoformat_now ext (clock_reads w) in
  let w0 := snd (now ext w) in
  match fitz_open ext pdf_path with
  | None =>
      extract_text_from_pdf ext pdf_path name w =
        (Raises (CollaboratorError "fitz"), w0)
  | Some pages =>
      match page_loop ext pdf_path name 1 (List.length pages) pages [] w0
      with
      | (Returns docs, w1) =>
          extract_text_from_pdf ext pdf_path name w =
            (Returns docs,
             set_document_metadata
               (dict_set name
                  (mkPdfInfo name pdf_path stamp (List.length pages))
                  (document_metadata w1)) w1)
      | (Raises e, w1) =>
          extract_text_from_pdf ext pdf_path name w = (Raises e, w1)
      end
  end.
Proof.
  unfold extract_text_from_pdf, bind. simpl.
  destruct (fitz_open ext pdf_path) as [pages|]; simpl; [|reflexivity].
  destruct (page_loop ext pdf_path name 1 (List.length pages) pages [] _)
    as [[docs|e] w1]; reflexivity.
Qed.

(** C5, as the code has it: a chunk of the splitter output is retained
    if and only if its stripped length exceeds 10, and a retained chunk
    carries as [chunk_index] its zero-based position in the splitter
    output of its page, discarded chunks counted; the indices of the
    retained chunks of a page are therefore increasing, with a gap at
    every discarded chunk. *)
Theorem retained_chunks_carry_splitter_positions
    pdf_path name page total title method chunks all_docs (w : W) :
  exists new w',
    chunk_loop ext pdf_path name page total title method 0 chunks
      all_docs w = (Returns (all_docs ++ new)%list, w') /\
    (forall i chunk,
       nth_error chunks i = Some chunk ->
       ((exists d, In d new /\ chunk_index d = i /\ page_content d = chunk)
        <-> 10 < len (strip chunk))) /\
    (forall d, In d new ->
       nth_error chunks (chunk_index d) = Some (page_content d) /\
       page_number d = page) /\
    StronglySorted lt (map chunk_index new).
Proof.
  destruct (chunk_loop_appends pdf_path name page total title method
              chunks 0 all_docs w) as (new & w' & E & _ & R & F).
  exists new, w'. split; [exact E |].
  assert (Hin : forall d, In d new ->
            In (chunk_index d, page_content d) (retained 0 chunks)).
  { intros d Hd. rewrite <- R. apply in_map_iff. now exists d. }
  split; [|split].
  - intros i chunk Hn. rewrite <- keep_chunk_length. split.
    + intros (d & Hd & <- & <-). apply Hin, in_retained in Hd. tauto.
    + intros K.
      assert (Hr : In (i, chunk) (retained 0 chunks)).
      { apply in_retained. rewrite Nat.sub_0_r. repeat split; auto. lia. }
      rewrite <- R in Hr. apply in_map_iff in Hr.
      destruct Hr as (d & Hd & Hr). injection Hd as <- <-. now exists d.
  - intros d Hd. split.
    + apply Hin, in_retained in Hd. rewrite Nat.sub_0_r in Hd. tauto.
    + rewrite Forall_forall in F. now apply F.
  - replace (map chunk_index new)
      with (map fst (map (fun d => (chunk_index d, page_content d)) new))
      by (rewrite map_map; reflexivity).
    rewrite R. apply retained_increasing.
Qed.

(** C7: a successful extraction adds a chunk only for a page whose text
    (the text layer, or the OCR text when the text layer is blank) has
    at least 20 characters once stripped; a page whose stripped text is
    empty or shorter contributes nothing, and every other page
    contributes each retained chunk of its splitter output. *)
Theorem short_pages_contribute_no_chunks pdf_path name (w : W) docs w' :
  extract_text_from_pdf ext pdf_path name w = (Returns docs, w') ->
  exists pages,
    fitz_open ext pdf_path = Some pages /\
    forall i page_text method text,
      nth_error pages i = Some page_text ->
      extract_page ext pdf_path (S i) page_text = Some (method, text) ->
      (strip text = EmptyString \/ len (strip text) < 20 ->
       forall d, In d docs -> page_number d <> S i) /\
      (~ (strip text = EmptyString \/ len (strip text) < 20) ->
       forall j chunk,
         nth_error (split_text ext text) j = Some chunk ->
         ((exists d, In d docs /\ page_number d = S i /\
                     chunk_index d = j /\ page_content d = chunk)
          <-> 10 < len (strip chunk))).
Proof.
  intros H.
  pose proof (extract_text_from_pdf_cases pdf_path name w) as C.
  simpl in C. destruct (fitz_open ext pdf_path) as [pages|].
  2:{ rewrite C in H. discriminate. }
  destruct (page_loop ext pdf_path name 1 (List.length pages) pages [] _)
    as [[docs0|e] w1] eqn:L.
  2:{ rewrite C in H. discriminate. }
  rewrite C in H. injection H as <- _.
  apply page_loop_appends in L. destruct L as (new & -> & Sound & Complete).
  simpl. exists pages. split; [reflexivity |].
  intros i page_text method text Hn He. split.
  - intros Short d Hd Pg.
    destruct (Sound d Hd) as (pt & m & t & _ & Hn' & He' & Hk & _).
    rewrite Pg in Hn', He'. simpl in Hn'. rewrite Nat.sub_0_r in Hn'.
    rewrite Hn in Hn'. injection Hn' as <-.
    rewrite He in He'. injection He' as <- <-.
    apply skip_page_short in Short. congruence.
  - intros Long j chunk Hj.
    assert (Hk : skip_page text = false).
    { destruct (skip_page text) eqn:K; [|reflexivity].
      apply skip_page_short in K. contradiction. }
    rewrite <- keep_chunk_length. split.
    + intros (d & Hd & Pg & <- & <-).
      destruct (Sound d Hd) as (pt & m & t & _ & Hn' & He' & _ & Hin & _).
      rewrite Pg in Hn', He'. simpl in Hn'. rewrite Nat.sub_0_r in Hn'.
      rewrite Hn in Hn'. injection Hn' as <-.
      rewrite He in He'. injection He' as <- <-.
      apply in_retained in Hin. tauto.
    + intros K.
      destruct (Complete i page_text method text j chunk Hn He Hk)
        as (d & Hd & Pg & Ci & Pc).
      * apply in_retained. rewrite Nat.sub_0_r. repeat split; auto. lia.
      * exists d. repeat split; auto.
Qed.

End ExtractionFacts.

(** ** Ingestion *)

Section IngestionFacts.
Import PyStr PyStrFacts.

Variable ext : Externals.

Local Abbreviation W := (World (Index ext)).

(** What extraction does to the stores: nothing when it raises; when it
    returns, only the metadata entry of the file name is written. *)
Lemma extract_text_from_pdf_effect pdf_path name (w : W) :
  match extract_text_from_pdf ext pdf_path name w with
  | (Returns docs, w') =>
      documents w' = documents w /\ vectorstores w' = vectorstores w /\
      qa_log w' = qa_log w /\ prompts_sent w' = prompts_sent w /\
      exists info,
        filename info = name /\ full_path info = pdf_path /\
        document_metadata w' = dict_set name info (document_metadata w)
  | (Raises e, w') => same_stores w w'
  end.
Proof.
  pose proof (extract_text_from_pdf_cases ext pdf_path name w) as C.
  simpl in C. destruct (fitz_open ext pdf_path) as [pages|].
  - pose proof (page_loop_same_stores ext pdf_path name (List.length pages)
                  pages 1 [] (snd (now ext w))) as S.
    destruct (page_loop ext pdf_path name 1 (List.length pages) pages [] _)
      as [[docs|e] w1]; rewrite C; simpl in S.
    + destruct S as (a & b & c & d & e). simpl in *.
      repeat split; auto.
      exists (mkPdfInfo name pdf_path (isoformat_now ext (clock_reads w))
                (List.length pages)).
      rewrite d. repeat split.
    + eapply same_stores_trans; [apply now_same_stores | exact S].
  - rewrite C. apply now_same_stores.
Qed.

(** [process_pdf] writes to [documents] and [vectorstores] together, under
    the same identifier, or not at all. *)
Lemma process_pdf_indexes pdf_path document_id (w : W) :
  match process_pdf ext pdf_path document_id w with
  | (Returns result, w') =>
      exists docs index,
        documents w' = dict_set document_id docs (documents w) /\
        vectorstores w' = dict_set document_id index (vectorstores w)
  | (Raises e, w') =>
      documents w' = documents w /\ vectorstores w' = vectorstores w
  end.
Proof.
  unfold process_pdf, bind.
  pose proof (extract_text_from_pdf_effect pdf_path (basename ext pdf_path) w)
    as X.
  destruct (extract_text_from_pdf ext pdf_path (basename ext pdf_path) w)
    as [[docs|e] w1]; simpl.
  - destruct X as (HD & HV & _).
    destruct docs as [|d docs]; simpl; [split; assumption |].
    unfold create_vectorstore.
    destruct (from_documents ext (d :: docs)) as [index|]; simpl.
    + exists (d :: docs), index. now rewrite HD, HV.
    + split; assumption.
  - destruct X as (HD & HV & _). split; assumption.
Qed.

(** C1, as the code has it: when ingestion raises, [documents] and
    [vectorstores] are as before the call; [document_metadata] is as
    before the call when extraction itself raised, and holds the entry
    of the file name, written at the end of extraction, when the
    no-chunks check or the index build raised.  When ingestion returns,
    the chunk list and the index are registered under the document
    identifier and the metadata under the file name. *)
Theorem process_pdf_registration pdf_path document_id (w : W) :
  let name := basename ext pdf_path in
  match process_pdf ext pdf_path document_id w with
  | (Returns result, w') =>
      exists docs index info,
        fst (extract_text_from_pdf ext pdf_path name w) = Returns docs /\
        docs <> [] /\ from_documents ext docs = Some index /\
        documents w' = dict_set document_id docs (documents w) /\
        vectorstores w' = dict_set document_id index (vectorstores w) /\
        filename info = name /\
        document_metadata w' = dict_set name info (document_metadata w) /\
        qa_log w' = qa_log w
  | (Raises e, w') =>
      documents w' = documents w /\ vectorstores w' = vectorstores w /\
      qa_log w' = qa_log w /\
      match fst (extract_text_from_pdf ext pdf_path name w) with
      | Raises _ => document_metadata w' = document_metadata w
      | Returns _ =>
          exists info,
            filename info = name /\
            document_metadata w' = dict_set name info (document_metadata w)
      end
  end.
Proof.
  intros name. unfold process_pdf, bind. fold name.
  pose proof (extract_text_from_pdf_effect pdf_path name w) as X.
  destruct (extract_text_from_pdf ext pdf_path name w) as [[docs|e] w1];
    simpl.
  - destruct X as (HD & HV & HQ & _ & info & HF & _ & HM).
    destruct docs as [|d docs]; simpl.
    + repeat split; auto. now exists info.
    + unfold create_vectorstore.
      destruct (from_documents ext (d :: docs)) as [index|] eqn:FD; simpl.
      * exists (d :: docs), index, info. rewrite HD, HV.
        repeat split; auto. discriminate.
      * repeat split; auto. now exists info.
  - destruct X as (HD & HV & HQ & HM & _). repeat split; auto.
Qed.

End IngestionFacts.

(** ** Dictionaries *)

Module DictFacts.

Section Facts.
Context {V : Type}.

Lemma dict_get_None k (d : dict V) :
  dict_get k d = None <-> ~ In k (dict_keys d).
Proof.
  induction d as [|[k' v] d IH]; simpl.
  - tauto.
  - destruct (String.eqb_spec k k') as [->|N].
    + split; [discriminate | intros H; exfalso; apply H; now left].
    + rewrite IH. split; [intros H [E | I]; congruence | tauto].
Qed.

Lemma dict_mem_In k (d : dict V) :
  dict_mem k d = true <-> In k (dict_keys d).
Proof.
  unfold dict_mem. pose proof (dict_get_None k d) as N.
  destruct (dict_get k d).
  - split; [intros _ | reflexivity].
    destruct (in_dec string_dec k (dict_keys d)) as [I | I]; [exact I |].
    apply N in I. discriminate.
  - split; [discriminate |]. intros I. exfalso. now apply N.
Qed.

End Facts.

(** Keys after an assignment or a deletion depend on the keys only. *)
Lemma dict_keys_set {V1 V2} k (v1 : V1) (v2 : V2) d1 d2 :
  dict_keys d1 = dict_keys d2 ->
  dict_keys (dict_set k v1 d1) = dict_keys (dict_set k v2 d2).
Proof.
  revert d2; induction d1 as [|[k1 x1] d1 IH]; intros [|[k2 x2] d2] H;
    simpl in *; try discriminate; [reflexivity |].
  injection H as -> H. destruct (String.eqb k k2); simpl.
  - now rewrite H.
  - f_equal. now apply IH.
Qed.

Lemma dict_keys_del {V1 V2} k (d1 : dict V1) (d2 : dict V2) :
  dict_keys d1 = dict_keys d2 ->
  dict_keys (dict_del k d1) = dict_keys (dict_del k d2).
Proof.
  revert d2; induction d1 as [|[k1 x1] d1 IH]; intros [|[k2 x2] d2] H;
    simpl in *; try discriminate; [reflexivity |].
  injection H as -> H. destruct (String.eqb k k2); simpl.
  - exact H.
  - f_equal. now apply IH.
Qed.

End DictFacts.

(** ** Retrieval *)

Section RetrievalFacts.
Import DictFacts.

Variable ext : Externals.

Local Abbreviation W := (World (Index ext)).

Lemma insert_by_score_permutation x l :
  Permutation (x :: l) (insert_by_score x l).
Proof.
  induction l as [|y l IH]; simpl.
  - apply Permutation_refl.
  - destruct (Qle_bool (snd x) (snd y)).
    + apply Permutation_refl.
    + eapply perm_trans; [apply perm_swap |]. now apply perm_skip.
Qed.

Lemma sort_by_score_permutation l : Permutation l (sort_by_score l).
Proof.
  induction l as [|x l IH]; simpl.
  - apply perm_nil.
  - eapply perm_trans; [apply perm_skip, IH |].
    apply insert_by_score_permutation.
Qed.

Lemma insert_by_score_sorted x l :
  StronglySorted (fun a b => (snd a <= snd b)%Q) l ->
  StronglySorted (fun a b => (snd a <= snd b)%Q) (insert_by_score x l).
Proof.
  induction l as [|y l IH]; intros S; simpl.
  - constructor; constructor.
  - inversion S as [|? ? Sl Fl]; subst.
    destruct (Qle_bool (snd x) (snd y)) eqn:E.
    + apply Qle_bool_iff in E. constructor; [exact S |].
      constructor; [exact E |].
      eapply Forall_impl; [|exact Fl]. simpl. intros z Hz.
      eapply Qle_trans; eassumption.
    + assert (Hyx : (snd y <= snd x)%Q).
      { apply Qlt_le_weak, Qnot_le_lt. intros H.
        apply Qle_bool_iff in H. congruence. }
      constructor; [now apply IH |].
      eapply Permutation_Forall; [apply insert_by_score_permutation |].
      constructor; assumption.
Qed.

Lemma sort_by_score_sorted l :
  StronglySorted (fun a b => (snd a <= snd b)%Q) (sort_by_score l).
Proof.
  induction l as [|x l IH]; simpl.
  - constructor.
  - now apply insert_by_score_sorted.
Qed.

(** A search never writes to the processor. *)
Lemma search_similar_chunks_reads_only query document_id top_k (w : W) :
  snd (search_similar_chunks ext query document_id top_k w) = w.
Proof.
  unfold search_similar_chunks, bind, get. simpl.
  destruct (dict_get document_id (vectorstores w)) as [index|];
    [|reflexivity].
  destruct (similarity_search_with_score ext index query top_k);
    reflexivity.
Qed.

(** C6: a search on a document identifier that has no entry in
    [vectorstores] raises the "not found" [ValueError] and leaves the
    whole processor state, hence every store, as it was. *)
Theorem search_unknown_document_not_found query document_id top_k (w : W) :
  ~ In document_id (dict_keys (vectorstores w)) ->
  search_similar_chunks ext query document_id top_k w =
    (Raises (ValueError ("Document " ++ document_id ++ " not found")), w).
Proof.
  intros H. apply dict_get_None in H.
  unfold search_similar_chunks, bind, get. simpl. now rewrite H.
Qed.

(** C8: a successful search returns the chunks of the pairs that the
    index produced, rearranged so that their distances never decrease,
    with the distances dropped; the state is untouched. *)
Theorem search_returns_chunks_by_ascending_distance
    query document_id top_k (w : W) index raw :
  dict_get document_id (vectorstores w) = Some index ->
  similarity_search_with_score ext index query top_k = Some raw ->
  exists ranked,
    search_similar_chunks ext query document_id top_k w =
      (Returns (map fst ranked), w) /\
    Permutation raw ranked /\
    StronglySorted (fun a b => (snd a <= snd b)%Q) ranked.
Proof.
  intros HI HR. exists (sort_by_score raw). split; [|split].
  - unfold search_similar_chunks, bind, get. simpl. rewrite HI.
    simpl. now rewrite HR.
  - apply sort_by_score_permutation.
  - apply sort_by_score_sorted.
Qed.

End RetrievalFacts.

(** ** Answer synthesis *)

Section SynthesisFacts.
Import PyStr PyStrFacts DictFacts.

Variable ext : Externals.

Local Abbreviation W := (World (Index ext)).

Lemma append_assoc (a b c : string) : (a ++ b) ++ c = a ++ b ++ c.
Proof. induction a as [|x a IH]; simpl; [reflexivity | now rewrite IH]. Qed.

Lemma append_empty_r (a : string) : a ++ EmptyString = a.
Proof. induction a as [|x a IH]; simpl; [reflexivity | now rewrite IH]. Qed.

Lemma length_append (a b : string) : length (a ++ b) = length a + length b.
Proof. induction a as [|x a IH]; simpl; [reflexivity | now rewrite IH]. Qed.

Lemma concat_cons x xs :
  String.concat EmptyString (x :: xs) = x ++ String.concat EmptyString xs.
Proof.
  destruct xs; simpl; [now rewrite append_empty_r | reflexivity].
Qed.

Lemma sources_summary_lines docs :
  forall acc,
    sources_summary acc docs =
    acc ++ String.concat EmptyString (map source_line docs).
Proof.
  induction docs as [|d docs IH]; intros acc.
  - simpl. now rewrite append_empty_r.
  - cbn [sources_summary map].
    rewrite IH, concat_cons, <- (append_assoc acc (source_line d)).
    reflexivity.
Qed.

Lemma sources_summary_block docs :
  sources_summary (nl ++ nl ++ "Sources:" ++ nl) docs = sources_block docs.
Proof.
  rewrite sources_summary_lines. unfold sources_block.
  now rewrite !append_assoc.
Qed.

Lemma sources_block_not_empty text docs : text ++ sources_block docs <> text.
Proof.
  intros H. apply (f_equal length) in H. rewrite length_append in H.
  unfold sources_block in H. rewrite !length_append in H. simpl in H. lia.
Qed.

Lemma add_sources_cases text docs :
  let uncited :=
    ~ Substring "page" (lower text) /\ ~ Substring "source" (lower text) in
  (uncited -> add_sources text docs = text ++ sources_block docs) /\
  (~ uncited -> add_sources text docs = text).
Proof.
  unfold add_sources. rewrite sources_summary_block.
  pose proof (contains_Substring "page" (lower text)) as P.
  pose proof (contains_Substring "source" (lower text)) as S.
  destruct (contains "page" (lower text)),
           (contains "source" (lower text)); simpl; split;
    intros H; try reflexivity; exfalso.
  - apply (proj1 H), P. reflexivity.
  - apply (proj1 H), P. reflexivity.
  - apply (proj2 H), S. reflexivity.
  - apply H. split; intros X; [apply P in X | apply S in X]; discriminate.
Qed.

Lemma classic_uncited text :
  let uncited :=
    ~ Substring "page" (lower text) /\ ~ Substring "source" (lower text) in
  uncited \/ ~ uncited.
Proof.
  simpl.
  pose proof (contains_Substring "page" (lower text)) as P.
  pose proof (contains_Substring "source" (lower text)) as S.
  destruct (contains "page" (lower text)).
  - right. intros [H _]. apply H, P. reflexivity.
  - destruct (contains "source" (lower text)).
    + right. intros [_ H]. apply H, S. reflexivity.
    + left. split; intros X; [apply P in X | apply S in X]; discriminate.
Qed.

(** C9: when the model replies [text] to the prompt built from the
    question and the chunks, the answer is [text] followed by the
    "Sources:" block, one line per input chunk with its formatted label,
    exactly when the lower-cased [text] contains neither "page" nor
    "source"; otherwise the answer is [text] itself.  This holds for
    every chunk list, the non-empty ones among them. *)
Theorem generate_answer_appends_sources_unless_cited
    query docs (w : W) text :
  generate_content ext (prompts_sent w) (make_prompt query docs)
    = Some text ->
  let uncited :=
    ~ Substring "page" (lower text) /\ ~ Substring "source" (lower text) in
  exists answer w',
    generate_answer ext query docs w = (Returns answer, w') /\
    (uncited -> answer = text ++ sources_block docs) /\
    (~ uncited -> answer = text) /\
    (answer = text ++ sources_block docs <-> uncited) /\
    sources_block docs =
      nl ++ nl ++ "Sources:" ++ nl ++
      String.concat EmptyString
        (map (fun doc => bullet ++ " " ++ format_source_info doc ++ nl) docs).
Proof.
  intros G uncited.
  unfold generate_answer, bind, ask_model. rewrite G. simpl.
  eexists. eexists. split; [reflexivity |].
  destruct (add_sources_cases text docs) as [U C]. fold uncited in U, C.
  split; [exact U |]. split; [exact C |]. split; [|reflexivity].
  split; [|exact U]. intros E.
  destruct (classic_uncited text) as [Y | N]; [exact Y |].
  rewrite (C N) in E. symmetry in E. now apply sources_block_not_empty in E.
Qed.

End SynthesisFacts.

(** ** Question answering *)

Section AnswerFacts.
Import PyStr PyStrFacts DictFacts.

Variable ext : Externals.

Local Abbreviation W := (World (Index ext)).

Lemma collect_sources_maps docs :
  forall sources source_details,
    collect_sources docs sources source_details =
    ((sources ++ map format_source_info docs)%list,
     (source_details ++ map source_detail_of docs)%list).
Proof.
  induction docs as [|d docs IH]; intros sources source_details; simpl.
  - now rewrite !app_nil_r.
  - rewrite IH, <- !app_assoc. reflexivity.
Qed.

(** Asking the model records the prompt and touches no store. *)
Lemma generate_answer_effect query docs (w : W) :
  let run := generate_answer ext query docs w in
  documents (snd run) = documents w /\
  vectorstores (snd run) = vectorstores w /\
  qa_log (snd run) = qa_log w /\
  document_metadata (snd run) = document_metadata w /\
  clock_reads (snd run) = clock_reads w /\
  prompts_sent (snd run) = (prompts_sent w ++ [make_prompt query docs])%list.
Proof.
  unfold generate_answer, bind, ask_model.
  destruct (generate_content ext (prompts_sent w) (make_prompt query docs));
    simpl; repeat split.
Qed.

(** The two ways [answer_question] can leave the log: untouched, with no
    answer synthesised, or one entry longer, with that answer returned. *)
Lemma answer_question_effect document_id q (w : W) :
  let run := answer_question ext document_id q w in
  documents (snd run) = documents w /\
  vectorstores (snd run) = vectorstores w /\
  document_metadata (snd run) = document_metadata w /\
  ((qa_log (snd run) = qa_log w /\
    forall r, fst run = Returns r ->
              ans_relevant_chunks r = None /\
              prompts_sent (snd run) = prompts_sent w) \/
   (exists r entry,
      fst run = Returns r /\
      qa_log (snd run) = (qa_log w ++ [entry])%list /\
      question entry = q /\
      answer entry = ans_answer r /\
      sources entry = ans_sources r /\
      ans_relevant_chunks r <> None)).
Proof.
  unfold answer_question, bind, get. simpl.
  destruct (dict_mem document_id (documents w)); simpl.
  2:{ repeat split. left. split; [reflexivity | discriminate]. }
  pose proof (search_similar_chunks_reads_only ext q document_id 5 w)
    as R.
  destruct (search_similar_chunks ext q document_id 5 w)
    as [[docs|e] w1]; simpl in R; subst w1.
  2:{ repeat split. left. split; [reflexivity | discriminate]. }
  destruct docs as [|d docs]; simpl.
  { repeat split. left. split; [reflexivity |].
    intros r E. injection E as <-. split; reflexivity. }
  pose proof (generate_answer_effect q (d :: docs) w) as G.
  simpl in G. destruct G as (GD & GV & GQ & GM & GC & GP).
  destruct (generate_answer ext q (d :: docs) w) as [[text|e] w1];
    simpl in *.
  - repeat split; auto. right. eexists. eexists.
    split; [reflexivity |]. rewrite GQ.
    repeat split. discriminate.
  - repeat split; auto. left. split; [exact GQ | discriminate].
Qed.

(** C10: for a registered document whose search returns no chunk,
    [answer_question] returns the fixed fallback answer with no sources
    and no source details, sends nothing to the generative model and
    leaves the log as it was; and in every run the log is either
    unchanged or one entry longer, the latter only when the call
    returned a synthesised answer, which the entry records. *)
Theorem answer_question_without_chunks_logs_nothing document_id q (w : W) :
  let run := answer_question ext document_id q w in
  (In document_id (dict_keys (documents w)) ->
   fst (search_similar_chunks ext q document_id 5 w) = Returns [] ->
   fst run =
     Returns (mkAnswer no_information [] [] None
                (isoformat_now ext (clock_reads w))) /\
   qa_log (snd run) = qa_log w /\
   prompts_sent (snd run) = prompts_sent w) /\
  (qa_log (snd run) = qa_log w \/
   exists r entry,
     fst run = Returns r /\
     qa_log (snd run) = (qa_log w ++ [entry])%list /\
     question entry = q /\
     answer entry = ans_answer r /\
     ans_relevant_chunks r <> None).
Proof.
  split.
  - intros I S. apply dict_mem_In in I.
    unfold answer_question, bind, get. simpl. rewrite I. simpl.
    pose proof (search_similar_chunks_reads_only ext q document_id 5 w) as R.
    destruct (search_similar_chunks ext q document_id 5 w) as [o w1].
    simpl in R, S. subst w1 o. simpl. repeat split.
  - destruct (answer_question_effect document_id q w)
      as (_ & _ & _ & [[L _] | (r & entry & E & L & Q & A & _ & N)]).
    + now left.
    + right. exists r, entry. repeat split; auto.
Qed.

(** *** The cross-document handler *)

Lemma search_loop_collects q document_ids :
  forall all all_sources all_details (w : W),
    let hits := List.concat (map (per_document_hits ext q w) document_ids) in
    search_loop ext q document_ids (all, all_sources, all_details) w =
      (Returns ((all ++ hits)%list,
                (all_sources ++ map format_source_info hits)%list,
                (all_details ++ map source_detail_of hits)%list), w).
Proof.
  induction document_ids as [|document_id rest IH];
    intros all all_sources all_details w; simpl.
  - now rewrite !app_nil_r.
  - unfold bind, try_except.
    pose proof (search_similar_chunks_reads_only ext q document_id 3 w) as R.
    assert (H : per_document_hits ext q w document_id =
                match fst (search_similar_chunks ext q document_id 3 w) with
                | Returns docs => docs
                | Raises _ => []
                end) by reflexivity.
    rewrite H. clear H.
    destruct (search_similar_chunks ext q document_id 3 w) as [[docs|e] w1];
      simpl in R; subst w1; simpl.
    + rewrite collect_sources_maps. simpl. rewrite IH. simpl.
      now rewrite !map_app, !app_assoc.
    + rewrite IH. reflexivity.
Qed.

Local Arguments firstn : simpl never.

(** The handler never writes to [documents] or [vectorstores]. *)
Lemma ask_question_multiple_keeps_indexes data (w : W) :
  let run := ask_question_multiple ext data w in
  documents (snd run) = documents w /\
  vectorstores (snd run) = vectorstores w.
Proof.
  unfold ask_question_multiple, try_except, bind, get.
  destruct data as [q|]; simpl; [|split; reflexivity].
  destruct (is_empty (strip q)); simpl; [split; reflexivity |].
  destruct (is_nil (documents w)); simpl; [split; reflexivity |].
  rewrite search_loop_collects. simpl.
  destruct (List.concat (map (per_document_hits ext q w)
              (dict_keys (documents w)))) as [|d hits]; simpl;
    [split; reflexivity |].
  pose proof (generate_answer_effect q (firstn 5 (d :: hits)) w) as G.
  simpl in G. destruct G as (GD & GV & _).
  destruct (generate_answer ext q (firstn 5 (d :: hits)) w)
    as [[text|e] w1]; simpl in *; split; assumption.
Qed.

(** C3, as the code has it: for every question and every store with at
    least one document, the search loop of the handler searches every
    document with [top_k = 3] in the iteration order of [documents] and
    concatenates the per-document results in that order (nothing is
    ranked across documents).  A question that is blank once stripped
    never reaches the loop: the handler answers 400 and changes nothing.
    For any other question answer synthesis gets the first 5 chunks of
    the concatenation, so at most 5, and the logged and returned sources
    are those of the same 5; when the concatenation is empty no
    synthesis takes place. *)
Theorem cross_document_retrieval_concatenates_then_truncates q (w : W) :
  documents w <> [] ->
  let all :=
    List.concat (map (per_document_hits ext q w) (dict_keys (documents w))) in
  let used := firstn 5 all in
  let run := ask_question_multiple ext (Some q) w in
  search_loop ext q (dict_keys (documents w)) ([], [], []) w =
    (Returns (all, map format_source_info all, map source_detail_of all),
     w) /\
  List.length used <= 5 /\
  (strip q = EmptyString ->
   run = (Returns (ErrorBody "Question cannot be empty" None, 400), w)) /\
  (strip q <> EmptyString -> all = [] ->
   fst run =
     Returns (NoAnswerBody no_information_any (List.length (documents w))
                (isoformat_now ext (clock_reads w)), 200) /\
   prompts_sent (snd run) = prompts_sent w /\
   qa_log (snd run) = qa_log w) /\
  (strip q <> EmptyString -> all <> [] ->
   prompts_sent (snd run) = (prompts_sent w ++ [make_prompt q used])%list /\
   match generate_answer ext q used w with
   | (Returns text, _) =>
       exists stamp answered_at,
         fst run =
           Returns (AnswerBody text (map format_source_info used)
                      (map source_detail_of used)
                      (map relevant_chunk_of used)
                      (List.length (documents w)) answered_at, 200) /\
         qa_log (snd run) =
           (qa_log w ++
            [mkQAEntry q text (map format_source_info used)
               (map source_detail_of used) stamp])%list
   | (Raises e, w1) =>
       run = (Returns (ErrorBody "Internal server error" (Some e), 500), w1)
   end).
Proof.
  intros D all used run.
  assert (L : search_loop ext q (dict_keys (documents w)) ([], [], []) w =
              (Returns (all, map format_source_info all,
                        map source_detail_of all), w))
    by apply (search_loop_collects q (dict_keys (documents w)) [] [] [] w).
  split; [exact L |]. split; [apply firstn_le_length |].
  assert (E2 : is_nil (documents w) = false)
    by (destruct (documents w); [contradiction | reflexivity]).
  subst run. unfold ask_question_multiple, try_except, bind, get.
  destruct (is_empty (strip q)) eqn:E1.
  { apply is_empty_true in E1.
    split; [reflexivity |]. split; intros Q; contradiction. }
  apply is_empty_false in E1.
  split; [intros Q; contradiction |].
  simpl. rewrite E2, L. fold all. split; intros _.
  - intros ->. simpl. repeat split.
  - intros N. destruct all as [|d hits] eqn:A; [contradiction |].
    cbn [is_nil]. fold used.
    pose proof (generate_answer_effect q used w) as G. simpl in G.
    destruct G as (GD & GV & GQ & GM & GC & GP).
    destruct (generate_answer ext q used w) as [[text|e] w1]; simpl in *.
    + split; [exact GP |].
      exists (isoformat_now ext (clock_reads w1)),
             (isoformat_now ext (S (clock_reads w1))).
      rewrite !firstn_cons, !firstn_map, GD, GQ. split; reflexivity.
    + split; [exact GP | reflexivity].
Qed.

End AnswerFacts.

(** ** Document and index lifecycle *)

Section LifecycleFacts.
Import DictFacts.

Variable ext : Externals.

Local Abbreviation W := (World (Index ext)).

Lemma process_pdf_keys_agree pdf_path document_id (w : W) :
  keys_agree w -> keys_agree (snd (process_pdf ext pdf_path document_id w)).
Proof.
  unfold keys_agree. intros K.
  pose proof (process_pdf_indexes ext pdf_path document_id w) as P.
  destruct (process_pdf ext pdf_path document_id w) as [[r|e] w']; simpl.
  - destruct P as (docs & index & -> & ->). now apply dict_keys_set.
  - destruct P as (-> & ->). exact K.
Qed.

Lemma clear_stores_keys_agree (w : W) : keys_agree (clear_stores ext w).
Proof. reflexivity. Qed.

Lemma delete_document_keys_agree document_id (w : W) :
  keys_agree w -> keys_agree (snd (delete_document ext document_id w)).
Proof.
  unfold keys_agree. intros K.
  unfold delete_document, try_except, bind, get. simpl.
  destruct (dict_get document_id (documents w)) as [docs|] eqn:G; simpl;
    [|exact K].
  destruct (dict_mem document_id (vectorstores w)) eqn:M; simpl.
  - match goal with
    | |- context [if ?c then _ else _] => destruct c
    end; simpl; now apply dict_keys_del.
  - exfalso.
    assert (I : In document_id (dict_keys (documents w))).
    { destruct (in_dec string_dec document_id (dict_keys (documents w)))
        as [I | I]; [exact I |].
      apply dict_get_None in I. congruence. }
    rewrite K in I. apply dict_mem_In in I. congruence.
Qed.

Lemma step_keys_agree (w w' : W) :
  step ext w w' -> keys_agree w -> keys_agree w'.
Proof.
  intros S K.
  destruct S as [pdf_path document_id w | document_id w | w | w
                | document_id q w | data w].
  - now apply process_pdf_keys_agree.
  - now apply delete_document_keys_agree.
  - apply clear_stores_keys_agree.
  - apply clear_stores_keys_agree.
  - unfold keys_agree in *.
    destruct (answer_question_effect ext document_id q w)
      as (-> & -> & _).
    exact K.
  - unfold keys_agree in *.
    destruct (ask_question_multiple_keeps_indexes ext data w) as (-> & ->).
    exact K.
Qed.

Lemma reachable_keys_agree (w : W) : reachable ext w -> keys_agree w.
Proof.
  induction 1 as [|w w' _ IH S].
  - reflexivity.
  - now apply (step_keys_agree w w').
Qed.

(** C2: in every state reached from the constructor by any sequence of
    [process_pdf], [delete_document], [clear_documents], [initialize]
    and the two question handlers, a document identifier is a key of
    [documents] if and only if it is a key of [vectorstores]. *)
Theorem documents_and_vectorstores_share_keys (w : W) :
  reachable ext w ->
  forall document_id,
    In document_id (dict_keys (documents w)) <->
    In document_id (dict_keys (vectorstores w)).
Proof.
  intros R document_id. apply reachable_keys_agree in R.
  unfold keys_agree in R. now rewrite R.
Qed.

End LifecycleFacts.

(** ** The properties at work on the small installation *)

Module Examples.
Import PyStr Demo.

(** C1, as stated, fails: ingesting a memo whose only page is too short
    raises at the no-chunks check, after extraction has already written
    the metadata entry of the file. *)
Lemma failed_ingestion_leaves_metadata :
  fst (process_pdf demo "/data/memo.pdf" "doc_2" start) =
    Raises (ValueError "No text could be extracted from the PDF") /\
  dict_keys
    (document_metadata (snd (process_pdf demo "/data/memo.pdf" "doc_2" start)))
    = ["memo.pdf"] /\
  document_metadata (snd (process_pdf demo "/data/memo.pdf" "doc_2" start))
    <> document_metadata start.
Proof.
  split; [reflexivity | split; [reflexivity | discriminate]].
Qed.

Lemma documents_and_vectorstores_share_keys_witness :
  reachable demo two_guides /\
  forall document_id,
    In document_id (dict_keys (documents two_guides)) <->
    In document_id (dict_keys (vectorstores two_guides)).
Proof.
  assert (R : reachable demo two_guides).
  { eapply reachable_step; [|apply step_process_pdf].
    eapply reachable_step; [apply reachable_init | apply step_process_pdf]. }
  split; [exact R |].
  exact (documents_and_vectorstores_share_keys demo two_guides R).
Defined.

(** C5, as stated, fails: the second line of the page is discarded, and
    the chunk after it keeps index 2 instead of taking index 1. *)
Lemma retained_indices_skip_discarded_chunks :
  split_text demo guide_page_1 =
    ["INTRODUCTION TO WIDGETS"; "Hi"; "Widgets are covered in depth here."] /\
  map page_content first_page_docs =
    ["INTRODUCTION TO WIDGETS"; "Widgets are covered in depth here."] /\
  map chunk_index first_page_docs = [0; 2] /\
  map chunk_index first_page_docs <> seq 0 (List.length first_page_docs).
Proof.
  split; [reflexivity | split; [reflexivity | split;
    [reflexivity | discriminate]]].
Qed.

Lemma search_unknown_document_not_found_witness :
  ~ In "doc_9" (dict_keys (vectorstores with_guide)) /\
  search_similar_chunks demo "What is covered?" "doc_9" 5 with_guide =
    (Raises (ValueError ("Document " ++ "doc_9" ++ " not found")),
     with_guide).
Proof.
  assert (N : ~ In "doc_9" (dict_keys (vectorstores with_guide))).
  { vm_compute. intros [H | []]. discriminate H. }
  split; [exact N |].
  exact (search_unknown_document_not_found demo "What is covered?" "doc_9" 5
           with_guide N).
Defined.

Lemma short_pages_contribute_no_chunks_witness :
  extract_text_from_pdf demo "/data/guide.pdf" "guide.pdf" start =
    (Returns guide_docs, after_extraction) /\
  exists pages,
    fitz_open demo "/data/guide.pdf" = Some pages /\
    forall i page_text method text,
      nth_error pages i = Some page_text ->
      extract_page demo "/data/guide.pdf" (S i) page_text
        = Some (method, text) ->
      (strip text = EmptyString \/ len (strip text) < 20 ->
       forall d, In d guide_docs -> page_number d <> S i) /\
      (~ (strip text = EmptyString \/ len (strip text) < 20) ->
       forall j chunk,
         nth_error (split_text demo text) j = Some chunk ->
         ((exists d, In d guide_docs /\ page_number d = S i /\
                     chunk_index d = j /\ page_content d = chunk)
          <-> 10 < len (strip chunk))).
Proof.
  split; [reflexivity |].
  apply (short_pages_contribute_no_chunks demo "/data/guide.pdf" "guide.pdf"
           start guide_docs after_extraction).
  reflexivity.
Defined.

Lemma search_returns_chunks_by_ascending_distance_witness :
  dict_get "doc_1" (vectorstores with_guide) = Some guide_docs /\
  similarity_search_with_score demo guide_docs "What is covered?" 3
    = Some guide_raw /\
  exists ranked,
    search_similar_chunks demo "What is covered?" "doc_1" 3 with_guide =
      (Returns (map fst ranked), with_guide) /\
    Permutation guide_raw ranked /\
    StronglySorted (fun a b => (snd a <= snd b)%Q) ranked.
Proof.
  split; [reflexivity | split; [reflexivity |]].
  apply (search_returns_chunks_by_ascending_distance demo "What is covered?"
           "doc_1" 3 with_guide guide_docs guide_raw); reflexivity.
Defined.

Lemma generate_answer_appends_sources_unless_cited_witness :
  generate_content demo (prompts_sent with_guide)
    (make_prompt "What is covered?" guide_docs)
    = Some "Widgets are covered in depth." /\
  exists answer w',
    generate_answer demo "What is covered?" guide_docs with_guide
      = (Returns answer, w') /\
    answer = "Widgets are covered in depth." ++ sources_block guide_docs.
Proof.
  split; [reflexivity |].
  destruct (generate_answer_appends_sources_unless_cited demo
              "What is covered?" guide_docs with_guide
              "Widgets are covered in depth." eq_refl)
    as (answer & w' & E & U & _).
  exists answer, w'. split; [exact E |]. apply U.
  split; intros H; apply PyStrFacts.contains_Substring in H; discriminate H.
Defined.

Lemma answer_question_without_chunks_logs_nothing_witness :
  In "doc_1" (dict_keys (documents with_guide)) /\
  fst (search_similar_chunks demo "?" "doc_1" 5 with_guide) = Returns [] /\
  fst (answer_question demo "doc_1" "?" with_guide) =
    Returns (mkAnswer no_information [] [] None
               (isoformat_now demo (clock_reads with_guide))) /\
  qa_log (snd (answer_question demo "doc_1" "?" with_guide))
    = qa_log with_guide /\
  prompts_sent (snd (answer_question demo "doc_1" "?" with_guide))
    = prompts_sent with_guide.
Proof.
  assert (I : In "doc_1" (dict_keys (documents with_guide)))
    by (vm_compute; left; reflexivity).
  split; [exact I |]. split; [reflexivity |].
  exact (proj1 (answer_question_without_chunks_logs_nothing demo "doc_1" "?"
                  with_guide) I eq_refl).
Defined.

Lemma cross_document_retrieval_witness :
  strip "What is covered?" <> EmptyString /\
  documents two_guides <> [] /\
  List.length used_chunks <= 5 /\
  prompts_sent (snd (ask_question_multiple demo (Some "What is covered?")
                       two_guides))
    = (prompts_sent two_guides ++
       [make_prompt "What is covered?" used_chunks])%list.
Proof.
  assert (Q : strip "What is covered?" <> EmptyString) by discriminate.
  assert (D : documents two_guides <> []) by discriminate.
  split; [exact Q |]. split; [exact D |].
  destruct (cross_document_retrieval_concatenates_then_truncates demo
              "What is covered?" two_guides D) as (_ & L & _ & _ & U).
  split; [exact L |]. apply U; [exact Q | discriminate].
Defined.

(** The length tests of lines 157 and 169 count characters: a page of
    twelve accented letters is skipped, a chunk of seven is dropped and
    one of eleven is kept; and a no-break space is white space. *)
Remark length_tests_count_characters :
  skip_page "éééééééééééé" = true /\
  keep_chunk "ééééééé" = false /\
  keep_chunk "ééééééééééé" = true /\
  strip blank_question = EmptyString.
Proof. repeat split; reflexivity. Qed.

(** C3, as stated, fails for a blank question: in [two_guides] the
    per-document searches for a question made of a no-break space and a
    space would find chunks, but the handler refuses the question with a
    400 before any search, sends no prompt and logs nothing. *)
Lemma blank_question_is_refused_before_retrieval :
  documents two_guides <> [] /\
  firstn 5 (List.concat (map (per_document_hits demo blank_question
                                two_guides)
                           (dict_keys (documents two_guides)))) <> [] /\
  ask_question_multiple demo (Some blank_question) two_guides =
    (Returns (ErrorBody "Question cannot be empty" None, 400), two_guides).
Proof.
  split; [discriminate |]. split; [vm_compute; discriminate |].
  vm_compute. reflexivity.
Qed.

(** In [two_guides] the five chunks used for a cross-document question
    are the three of [doc_1] followed by the first two of [doc_2]: the
    distances go down again where the second document starts. *)
Remark cross_document_order_is_per_document :
  map demo_distance used_chunks =
    [inject_Z 8; inject_Z 10; inject_Z 10; inject_Z 8; inject_Z 10] /\
  map chunk_index used_chunks = [2; 0; 0; 2; 0] /\
  ~ StronglySorted (fun a b => (a <= b)%Q) (map demo_distance used_chunks).
Proof.
  split; [reflexivity | split; [reflexivity |]].
  intros S. vm_compute in S.
  inversion S as [|a0 l0 Sa Fa]. inversion Sa as [|a1 l1 Sb Fb].
  inversion Fb as [|a2 l2 Lc Fc]. inversion Fc as [|a3 l3 Ld Fd].
  vm_compute in Ld. now apply Ld.
Qed.

End Examples.

(** * Properties of the whole service *)

(** ** More on dictionaries *)

Module DictLaws.
Import DictFacts.

Section Laws.
Context {V : Type}.

Lemma dict_get_set_same k (v : V) d : dict_get k (dict_set k v d) = Some v.
Proof.
  induction d as [|[k' v'] d IH]; simpl.
  - now rewrite String.eqb_refl.
  - destruct (String.eqb k k') eqn:E; simpl; rewrite E; auto.
Qed.

Lemma dict_get_set_other k k' (v : V) d :
  k' <> k -> dict_get k' (dict_set k v d) = dict_get k' d.
Proof.
  intros N. induction d as [|[k1 v1] d IH]; simpl.
  - apply String.eqb_neq in N. now rewrite N.
  - destruct (String.eqb_spec k k1) as [->|N1]; simpl.
    + apply String.eqb_neq in N. now rewrite N.
    + now rewrite IH.
Qed.

Lemma dict_get_del_other k k' (d : dict V) :
  k' <> k -> dict_get k' (dict_del k d) = dict_get k' d.
Proof.
  intros N. induction d as [|[k1 v1] d IH]; simpl; [reflexivity |].
  destruct (String.eqb_spec k k1) as [->|N1]; simpl.
  - apply String.eqb_neq in N. now rewrite N.
  - now rewrite IH.
Qed.

Lemma dict_get_Some_In k (d : dict V) v :
  dict_get k d = Some v -> In k (dict_keys d).
Proof.
  intros G. destruct (in_dec string_dec k (dict_keys d)) as [I | I]; auto.
  apply dict_get_None in I. congruence.
Qed.

Lemma dict_In_get k (d : dict V) :
  In k (dict_keys d) -> exists v, dict_get k d = Some v.
Proof.
  intros I. destruct (dict_get k d) as [v|] eqn:G; [now exists v |].
  apply dict_get_None in G. contradiction.
Qed.

Lemma dict_keys_set_cases k (v : V) d :
  dict_keys (dict_set k v d) =
  if dict_mem k d then dict_keys d else (dict_keys d ++ [k])%list.
Proof.
  unfold dict_mem. induction d as [|[k1 v1] d IH]; simpl; [reflexivity |].
  destruct (String.eqb k k1); simpl; [reflexivity |].
  rewrite IH. now destruct (dict_get k d).
Qed.

Lemma dict_keys_del_subset k k' (d : dict V) :
  In k' (dict_keys (dict_del k d)) -> In k' (dict_keys d).
Proof.
  induction d as [|[k1 v1] d IH]; simpl; [tauto |].
  destruct (String.eqb k k1); simpl; tauto.
Qed.

Lemma NoDup_keys_set k (v : V) d :
  NoDup (dict_keys d) -> NoDup (dict_keys (dict_set k v d)).
Proof.
  intros N. rewrite dict_keys_set_cases.
  destruct (dict_mem k d) eqn:M; [exact N |].
  apply NoDup_app; [exact N | constructor; [tauto | constructor] |].
  intros x Hx [<- | []]. apply dict_mem_In in Hx. congruence.
Qed.

Lemma NoDup_keys_del k (d : dict V) :
  NoDup (dict_keys d) -> NoDup (dict_keys (dict_del k d)).
Proof.
  induction d as [|[k1 v1] d IH]; simpl; intros N; [constructor |].
  inversion N as [|? ? Hn Hd]; subst.
  destruct (String.eqb k k1); simpl; [exact Hd |].
  constructor; [|now apply IH].
  intros I. apply Hn. now apply dict_keys_del_subset in I.
Qed.

Lemma dict_get_del_same k (d : dict V) :
  NoDup (dict_keys d) -> dict_get k (dict_del k d) = None.
Proof.
  induction d as [|[k1 v1] d IH]; simpl; intros N; [reflexivity |].
  inversion N as [|? ? Hn Hd]; subst.
  destruct (String.eqb_spec k k1) as [->|N1]; simpl.
  - now apply dict_get_None.
  - apply String.eqb_neq in N1. rewrite N1. now apply IH.
Qed.

Lemma dict_del_set_new k (v : V) d :
  ~ In k (dict_keys d) -> dict_del k (dict_set k v d) = d.
Proof.
  induction d as [|[k1 v1] d IH]; simpl; intros N.
  - now rewrite String.eqb_refl.
  - destruct (String.eqb_spec k k1) as [->|N1]; simpl.
    + exfalso. apply N. now left.
    + apply String.eqb_neq in N1. rewrite N1. f_equal. apply IH. tauto.
Qed.

Lemma dict_keys_length (d : dict V) :
  List.length (dict_keys d) = List.length d.
Proof. apply length_map. Qed.

End Laws.

End DictLaws.

(** ** More on extraction *)

Section ExtractionLaws.
Import PyStr PyStrFacts Title.

Variable ext : Externals.

Local Abbreviation W := (World (Index ext)).

Lemma extract_page_cases pdf_path page page_text method text :
  extract_page ext pdf_path page page_text = Some (method, text) ->
  (method = "direct" /\ text = page_text /\ strip page_text <> EmptyString) \/
  (method = "ocr" /\ strip page_text = EmptyString /\
   ocr_page ext pdf_path page = Some text).
Proof.
  unfold extract_page. destruct (is_empty (strip page_text)) eqn:E.
  - apply is_empty_true in E.
    destruct (ocr_page ext pdf_path page) as [t|]; simpl; [|discriminate].
    intros H. injection H as <- <-. right. auto.
  - apply is_empty_false in E. intros H. injection H as <- <-. left. auto.
Qed.

Lemma extract_page_fails pdf_path page page_text :
  extract_page ext pdf_path page page_text = None <->
  strip page_text = EmptyString /\ ocr_page ext pdf_path page = None.
Proof.
  unfold extract_page. destruct (is_empty (strip page_text)) eqn:E.
  - apply is_empty_true in E.
    destruct (ocr_page ext pdf_path page); simpl; split;
      try discriminate; try tauto. intros [_ H]. discriminate.
  - apply is_empty_false in E. split; [discriminate | tauto].
Qed.

(** The chunks that one page adds, with everything their metadata says. *)
Lemma page_body_new pdf_path name page total page_text method text all_docs
    (w : W) :
  extract_page ext pdf_path page page_text = Some (method, text) ->
  exists new w',
    page_body ext pdf_path name page total page_text all_docs w =
      (Returns (all_docs ++ new)%list, w') /\
    Forall (fun d => page_number d = page /\ total_pages d = total /\
                     source d = name /\ source_path d = pdf_path /\
                     extraction_method d = method /\
                     keep_chunk (page_content d) = true) new /\
    StronglySorted lt (map chunk_index new).
Proof.
  intros E. destruct (skip_page text) eqn:K.
  - exists [], w. rewrite app_nil_r, (page_body_skips ext _ _ _ _ _ _ _ _ _ E K).
    repeat split; constructor.
  - rewrite (page_body_chunks ext _ _ _ _ _ _ _ _ _ E K).
    destruct (chunk_loop_appends ext pdf_path name page total
                (section_title_of text) method (split_text ext text)
                0 all_docs w) as (new & w' & E' & _ & R & F).
    exists new, w'. split; [exact E' |]. split.
    + apply Forall_forall. intros d Hd.
      rewrite Forall_forall in F. destruct (F d Hd) as (a & b & c & e & _ & g).
      repeat split; auto.
      assert (Hin : In (chunk_index d, page_content d)
                      (retained 0 (split_text ext text)))
        by (rewrite <- R; apply in_map_iff; now exists d).
      apply in_retained in Hin. tauto.
    + replace (map chunk_index new)
        with (map fst (map (fun d => (chunk_index d, page_content d)) new))
        by (rewrite map_map; reflexivity).
      rewrite R. apply retained_increasing.
Qed.

Lemma StronglySorted_app {A} (R : A -> A -> Prop) l1 l2 :
  StronglySorted R l1 -> StronglySorted R l2 ->
  (forall a b, In a l1 -> In b l2 -> R a b) ->
  StronglySorted R (l1 ++ l2).
Proof.
  induction l1 as [|x l1 IH]; simpl; intros S1 S2 H; [exact S2 |].
  inversion S1 as [|? ? S1' F1]; subst. constructor.
  - apply IH; auto.
  - apply Forall_app. split; [exact F1 |].
    apply Forall_forall. intros b Hb. apply H; auto.
Qed.

Lemma StronglySorted_map_page {A} (f : A -> nat) page (l : list A) :
  StronglySorted lt (map f l) ->
  StronglySorted position_lt (map (fun d => (page, f d)) l).
Proof.
  induction l as [|x l IH]; simpl; intros S; [constructor |].
  inversion S as [|? ? S' F]; subst. constructor; [now apply IH |].
  rewrite Forall_map in *. eapply Forall_impl; [|exact F].
  intros a Ha. right. simpl. auto.
Qed.

(** The chunks that the page loop adds: each from a page of the file, in
    the order of the pages and, within a page, of the splitter output. *)
Lemma page_loop_chunks pdf_path name total pages :
  forall start all_docs (w : W) docs w',
    page_loop ext pdf_path name start total pages all_docs w =
      (Returns docs, w') ->
    exists new,
      docs = (all_docs ++ new)%list /\
      Forall (fun d =>
                start <= page_number d /\
                page_number d < start + List.length pages /\
                total_pages d = total /\ source d = name /\
                source_path d = pdf_path /\
                (extraction_method d = "direct" \/
                 extraction_method d = "ocr") /\
                10 < len (strip (page_content d))) new /\
      StronglySorted position_lt (map chunk_position new).
Proof.
  induction pages as [|page_text rest IH];
    intros start all_docs w docs w' H; simpl in H.
  - injection H as <- <-. exists []. rewrite app_nil_r.
    repeat split; constructor.
  - unfold bind in H.
    destruct (extract_page ext pdf_path start page_text) as [[m t]|] eqn:E.
    2:{ rewrite (page_body_ocr_fails ext _ _ _ _ _ _ _ E) in H. discriminate. }
    destruct (page_body_new pdf_path name start total page_text m t all_docs
                w E) as (new1 & w1 & P & F1 & S1).
    rewrite P in H.
    destruct (IH _ _ _ _ _ H) as (new2 & -> & F2 & S2).
    exists (new1 ++ new2)%list. rewrite app_assoc.
    split; [reflexivity |].
    assert (M : m = "direct" \/ m = "ocr")
      by (apply extract_page_cases in E; tauto).
    split.
    + apply Forall_app. split.
      * eapply Forall_impl; [|exact F1]. simpl.
        intros d (a & b & c & e & f & g). apply keep_chunk_length in g.
        rewrite a, f. repeat split; auto; lia.
      * eapply Forall_impl; [|exact F2]. simpl.
        intros d (a & b & c). repeat split; try tauto; lia.
    + rewrite map_app. apply StronglySorted_app.
      * assert (Eq : map chunk_position new1 =
                     map (fun d => (start, chunk_index d)) new1).
        { apply map_ext_in. intros d Hd. rewrite Forall_forall in F1.
          destruct (F1 d Hd) as (a & _). unfold chunk_position. now rewrite a. }
        rewrite Eq. now apply StronglySorted_map_page.
      * exact S2.
      * intros a b Ha Hb. apply in_map_iff in Ha, Hb.
        destruct Ha as (d1 & <- & H1). destruct Hb as (d2 & <- & H2).
        rewrite Forall_forall in F1, F2.
        destruct (F1 d1 H1) as (a1 & _). destruct (F2 d2 H2) as (a2 & _).
        left. simpl. lia.
Qed.

(** When the page loop raises, and when it returns. *)
Lemma page_loop_outcome pdf_path name total pages :
  forall start all_docs (w : W),
    ((exists i page_text,
        nth_error pages i = Some page_text /\
        extract_page ext pdf_path (start + i) page_text = None) /\
     fst (page_loop ext pdf_path name start total pages all_docs w) =
       Raises (CollaboratorError "ocr")) \/
    ((forall i page_text,
        nth_error pages i = Some page_text ->
        extract_page ext pdf_path (start + i) page_text <> None) /\
     exists docs,
       fst (page_loop ext pdf_path name start total pages all_docs w) =
         Returns docs).
Proof.
  induction pages as [|page_text rest IH]; intros start all_docs w; simpl.
  - right. split; [intros [|i] ? H; discriminate | now exists all_docs].
  - unfold bind.
    destruct (extract_page ext pdf_path start page_text) as [[m t]|] eqn:E.
    + destruct (page_body_new pdf_path name start total page_text m t
                  all_docs w E) as (new1 & w1 & -> & _).
      destruct (IH (S start) (all_docs ++ new1)%list w1)
        as [[(i & pt & Hn & He) R] | [Hall R]].
      * left. split; [|exact R]. exists (S i), pt.
        split; [exact Hn |]. now replace (start + S i) with (S start + i) by lia.
      * right. split; [|exact R]. intros [|i] pt Hn; simpl in Hn.
        -- injection Hn as <-. rewrite Nat.add_0_r, E. discriminate.
        -- replace (start + S i) with (S start + i) by lia. now apply Hall.
    + rewrite (page_body_ocr_fails ext _ _ _ _ _ _ _ E). left.
      split; [|reflexivity]. exists 0, page_text.
      split; [reflexivity | now rewrite Nat.add_0_r].
Qed.

End ExtractionLaws.

(** ** More on ingestion *)

Section IngestionLaws.
Import PyStr PyStrFacts Title DictFacts DictLaws.

Variable ext : Externals.

Local Abbreviation W := (World (Index ext)).

(** What a returning extraction has done. *)
Lemma extract_returns pdf_path name (w : W) docs w' :
  extract_text_from_pdf ext pdf_path name w = (Returns docs, w') ->
  exists pages w1,
    fitz_open ext pdf_path = Some pages /\
    page_loop ext pdf_path name 1 (List.length pages) pages []
      (snd (now ext w)) = (Returns docs, w1) /\
    documents w' = documents w /\ vectorstores w' = vectorstores w /\
    qa_log w' = qa_log w /\ prompts_sent w' = prompts_sent w /\
    document_metadata w' =
      dict_set name
        (mkPdfInfo name pdf_path (isoformat_now ext (clock_reads w))
           (List.length pages))
        (document_metadata w).
Proof.
  intros H.
  pose proof (extract_text_from_pdf_cases ext pdf_path name w) as C.
  simpl in C. destruct (fitz_open ext pdf_path) as [pages|].
  2:{ rewrite C in H. discriminate. }
  pose proof (page_loop_same_stores ext pdf_path name (List.length pages)
                pages 1 [] (snd (now ext w))) as S.
  destruct (page_loop ext pdf_path name 1 (List.length pages) pages [] _)
    as [[docs0|e] w1] eqn:L.
  2:{ rewrite C in H. discriminate. }
  rewrite C in H. injection H as <- <-.
  destruct S as (a & b & c & d & e). simpl in *.
  exists pages, w1. rewrite d. repeat split; auto.
Qed.

(** X1: extraction raises exactly when the file cannot be opened or the
    OCR of a page whose text layer is blank raises; one such page loses
    the whole document.  Otherwise extraction returns. *)
Theorem extraction_fails_on_unreadable_file_or_failed_ocr
    pdf_path name (w : W) :
  let run := extract_text_from_pdf ext pdf_path name w in
  match fitz_open ext pdf_path with
  | None => fst run = Raises (CollaboratorError "fitz")
  | Some pages =>
      ((exists i page_text,
          nth_error pages i = Some page_text /\
          strip page_text = EmptyString /\
          ocr_page ext pdf_path (S i) = None) /\
       fst run = Raises (CollaboratorError "ocr")) \/
      ((forall i page_text,
          nth_error pages i = Some page_text ->
          strip page_text = EmptyString ->
          ocr_page ext pdf_path (S i) <> None) /\
       exists docs, fst run = Returns docs)
  end.
Proof.
  pose proof (extract_text_from_pdf_cases ext pdf_path name w) as C.
  simpl in *. destruct (fitz_open ext pdf_path) as [pages|].
  2:{ now rewrite C. }
  destruct (page_loop_outcome ext pdf_path name (List.length pages) pages 1 []
              (snd (now ext w))) as [[(i & pt & Hn & He) R] | [Hall [docs R]]].
  - left. split.
    + exists i, pt. apply extract_page_fails in He. simpl in He. tauto.
    + destruct (page_loop ext pdf_path name 1 (List.length pages) pages [] _)
        as [[docs|e] w1]; simpl in R; [discriminate |].
      rewrite C. exact R.
  - right. split.
    + intros i pt Hn Hb Ho. apply (Hall i pt Hn).
      apply extract_page_fails. simpl. tauto.
    + destruct (page_loop ext pdf_path name 1 (List.length pages) pages [] _)
        as [[docs0|e] w1]; simpl in R; [|discriminate].
      exists docs0. now rewrite C.
Qed.

(** Everything that the chunks of a returning extraction have in common,
    used for the invariant of the stores. *)
Lemma extracted_chunks pdf_path name (w : W) docs w' :
  extract_text_from_pdf ext pdf_path name w = (Returns docs, w') ->
  exists pages,
    fitz_open ext pdf_path = Some pages /\
    Forall (fun d => well_formed_chunk d /\ source d = name /\
                     source_path d = pdf_path /\
                     total_pages d = List.length pages) docs /\
    StronglySorted position_lt (map chunk_position docs).
Proof.
  intros H. apply extract_returns in H.
  destruct H as (pages & w1 & F & L & _).
  apply page_loop_chunks in L. destruct L as (new & -> & A & S).
  exists pages. split; [exact F |]. simpl. split; [|exact S].
  eapply Forall_impl; [|exact A]. simpl.
  intros d (a & b & c & e & f & g & h).
  unfold well_formed_chunk. rewrite c. repeat split; auto; lia.
Qed.

Lemma position_lt_irrefl a : ~ position_lt a a.
Proof. unfold position_lt. lia. Qed.

Lemma StronglySorted_NoDup {A} (R : A -> A -> Prop) l :
  (forall a, ~ R a a) -> StronglySorted R l -> NoDup l.
Proof.
  intros Irr. induction 1 as [|x l S IH F]; constructor; auto.
  intros I. rewrite Forall_forall in F. apply (Irr x). now apply F.
Qed.

(** X2: the chunks of a returning extraction come in reading order: page
    numbers never decrease along the list and, within a page, chunk
    indices increase; so no two chunks of a document share a page number
    and a chunk index. *)
Theorem extracted_chunks_are_in_reading_order pdf_path name (w : W) docs w' :
  extract_text_from_pdf ext pdf_path name w = (Returns docs, w') ->
  StronglySorted position_lt (map chunk_position docs) /\
  NoDup (map chunk_position docs) /\
  forall d d', In d docs -> In d' docs ->
    page_number d = page_number d' -> chunk_index d = chunk_index d' ->
    page_content d = page_content d'.
Proof.
  intros H.
  destruct (extracted_chunks _ _ _ _ _ H) as (pages & _ & _ & S).
  split; [exact S |]. split.
  - eapply StronglySorted_NoDup; [apply position_lt_irrefl | exact S].
  - intros d d' Hd Hd' Pg Ci.
    apply extract_returns in H. destruct H as (pages' & w1 & _ & L & _).
    apply page_loop_appends in L. destruct L as (new & -> & Sound & _).
    simpl in Hd, Hd'.
    destruct (Sound d Hd) as (pt & m & t & _ & Hn & He & _ & Hin & _).
    destruct (Sound d' Hd') as (pt' & m' & t' & _ & Hn' & He' & _ & Hin' & _).
    rewrite <- Pg in Hn', He'. rewrite Hn in Hn'. injection Hn' as <-.
    rewrite He in He'. injection He' as <- <-.
    apply in_retained in Hin, Hin'. rewrite Nat.sub_0_r in Hin, Hin'.
    rewrite <- Ci in Hin'. destruct Hin as (_ & G & _).
    destruct Hin' as (_ & G' & _). congruence.
Qed.

(** X3: in a returning extraction a chunk is tagged "direct" exactly when
    the text layer of its page is not blank and "ocr" exactly when it is;
    its section title is the one detected on the text it was cut from;
    and the chunks of one page agree on both. *)
Theorem chunks_of_a_page_share_method_and_section
    pdf_path name (w : W) docs w' :
  extract_text_from_pdf ext pdf_path name w = (Returns docs, w') ->
  exists pages,
    fitz_open ext pdf_path = Some pages /\
    (forall d, In d docs ->
       exists page_text text,
         nth_error pages (page_number d - 1) = Some page_text /\
         (extraction_method d = "direct" <->
          strip page_text <> EmptyString) /\
         (extraction_method d = "ocr" <-> strip page_text = EmptyString) /\
         (strip page_text <> EmptyString -> text = page_text) /\
         (strip page_text = EmptyString ->
          ocr_page ext pdf_path (page_number d) = Some text) /\
         section d = section_title_of text) /\
    (forall d d', In d docs -> In d' docs ->
       page_number d = page_number d' ->
       extraction_method d = extraction_method d' /\ section d = section d').
Proof.
  intros H. apply extract_returns in H.
  destruct H as (pages & w1 & F & L & _).
  apply page_loop_appends in L. destruct L as (new & -> & Sound & _).
  exists pages. split; [exact F |]. simpl. split.
  - intros d Hd.
    destruct (Sound d Hd) as (pt & m & t & _ & Hn & He & _ & _ & Hs & Hm).
    exists pt, t. split; [exact Hn |]. rewrite Hm, Hs.
    apply extract_page_cases in He.
    destruct He as [(-> & -> & B) | (-> & B & O)].
    + repeat split; auto; try discriminate; try tauto.
    + repeat split; auto; try discriminate; try tauto.
  - intros d d' Hd Hd' Pg.
    destruct (Sound d Hd) as (pt & m & t & _ & Hn & He & _ & _ & Hs & Hm).
    destruct (Sound d' Hd')
      as (pt' & m' & t' & _ & Hn' & He' & _ & _ & Hs' & Hm').
    rewrite <- Pg in Hn', He'. rewrite Hn in Hn'. injection Hn' as <-.
    rewrite He in He'. injection He' as <- <-. split; congruence.
Qed.

End IngestionLaws.

(** ** Registration *)

Section RegistrationLaws.
Import PyStr PyStrFacts DictFacts DictLaws.

Variable ext : Externals.

Local Abbreviation W := (World (Index ext)).

(** Everything [process_pdf] does, by outcome. *)
Lemma process_pdf_outcome pdf_path document_id (w : W) :
  let name := basename ext pdf_path in
  match process_pdf ext pdf_path document_id w with
  | (Returns result, w') =>
      exists pages docs index w1,
        fitz_open ext pdf_path = Some pages /\
        extract_text_from_pdf ext pdf_path name w = (Returns docs, w1) /\
        docs <> [] /\ from_documents ext docs = Some index /\
        result = mkProcessResult document_id name "success"
                   (List.length docs) (Some (List.length pages))
                   (isoformat_now ext (clock_reads w1)) /\
        documents w' = dict_set document_id docs (documents w) /\
        vectorstores w' = dict_set document_id index (vectorstores w) /\
        document_metadata w' =
          dict_set name
            (mkPdfInfo name pdf_path (isoformat_now ext (clock_reads w))
               (List.length pages))
            (document_metadata w) /\
        qa_log w' = qa_log w /\ prompts_sent w' = prompts_sent w
  | (Raises e, w') =>
      documents w' = documents w /\ vectorstores w' = vectorstores w /\
      qa_log w' = qa_log w /\ prompts_sent w' = prompts_sent w /\
      (document_metadata w' = document_metadata w \/
       exists stamp total,
         document_metadata w' =
           dict_set name (mkPdfInfo name pdf_path stamp total)
             (document_metadata w))
  end.
Proof.
  intros name. unfold process_pdf, bind. fold name.
  pose proof (extract_text_from_pdf_effect ext pdf_path name w) as X.
  destruct (extract_text_from_pdf ext pdf_path name w) as [[docs|e] w1] eqn:E;
    simpl.
  - destruct (extract_returns ext _ _ _ _ _ E)
      as (pages & w0 & F & _ & HD & HV & HQ & HP & HM).
    destruct docs as [|d docs]; simpl.
    + repeat split; auto. right. eexists. eexists. exact HM.
    + unfold create_vectorstore.
      destruct (from_documents ext (d :: docs)) as [index|] eqn:FD; simpl.
      * exists pages, (d :: docs), index, w1. rewrite HD, HV, HM.
        rewrite dict_get_set_same. simpl.
        repeat split; auto. discriminate.
      * repeat split; auto. right. eexists. eexists. exact HM.
  - destruct X as (HD & HV & HQ & HM & HP). repeat split; auto.
Qed.

(** X4: when [process_pdf] returns, its report says "success", names the
    file by its base name, counts the registered chunks (at least one) and
    gives the number of pages of the file (the "Unknown" default is never
    used); the chunk list and the index built from it can be looked up
    under the identifier, and a search on the identifier reaches that
    index instead of raising "not found". *)
Theorem process_pdf_reports_and_registers
    pdf_path document_id (w : W) result w' :
  process_pdf ext pdf_path document_id w = (Returns result, w') ->
  exists pages docs index,
    fitz_open ext pdf_path = Some pages /\
    from_documents ext docs = Some index /\
    pr_status result = "success" /\
    pr_document_id result = document_id /\
    pr_document_name result = basename ext pdf_path /\
    chunks_count result = List.length docs /\ 1 <= chunks_count result /\
    pr_total_pages result = Some (List.length pages) /\
    dict_get document_id (documents w') = Some docs /\
    dict_get document_id (vectorstores w') = Some index /\
    (exists info,
       dict_get (basename ext pdf_path) (document_metadata w') = Some info /\
       info_total_pages info = List.length pages /\
       full_path info = pdf_path) /\
    forall query top_k,
      search_similar_chunks ext query document_id top_k w' =
        match similarity_search_with_score ext index query top_k with
        | Some raw => (Returns (map fst (sort_by_score raw)), w')
        | None => (Raises (CollaboratorError "faiss"), w')
        end.
Proof.
  intros H. pose proof (process_pdf_outcome pdf_path document_id w) as O.
  simpl in O. rewrite H in O.
  destruct O as (pages & docs & index & w1 & F & _ & N & FD & -> & HD & HV
                 & HM & _).
  exists pages, docs, index. simpl.
  assert (GV : dict_get document_id (vectorstores w') = Some index)
    by (rewrite HV; apply dict_get_set_same).
  repeat split; auto.
  - destruct docs; [contradiction | simpl; lia].
  - rewrite HD. apply dict_get_set_same.
  - eexists. rewrite HM, dict_get_set_same. repeat split.
  - intros query top_k. unfold search_similar_chunks, bind, get. simpl.
    rewrite GV. simpl.
    destruct (similarity_search_with_score ext index query top_k);
      reflexivity.
Qed.

(** X5: whatever its outcome, [process_pdf] touches no document other
    than the one it was given, no metadata entry other than that of the
    file name, and neither the log nor the model. *)
Theorem process_pdf_leaves_the_rest pdf_path document_id (w : W) :
  let w' := snd (process_pdf ext pdf_path document_id w) in
  (forall other, other <> document_id ->
     dict_get other (documents w') = dict_get other (documents w) /\
     dict_get other (vectorstores w') = dict_get other (vectorstores w)) /\
  (forall other, other <> basename ext pdf_path ->
     dict_get other (document_metadata w')
       = dict_get other (document_metadata w)) /\
  qa_log w' = qa_log w /\ prompts_sent w' = prompts_sent w.
Proof.
  pose proof (process_pdf_outcome pdf_path document_id w) as O. simpl in *.
  destruct (process_pdf ext pdf_path document_id w) as [[r|e] w']; simpl.
  - destruct O as (pages & docs & index & w1 & _ & _ & _ & _ & _ & HD & HV
                   & HM & HQ & HP).
    rewrite HD, HV, HM. repeat split; auto.
    + now apply dict_get_set_other.
    + now apply dict_get_set_other.
    + intros other N. now apply dict_get_set_other.
  - destruct O as (HD & HV & HQ & HP & [HM | (s & t & HM)]);
      rewrite HD, HV, HM; repeat split; auto.
    intros other N. now apply dict_get_set_other.
Qed.

Lemma process_pdf_leaves_the_rest_of_the_log pdf_path document_id (w : W) :
  qa_log (snd (process_pdf ext pdf_path document_id w)) = qa_log w /\
  prompts_sent (snd (process_pdf ext pdf_path document_id w))
    = prompts_sent w.
Proof.
  pose proof (process_pdf_outcome pdf_path document_id w) as O. simpl in O.
  destruct (process_pdf ext pdf_path document_id w) as [[r|e] w']; simpl.
  - destruct O as (pages & docs & index & w1 & _ & _ & _ & _ & _ & _ & _
                   & _ & HQ & HP).
    split; assumption.
  - destruct O as (_ & _ & HQ & HP & _). split; assumption.
Qed.

Lemma consistent_same_stores (w w' : W) :
  documents w' = documents w -> vectorstores w' = vectorstores w ->
  qa_log w' = qa_log w -> document_metadata w' = document_metadata w ->
  stores_consistent ext w -> stores_consistent ext w'.
Proof.
  unfold stores_consistent, keys_agree. intros -> -> -> ->. tauto.
Qed.

Lemma metadata_set_keeps_filing name pdf_path stamp total
    (md : dict PdfInfo) :
  name = basename ext pdf_path ->
  (forall n info, dict_get n md = Some info ->
     filename info = n /\ basename ext (full_path info) = n) ->
  forall n info,
    dict_get n (dict_set name (mkPdfInfo name pdf_path stamp total) md)
      = Some info ->
    filename info = n /\ basename ext (full_path info) = n.
Proof.
  intros -> Old n info G.
  destruct (string_dec n (basename ext pdf_path)) as [->|N].
  - rewrite dict_get_set_same in G. injection G as <-. split; reflexivity.
  - rewrite dict_get_set_other in G by exact N. now apply Old.
Qed.

Lemma process_pdf_consistent pdf_path document_id (w : W) :
  stores_consistent ext w ->
  stores_consistent ext (snd (process_pdf ext pdf_path document_id w)).
Proof.
  intros (K & ND & NM & Look & Meta & Log).
  pose proof (process_pdf_outcome pdf_path document_id w) as O. simpl in O.
  destruct (process_pdf ext pdf_path document_id w) as [[r|e] w']; simpl.
  - destruct O as (pages & docs & index & w1 & F & E & N & FD & _ & HD & HV
                   & HM & HQ & _).
    unfold stores_consistent, keys_agree. rewrite HD, HV, HM, HQ.
    split; [now apply dict_keys_set |].
    split; [now apply NoDup_keys_set |].
    split; [now apply NoDup_keys_set |].
    split; [|split; [|exact Log]].
    + intros id0 docs0 G.
      destruct (string_dec id0 document_id) as [->|Nid].
      * rewrite dict_get_set_same in G. injection G as <-.
        split; [|exists index; split; [apply dict_get_set_same | exact FD]].
        destruct (extracted_chunks ext _ _ _ _ _ E) as (pages' & _ & A & S).
        rewrite Forall_forall in A.
        split; [exact N |]. split; [|split; [|exact S]].
        -- apply Forall_forall. intros d Hd. now apply A.
        -- intros d d' Hd Hd'.
           destruct (A d Hd) as (_ & a & b & c).
           destruct (A d' Hd') as (_ & a' & b' & c').
           unfold same_origin. repeat split; congruence.
      * rewrite dict_get_set_other in G by exact Nid.
        destruct (Look id0 docs0 G) as (WF & ix & GV & FDx).
        split; [exact WF |]. exists ix.
        now rewrite dict_get_set_other by exact Nid.
    + now apply metadata_set_keeps_filing.
  - destruct O as (HD & HV & HQ & _ & [HM | (s & t & HM)]).
    + apply (consistent_same_stores w); auto.
      unfold stores_consistent. tauto.
    + unfold stores_consistent, keys_agree. rewrite HD, HV, HM, HQ.
      split; [exact K |]. split; [exact ND |].
      split; [now apply NoDup_keys_set |].
      split; [exact Look |]. split; [|exact Log].
      now apply metadata_set_keeps_filing.
Qed.

End RegistrationLaws.

(** ** Deletion and reset *)

Section DeletionLaws.
Import PyStr PyStrFacts DictFacts DictLaws.

Variable ext : Externals.

Local Abbreviation W := (World (Index ext)).

Lemma dict_del_absent {V} k (d : dict V) :
  ~ In k (dict_keys d) -> dict_del k d = d.
Proof.
  induction d as [|[k1 v1] d IH]; simpl; intros N; [reflexivity |].
  destruct (String.eqb_spec k k1) as [->|N1].
  - exfalso. apply N. now left.
  - f_equal. apply IH. tauto.
Qed.

(** The name that [delete_document] reports and files the metadata
    under (lines 783-785). *)
Lemma delete_document_outcome document_id (w : W) :
  match dict_get document_id (documents w) with
  | None =>
      delete_document ext document_id w =
        (Returns (ErrorBody "Document not found" None, 404), w)
  | Some docs =>
      let doc_name :=
        match docs with [] => "Unknown" | first :: _ => source first end in
      let run := delete_document ext document_id w in
      documents (snd run) = dict_del document_id (documents w) /\
      qa_log (snd run) = qa_log w /\
      prompts_sent (snd run) = prompts_sent w /\
      clock_reads (snd run) = clock_reads w /\
      if dict_mem document_id (vectorstores w) then
        fst run =
          Returns (DeletedBody "Document deleted successfully" document_id
                     doc_name, 200) /\
        vectorstores (snd run) = dict_del document_id (vectorstores w) /\
        document_metadata (snd run) = dict_del doc_name (document_metadata w)
      else
        fst run =
          Returns (ErrorBody "Internal server error"
                     (Some (KeyError document_id)), 500) /\
        vectorstores (snd run) = vectorstores w /\
        document_metadata (snd run) = document_metadata w
  end.
Proof.
  unfold delete_document, try_except, bind, get. simpl.
  destruct (dict_get document_id (documents w)) as [docs|]; simpl;
    [|reflexivity].
  destruct (dict_mem document_id (vectorstores w)) eqn:M; simpl.
  - match goal with
    | |- context [dict_mem ?n (document_metadata w)] =>
        destruct (dict_mem n (document_metadata w)) eqn:MM
    end; simpl; repeat split.
    match goal with
    | |- _ = dict_del ?n _ => rewrite (dict_del_absent n)
    end; [reflexivity |].
    intros I. apply dict_mem_In in I. congruence.
  - repeat split.
Qed.

Lemma delete_document_consistent document_id (w : W) :
  stores_consistent ext w ->
  stores_consistent ext (snd (delete_document ext document_id w)).
Proof.
  intros C. pose proof C as (K & ND & NM & Look & Meta & Log).
  pose proof (delete_document_outcome document_id w) as O.
  destruct (dict_get document_id (documents w)) as [docs|] eqn:G.
  2:{ now rewrite O. }
  simpl in O. destruct O as (HD & HQ & _ & _ & O).
  assert (M : dict_mem document_id (vectorstores w) = true).
  { apply dict_mem_In. unfold keys_agree in K. rewrite <- K.
    eapply dict_get_Some_In; eauto. }
  rewrite M in O. destruct O as (_ & HV & HM).
  unfold stores_consistent, keys_agree. rewrite HD, HV, HM, HQ.
  split; [now apply dict_keys_del |].
  split; [now apply NoDup_keys_del |].
  split; [now apply NoDup_keys_del |].
  split; [|split; [|exact Log]].
  - intros id0 docs0 G0.
    destruct (string_dec id0 document_id) as [->|N].
    + rewrite dict_get_del_same in G0 by exact ND. discriminate.
    + rewrite dict_get_del_other in G0 by exact N.
      destruct (Look id0 docs0 G0) as (WF & ix & GV & FD).
      split; [exact WF |]. exists ix.
      now rewrite dict_get_del_other by exact N.
  - intros n info G0.
    match type of G0 with
    | dict_get n (dict_del ?dn _) = _ =>
        destruct (string_dec n dn) as [->|N]
    end.
    + rewrite dict_get_del_same in G0 by exact NM. discriminate.
    + rewrite dict_get_del_other in G0 by exact N. now apply Meta.
Qed.

Lemma clear_stores_consistent (w : W) :
  stores_consistent ext (clear_stores ext w).
Proof.
  unfold stores_consistent, keys_agree. simpl.
  repeat split; try constructor; intros; discriminate.
Qed.

End DeletionLaws.

(** ** The question handlers *)

Section QuestionLaws.
Import PyStr PyStrFacts DictFacts DictLaws.

Variable ext : Externals.

Local Abbreviation W := (World (Index ext)).

Local Arguments firstn : simpl never.

Lemma lower_append a b : lower (a ++ b) = lower a ++ lower b.
Proof. induction a as [|c a IH]; simpl; [reflexivity | now rewrite IH]. Qed.

Lemma Substring_append_r p a b : Substring p b -> Substring p (a ++ b).
Proof.
  intros (pre & post & ->). exists (a ++ pre), post.
  now rewrite append_assoc.
Qed.

Lemma Substring_append_l p a b : Substring p a -> Substring p (a ++ b).
Proof.
  intros (pre & post & ->). exists pre, (post ++ b).
  now rewrite !append_assoc.
Qed.

Lemma sources_block_mentions_source docs :
  Substring "source" (lower (sources_block docs)).
Proof.
  unfold sources_block. rewrite !lower_append.
  exists (lower nl ++ lower nl), ("s:" ++ lower nl ++
    lower (String.concat EmptyString (map source_line docs))).
  rewrite append_assoc.
  change (lower nl) with nl. change (lower "Sources:") with "sources:".
  reflexivity.
Qed.

(** X6: whatever the model replies, the answer that [generate_answer]
    returns contains "page" or "source" when lower-cased, so passing an
    answer through the post-processing a second time changes nothing. *)
Theorem synthesised_answers_always_name_a_source query docs (w : W) :
  (forall text,
     let answer := add_sources text docs in
     (Substring "page" (lower answer) \/ Substring "source" (lower answer)) /\
     add_sources answer docs = answer) /\
  forall answer w',
    generate_answer ext query docs w = (Returns answer, w') ->
    Substring "page" (lower answer) \/ Substring "source" (lower answer).
Proof.
  assert (A : forall text,
            Substring "page" (lower (add_sources text docs)) \/
            Substring "source" (lower (add_sources text docs))).
  { intros text. destruct (add_sources_cases text docs) as [U C].
    destruct (classic_uncited text) as [Y | N].
    - rewrite (U Y), lower_append. right.
      apply Substring_append_r, sources_block_mentions_source.
    - rewrite (C N). simpl in N.
      pose proof (contains_Substring "page" (lower text)) as P.
      destruct (contains "page" (lower text)).
      + left. now apply P.
      + right. pose proof (contains_Substring "source" (lower text)) as S.
        destruct (contains "source" (lower text)); [now apply S |].
        exfalso. apply N.
        split; intros X; [apply P in X | apply S in X]; discriminate. }
  split.
  - intros text answer. split; [apply A |].
    destruct (add_sources_cases answer docs) as [_ C]. apply C.
    intros [NP NS]. destruct (A text); contradiction.
  - intros answer w'. unfold generate_answer, bind, ask_model.
    destruct (generate_content ext (prompts_sent w) (make_prompt query docs))
      as [text|]; simpl; [|discriminate].
    intros H. injection H as <- _. apply A.
Qed.

(** X7: [/ask/<document_id>] is [answer_question] behind validation: for
    a question that is not blank both leave the same state; what the
    method returns is the body of a 200, its "not found" error is a 404
    and any other exception a 500.  The handler itself never raises. *)
Theorem ask_question_single_follows_answer_question document_id q (w : W) :
  strip q <> EmptyString ->
  let method_run := answer_question ext document_id q w in
  let handler_run := ask_question_single ext document_id (Some q) w in
  snd handler_run = snd method_run /\
  match fst method_run with
  | Returns a => fst handler_run = Returns (SingleAnswer a, 200)
  | Raises e =>
      if dict_mem document_id (documents w)
      then fst handler_run =
             Returns (SingleError "Internal server error" (Some e), 500)
      else fst handler_run =
             Returns (SingleError
                        ("Document " ++ document_id ++
                         " not found. Please upload and process the PDF first.")
                        None, 404)
  end.
Proof.
  intros Q. apply is_empty_false in Q.
  unfold ask_question_single, answer_question, try_except, bind, get.
  rewrite Q. simpl.
  destruct (dict_mem document_id (documents w)); simpl;
    [|split; reflexivity].
  destruct (search_similar_chunks ext q document_id 5 w) as [[docs|e] w1];
    simpl; [|split; reflexivity].
  destruct docs as [|d docs]; simpl; [split; reflexivity |].
  destruct (generate_answer ext q (d :: docs) w1) as [[text|e] w2];
    simpl; split; reflexivity.
Qed.

(** The log after [answer_question]: as before, or one entry longer. *)
Lemma answer_question_log document_id q (w : W) :
  let w' := snd (answer_question ext document_id q w) in
  qa_log w' = qa_log w \/
  exists entry,
    qa_log w' = (qa_log w ++ [entry])%list /\
    List.length (sources entry) = List.length (source_details entry).
Proof.
  unfold answer_question, bind, get. simpl.
  destruct (dict_mem document_id (documents w)); simpl; [|now left].
  pose proof (search_similar_chunks_reads_only ext q document_id 5 w) as R.
  destruct (search_similar_chunks ext q document_id 5 w) as [[docs|e] w1];
    simpl in R; subst w1; simpl; [|now left].
  destruct docs as [|d docs]; simpl; [now left |].
  pose proof (generate_answer_effect ext q (d :: docs) w) as G. simpl in G.
  destruct G as (_ & _ & GQ & _).
  destruct (generate_answer ext q (d :: docs) w) as [[text|e] w1];
    simpl in *; [|now left].
  right. eexists. rewrite GQ. split; [reflexivity |]. simpl.
  rewrite collect_sources_maps. simpl. now rewrite !length_map.
Qed.

(** X8: the cross-document handler never raises and never answers with a
    status other than 200, 400 or 500; it leaves [documents],
    [vectorstores] and [document_metadata] alone; and it logs exactly
    when it returns a synthesised answer: the entry then repeats the
    answer and the sources of the reply, which has as many sources as
    source details and chunks, between one and five. *)
Theorem ask_question_multiple_replies_and_logs_together data (w : W) :
  let run := ask_question_multiple ext data w in
  exists body status,
    fst run = Returns (body, status) /\
    (status = 200 \/ status = 400 \/ status = 500) /\
    documents (snd run) = documents w /\
    vectorstores (snd run) = vectorstores w /\
    document_metadata (snd run) = document_metadata w /\
    match body with
    | AnswerBody text cited cited_details chunks searched answered_at =>
        status = 200 /\
        searched = List.length (documents w) /\
        List.length cited = List.length cited_details /\
        List.length cited = List.length chunks /\
        1 <= List.length chunks /\ List.length chunks <= 5 /\
        cited = map (fun c => format_source_info (metadata c)) chunks /\
        exists stamp,
          qa_log (snd run) =
            (qa_log w ++
             [mkQAEntry match data with Some q => q | None => EmptyString end
                text cited cited_details stamp])%list
    | _ => qa_log (snd run) = qa_log w
    end.
Proof.
  unfold ask_question_multiple, try_except, bind, get.
  destruct data as [q|]; simpl.
  2:{ eexists. eexists. split; [reflexivity |]. repeat split; auto. }
  destruct (is_empty (strip q)); simpl.
  { eexists. eexists. split; [reflexivity |]. repeat split; auto. }
  destruct (is_nil (documents w)); simpl.
  { eexists. eexists. split; [reflexivity |]. repeat split; auto. }
  rewrite search_loop_collects. simpl.
  destruct (List.concat (map (per_document_hits ext q w)
              (dict_keys (documents w)))) as [|d hits]; simpl.
  { eexists. eexists. split; [reflexivity |]. repeat split; auto. }
  pose proof (generate_answer_effect ext q (firstn 5 (d :: hits)) w) as G.
  simpl in G. destruct G as (GD & GV & GQ & GM & _).
  destruct (generate_answer ext q (firstn 5 (d :: hits)) w)
    as [[text|e] w1]; simpl in *.
  - eexists. eexists. split; [reflexivity |]. rewrite GD, GV, GM, GQ.
    rewrite !firstn_cons, !firstn_map. simpl. rewrite !length_map.
    repeat split; auto.
    + lia.
    + pose proof (firstn_le_length 4 hits). lia.
    + rewrite map_map. reflexivity.
    + eexists. reflexivity.
  - eexists. eexists. split; [reflexivity |]. repeat split; auto.
Qed.

End QuestionLaws.

(** ** Batch ingestion and upload *)

Section BatchLaws.
Import PyStr PyStrFacts DictFacts DictLaws.

Variable ext : Externals.
Variable bext : BatchExternals.

Local Abbreviation W := (World (Index ext)).

Lemma strftime_same_stores (w : W) :
  same_stores w (snd (strftime ext bext w)).
Proof. repeat split. Qed.

(** The two ways through the loop body for one file. *)
Lemma batch_file_cases i pdf_path (w : W) :
  if path_exists bext pdf_path then
    let document_id :=
      batch_document_id bext (strftime_now bext (clock_reads w)) i pdf_path in
    match process_pdf ext pdf_path document_id (snd (strftime ext bext w)) with
    | (Returns result, w') =>
        batch_file ext bext i pdf_path w =
          (Returns (FileProcessed result pdf_path), w') /\
        pr_status result = "success"
    | (Raises e, w') =>
        batch_file ext bext i pdf_path w = (Returns (FileFailed pdf_path e), w')
    end
  else batch_file ext bext i pdf_path w = (Returns (FileNotFound pdf_path), w).
Proof.
  unfold batch_file, try_except, bind.
  destruct (path_exists bext pdf_path); simpl; [|reflexivity].
  match goal with
  | |- context [process_pdf ext pdf_path ?id ?w0] =>
      pose proof (process_pdf_outcome ext pdf_path id w0) as O;
      destruct (process_pdf ext pdf_path id w0) as [[r|e] w']
  end; simpl in *; [|reflexivity].
  destruct O as (pages & docs & index & w1 & _ & _ & _ & _ & -> & _).
  split; reflexivity.
Qed.

Lemma batch_file_preserves (P : W -> Prop) :
  (forall w w', same_stores w w' -> P w -> P w') ->
  (forall p id w, P w -> P (snd (process_pdf ext p id w))) ->
  forall i p w, P w -> P (snd (batch_file ext bext i p w)).
Proof.
  intros Tick Proc i p w H.
  pose proof (batch_file_cases i p w) as C.
  destruct (path_exists bext p); [|now rewrite C].
  simpl in C.
  match type of C with
  | match process_pdf ext p ?id ?w0 with _ => _ end =>
      pose proof (Proc p id w0 (Tick _ _ (strftime_same_stores w) H)) as X;
      destruct (process_pdf ext p id w0) as [[r|e] w']
  end.
  - destruct C as (-> & _). exact X.
  - rewrite C. exact X.
Qed.

Lemma batch_loop_preserves (P : W -> Prop) :
  (forall w w', same_stores w w' -> P w -> P w') ->
  (forall p id w, P w -> P (snd (process_pdf ext p id w))) ->
  forall pdf_paths i results w,
    P w -> P (snd (batch_loop ext bext i pdf_paths results w)).
Proof.
  intros Tick Proc pdf_paths.
  induction pdf_paths as [|p rest IH]; intros i results w H; simpl;
    [exact H |].
  unfold bind.
  pose proof (batch_file_preserves P Tick Proc i p w H) as X.
  pose proof (batch_file_cases i p w) as C.
  destruct (batch_file ext bext i p w) as [[r|e] w1]; simpl in X.
  - now apply IH.
  - exact X.
Qed.

(** The results of the loop: one per path, in the order of the paths. *)
Lemma batch_loop_results pdf_paths :
  forall i results (w : W),
  exists new w',
    batch_loop ext bext i pdf_paths results w =
      (Returns (results ++ new)%list, w') /\
    Forall2 (fun p r =>
               result_path r = p /\
               (path_exists bext p = false <-> r = FileNotFound p) /\
               (forall result p', r = FileProcessed result p' ->
                                  pr_status result = "success"))
            pdf_paths new.
Proof.
  induction pdf_paths as [|p rest IH]; intros i results w; simpl.
  - exists [], w. rewrite app_nil_r. split; [reflexivity | constructor].
  - unfold bind. pose proof (batch_file_cases i p w) as C.
    destruct (path_exists bext p) eqn:E.
    + simpl in C.
      match type of C with
      | match process_pdf ext p ?id ?w0 with _ => _ end =>
          destruct (process_pdf ext p id w0) as [[r|e] w1]
      end.
      * destruct C as (-> & Hs).
        destruct (IH (S i) (results ++ [FileProcessed r p])%list w1)
          as (new & w' & -> & F).
        exists (FileProcessed r p :: new), w'. rewrite <- app_assoc.
        split; [reflexivity |]. constructor; [|exact F].
        split; [reflexivity |].
        split; [split; [congruence | discriminate] |].
        intros result p' H. injection H as <- <-. exact Hs.
      * rewrite C.
        destruct (IH (S i) (results ++ [FileFailed p e])%list w1)
          as (new & w' & -> & F).
        exists (FileFailed p e :: new), w'. rewrite <- app_assoc.
        split; [reflexivity |]. constructor; [|exact F].
        split; [reflexivity |].
        split; [split; [congruence | discriminate] | discriminate].
    + rewrite C.
      destruct (IH (S i) (results ++ [FileNotFound p])%list w)
        as (new & w' & -> & F).
      exists (FileNotFound p :: new), w'. rewrite <- app_assoc.
      split; [reflexivity |]. constructor; [|exact F].
      split; [reflexivity |]. split; [tauto | discriminate].
Qed.

Lemma count_successful_is_processed results :
  Forall (fun r => forall result p, r = FileProcessed result p ->
                                    pr_status result = "success") results ->
  count_successful results =
  List.length (filter (fun r => match r with
                                | FileProcessed _ _ => true
                                | _ => false
                                end) results).
Proof.
  unfold count_successful. induction 1 as [|r l H F IH]; simpl;
    [reflexivity |].
  destruct r as [p | p e | result p]; simpl; auto.
  rewrite (H result p eq_refl). simpl. now rewrite IH.
Qed.

(** [/process] rejects a body without ["PdfPaths"], one whose
    ["PdfPaths"] is not a list and an empty list with a 400, and does not
    touch the processor, the clock included. *)
Remark process_pdfs_rejects_bad_bodies (w : W) :
  process_pdfs ext bext PathsMissing w =
    (Returns (BatchError "Missing PdfPaths" None, 400), w) /\
  process_pdfs ext bext PathsNotAList w =
    (Returns (BatchError "PdfPaths must be a non-empty list" None, 400), w) /\
  process_pdfs ext bext (PathsList []) w =
    (Returns (BatchError "PdfPaths must be a non-empty list" None, 400), w).
Proof. repeat split. Qed.

(** X9: for a non-empty list of paths [/process] always answers 200
    "completed": there is one result per path, in the order of the paths,
    whatever happens to the other files; a path that does not exist gets
    "File not found"; the successes are the processed files, and
    successes and failures add up to the number of files. *)
Theorem process_pdfs_accounts_for_every_file pdf_paths (w : W) :
  pdf_paths <> [] ->
  exists successful failed results stamp w',
    process_pdfs ext bext (PathsList pdf_paths) w =
      (Returns (BatchCompleted "completed" (List.length pdf_paths) successful
                  failed results stamp, 200), w') /\
    map result_path results = pdf_paths /\
    successful + failed = List.length pdf_paths /\
    successful =
      List.length (filter (fun r => match r with
                                    | FileProcessed _ _ => true
                                    | _ => false
                                    end) results) /\
    forall k p,
      nth_error pdf_paths k = Some p ->
      (path_exists bext p = false <->
       nth_error results k = Some (FileNotFound p)).
Proof.
  intros N. unfold process_pdfs, try_except, bind.
  destruct pdf_paths as [|p0 rest]; [contradiction |].
  cbn [is_nil].
  destruct (batch_loop_results (p0 :: rest) 0 [] w) as (new & w1 & -> & F).
  simpl app. cbn [fst snd now].
  eexists. eexists. exists new. eexists. eexists.
  split; [reflexivity |].
  assert (L : List.length new = List.length (p0 :: rest))
    by (symmetry; eapply Forall2_length; eauto).
  assert (Paths : map result_path new = p0 :: rest).
  { clear L N. induction F as [|p r ps rs (H & _) F IH]; simpl;
      [reflexivity | now rewrite H, IH]. }
  assert (St : Forall (fun r => forall result p,
                 r = FileProcessed result p -> pr_status result = "success")
                 new).
  { clear L N Paths. induction F as [|p r ps rs (_ & _ & H) F IH];
      constructor; auto. }
  split; [exact Paths |]. split; [|split].
  - assert (count_successful new <= List.length new)
      by apply filter_length_le.
    lia.
  - now apply count_successful_is_processed.
  - intros k p Hn. clear L N Paths St. revert k Hn.
    induction F as [|q r ps rs (H & Iff & _) F IH]; intros [|k] Hn;
      simpl in *; try discriminate.
    + injection Hn as ->. rewrite Iff. split; congruence.
    + now apply IH.
Qed.

End BatchLaws.

(** ** Upload *)

Section UploadLaws.
Import PyStr PyStrFacts DictFacts DictLaws.

Variable ext : Externals.
Variable bext : BatchExternals.

Local Abbreviation W := (World (Index ext)).

Lemma endswith_suffix suffix s :
  endswith suffix s = true <-> exists pre, s = pre ++ suffix.
Proof.
  induction s as [|c r IH].
  - destruct suffix as [|a suffix]; simpl.
    + split; [intros _; now exists EmptyString | reflexivity].
    + split; [discriminate |]. intros [pre H].
      destruct pre; simpl in H; discriminate.
  - change (endswith suffix (String c r))
      with (String.eqb (String c r) suffix || endswith suffix r).
    rewrite orb_true_iff, String.eqb_eq, IH. split.
    + intros [<- | [pre ->]]; [now exists EmptyString |].
      now exists (String c pre).
    + intros [pre H]. destruct pre as [|c' pre]; simpl in H.
      * now left.
      * right. injection H as _ ->. now exists pre.
Qed.

Lemma upload_pdf_preserves (P : W -> Prop) :
  (forall w w', same_stores w w' -> P w -> P w') ->
  (forall p id w, P w -> P (snd (process_pdf ext p id w))) ->
  forall file tmp_name w, P w -> P (snd (upload_pdf ext bext file tmp_name w)).
Proof.
  intros Tick Proc file tmp_name w H.
  unfold upload_pdf, try_except, bind.
  destruct file as [filename|]; simpl; [|exact H].
  destruct (is_empty filename); simpl; [exact H |].
  destruct (endswith ".pdf" (lower filename)); simpl; [|exact H].
  match goal with
  | |- context [process_pdf ext tmp_name ?id ?w0] =>
      pose proof (Proc tmp_name id w0
                    (Tick _ _ (strftime_same_stores ext bext w) H)) as X;
      destruct (process_pdf ext tmp_name id w0) as [[r|e] w']
  end; exact X.
Qed.

(** X10: [/upload] answers 400 and touches nothing when there is no file
    part, when the file name is empty, and when the lower-cased file name
    does not end in ".pdf". *)
Theorem upload_pdf_rejects_what_is_not_a_pdf tmp_name (w : W) :
  upload_pdf ext bext None tmp_name w =
    (Returns (UploadError "No file provided" None, 400), w) /\
  upload_pdf ext bext (Some EmptyString) tmp_name w =
    (Returns (UploadError "No file selected" None, 400), w) /\
  forall filename,
    filename <> EmptyString ->
    ~ (exists stem, lower filename = stem ++ ".pdf") ->
    upload_pdf ext bext (Some filename) tmp_name w =
      (Returns (UploadError "Only PDF files are supported" None, 400), w).
Proof.
  split; [reflexivity | split; [reflexivity |]].
  intros filename N E. unfold upload_pdf, try_except, bind.
  apply is_empty_false in N. rewrite N.
  destruct (endswith ".pdf" (lower filename)) eqn:X; [|reflexivity].
  exfalso. apply E. now apply endswith_suffix.
Qed.

(** X11: an accepted upload (a name ending in ".pdf" in any letter case)
    is ingested from the temporary copy: the handler does what
    [process_pdf] does on the temporary path, a failure of which is a 500;
    on success the document, its metadata entry and every chunk are named
    after the temporary file, and the uploaded name only enters the
    identifier. *)
Theorem upload_pdf_names_the_document_after_the_temporary_file
    filename tmp_name (w : W) :
  filename <> EmptyString ->
  (exists stem, lower filename = stem ++ ".pdf") ->
  let document_id :=
    upload_document_id bext (strftime_now bext (clock_reads w)) filename in
  let ingest :=
    process_pdf ext tmp_name document_id (snd (strftime ext bext w)) in
  let run := upload_pdf ext bext (Some filename) tmp_name w in
  snd run = snd ingest /\
  match fst ingest with
  | Returns result =>
      fst run = Returns (UploadDone result, 200) /\
      pr_document_id result = document_id /\
      pr_document_name result = basename ext tmp_name /\
      In (basename ext tmp_name) (dict_keys (document_metadata (snd run))) /\
      exists docs,
        dict_get document_id (documents (snd run)) = Some docs /\
        Forall (fun d => source d = basename ext tmp_name /\
                         source_path d = tmp_name) docs
  | Raises e =>
      fst run = Returns (UploadError "Internal server error" (Some e), 500)
  end.
Proof.
  intros N E document_id ingest run. subst run ingest.
  unfold upload_pdf, try_except, bind.
  apply is_empty_false in N. rewrite N.
  apply endswith_suffix in E. rewrite E. simpl. fold document_id.
  pose proof (process_pdf_outcome ext tmp_name document_id
                (snd (strftime ext bext w))) as O. simpl in O.
  destruct (process_pdf ext tmp_name document_id _) as [[r|e] w'];
    simpl in *; [|split; reflexivity].
  destruct O as (pages & docs & index & w1 & _ & X & _ & _ & -> & HD & _
                 & HM & _).
  split; [reflexivity |]. split; [reflexivity |]. simpl.
  split; [reflexivity |]. split; [reflexivity |]. split.
  - rewrite HM. eapply dict_get_Some_In. apply dict_get_set_same.
  - exists docs. rewrite HD. split; [apply dict_get_set_same |].
    destruct (extracted_chunks ext _ _ _ _ _ X) as (pages' & _ & A & _).
    eapply Forall_impl; [|exact A]. simpl. tauto.
Qed.

End UploadLaws.

(** ** The service as a whole *)

Section ServiceLaws.
Import PyStr PyStrFacts DictFacts DictLaws.

Variable ext : Externals.
Variable bext : BatchExternals.

Local Abbreviation W := (World (Index ext)).

Local Arguments firstn : simpl never.

Lemma ask_question_single_state document_id data (w : W) :
  snd (ask_question_single ext document_id data w) = w \/
  exists q,
    snd (ask_question_single ext document_id data w) =
    snd (answer_question ext document_id q w).
Proof.
  unfold ask_question_single, answer_question, try_except, bind, get.
  destruct data as [q|]; simpl; [|now left].
  destruct (is_empty (strip q)); simpl; [now left |].
  destruct (dict_mem document_id (documents w)) eqn:M; simpl; [|now left].
  right. exists q. simpl.
  destruct (search_similar_chunks ext q document_id 5 w) as [[docs|e] w1];
    simpl; [|reflexivity].
  destruct docs as [|d docs]; simpl; [reflexivity |].
  destruct (generate_answer ext q (d :: docs) w1) as [[text|e] w2];
    reflexivity.
Qed.

Lemma ask_question_multiple_log data (w : W) :
  let w' := snd (ask_question_multiple ext data w) in
  qa_log w' = qa_log w \/
  exists entry,
    qa_log w' = (qa_log w ++ [entry])%list /\
    List.length (sources entry) = List.length (source_details entry).
Proof.
  unfold ask_question_multiple, try_except, bind, get.
  destruct data as [q|]; simpl; [|now left].
  destruct (is_empty (strip q)); simpl; [now left |].
  destruct (is_nil (documents w)); simpl; [now left |].
  rewrite search_loop_collects. simpl.
  destruct (List.concat (map (per_document_hits ext q w)
              (dict_keys (documents w)))) as [|d hits]; simpl; [now left |].
  pose proof (generate_answer_effect ext q (firstn 5 (d :: hits)) w) as G.
  simpl in G. destruct G as (_ & _ & GQ & _).
  destruct (generate_answer ext q (firstn 5 (d :: hits)) w)
    as [[text|e] w1]; simpl in *; [|now left].
  right. eexists. rewrite GQ. split; [reflexivity |]. simpl.
  now rewrite !firstn_map, !length_map.
Qed.

Lemma ask_question_multiple_replies_state data (w : W) :
  let w' := snd (ask_question_multiple ext data w) in
  documents w' = documents w /\ vectorstores w' = vectorstores w /\
  document_metadata w' = document_metadata w.
Proof.
  unfold ask_question_multiple, try_except, bind, get.
  destruct data as [q|]; simpl; [|repeat split].
  destruct (is_empty (strip q)); simpl; [repeat split |].
  destruct (is_nil (documents w)); simpl; [repeat split |].
  rewrite search_loop_collects. simpl.
  destruct (List.concat (map (per_document_hits ext q w)
              (dict_keys (documents w)))) as [|d hits]; simpl;
    [repeat split |].
  pose proof (generate_answer_effect ext q (firstn 5 (d :: hits)) w) as G.
  simpl in G. destruct G as (GD & GV & _ & GM & _).
  destruct (generate_answer ext q (firstn 5 (d :: hits)) w)
    as [[text|e] w1]; simpl in *; repeat split; assumption.
Qed.

Lemma consistent_log_step (w w' : W) :
  documents w' = documents w -> vectorstores w' = vectorstores w ->
  document_metadata w' = document_metadata w ->
  (qa_log w' = qa_log w \/
   exists entry,
     qa_log w' = (qa_log w ++ [entry])%list /\
     List.length (sources entry) = List.length (source_details entry)) ->
  stores_consistent ext w -> stores_consistent ext w'.
Proof.
  unfold stores_consistent, keys_agree.
  intros -> -> -> L (K & ND & NM & Look & Meta & Log).
  split; [exact K |]. split; [exact ND |]. split; [exact NM |].
  split; [exact Look |]. split; [exact Meta |].
  destruct L as [-> | (entry & -> & E)]; [exact Log |].
  apply Forall_app. split; [exact Log | constructor; [exact E | constructor]].
Qed.

Lemma consistent_ticks (w w' : W) :
  same_stores w w' -> stores_consistent ext w -> stores_consistent ext w'.
Proof.
  intros (a & b & c & d & _). now apply consistent_same_stores.
Qed.

Lemma answer_question_consistent document_id q (w : W) :
  stores_consistent ext w ->
  stores_consistent ext (snd (answer_question ext document_id q w)).
Proof.
  destruct (answer_question_effect ext document_id q w) as (a & b & c & _).
  apply consistent_log_step; auto. apply answer_question_log.
Qed.

(** Every request keeps the stores consistent. *)
Lemma handle_consistent r (w : W) :
  stores_consistent ext w -> stores_consistent ext (handle ext bext r w).
Proof.
  intros C. destruct r; simpl.
  - eapply consistent_ticks; [|apply (clear_stores_consistent ext w)].
    repeat split.
  - unfold process_pdfs, try_except, bind.
    destruct data as [| |pdf_paths]; simpl; auto.
    destruct pdf_paths as [|p rest]; [exact C |]. cbn [is_nil].
    pose proof (batch_loop_preserves ext bext (stores_consistent ext)
                  consistent_ticks (process_pdf_consistent ext)
                  (p :: rest) 0 [] w C) as X.
    destruct (batch_loop ext bext 0 (p :: rest) [] w) as [[results|e] w1];
      simpl in *; [|exact X].
    eapply consistent_ticks; [|exact X]. repeat split.
  - destruct (ask_question_multiple_replies_state data w) as (a & b & m).
    apply (consistent_log_step w); auto. apply ask_question_multiple_log.
  - destruct (ask_question_single_state document_id data w) as [-> | [q ->]];
      [exact C | now apply answer_question_consistent].
  - eapply consistent_ticks; [|exact C]. repeat split.
  - eapply consistent_ticks; [|apply (clear_stores_consistent ext w)].
    repeat split.
  - apply (upload_pdf_preserves ext bext (stores_consistent ext)
             consistent_ticks (process_pdf_consistent ext)); exact C.
  - exact C.
  - now apply delete_document_consistent.
  - eapply consistent_ticks; [|exact C]. repeat split.
  - eapply consistent_ticks; [|exact C]. repeat split.
  - now apply process_pdf_consistent.
  - now apply answer_question_consistent.
Qed.

Lemma served_consistent (w : W) :
  served ext bext w -> stores_consistent ext w.
Proof.
  induction 1 as [|w r _ IH].
  - unfold stores_consistent, keys_agree. simpl.
    repeat split; try constructor; intros; discriminate.
  - now apply handle_consistent.
Qed.

End ServiceLaws.

(** ** What holds in every state of the service *)

Section ServiceProperties.
Import PyStr PyStrFacts DictFacts DictLaws.

Variable ext : Externals.
Variable bext : BatchExternals.

Local Abbreviation W := (World (Index ext)).

(** X12: in every state that any sequence of requests can reach (batch
    ingestion, upload, both question handlers, listing, export, deletion
    and reset included), [documents] and [vectorstores] hold the same
    identifiers and the same number of entries, and the index filed under
    an identifier is the one FAISS built from the chunk list filed under
    it. *)
Theorem every_index_is_built_from_its_chunk_list (w : W) :
  served ext bext w ->
  List.length (documents w) = List.length (vectorstores w) /\
  forall document_id,
    (In document_id (dict_keys (documents w)) <->
     In document_id (dict_keys (vectorstores w))) /\
    forall docs,
      dict_get document_id (documents w) = Some docs ->
      exists index,
        dict_get document_id (vectorstores w) = Some index /\
        from_documents ext docs = Some index.
Proof.
  intros S. apply served_consistent in S.
  destruct S as (K & _ & _ & Look & _). unfold keys_agree in K. split.
  - now rewrite <- !dict_keys_length, K.
  - intros document_id. split; [now rewrite K |].
    intros docs G. now apply Look.
Qed.

(** X13: in every such state a registered chunk list is not empty; each
    of its chunks has more than 10 characters once stripped, a page
    number between 1 and the page count it records, and the method
    "direct" or "ocr"; all of them record the same source, path and page
    count; and no two of them share page number and chunk index. *)
Theorem registered_chunk_lists_are_well_formed (w : W) document_id docs :
  served ext bext w ->
  dict_get document_id (documents w) = Some docs ->
  docs <> [] /\
  (forall d, In d docs ->
     10 < len (strip (page_content d)) /\
     1 <= page_number d /\ page_number d <= total_pages d /\
     (extraction_method d = "direct" \/ extraction_method d = "ocr")) /\
  (forall d d', In d docs -> In d' docs ->
     source d = source d' /\ source_path d = source_path d' /\
     total_pages d = total_pages d') /\
  NoDup (map chunk_position docs).
Proof.
  intros S G. apply served_consistent in S.
  destruct S as (_ & _ & _ & Look & _).
  destruct (Look document_id docs G) as ((N & F & O & Srt) & _).
  split; [exact N |]. split; [|split].
  - intros d Hd. rewrite Forall_forall in F. apply (F d Hd).
  - intros d d' Hd Hd'. apply (O d d' Hd Hd').
  - eapply StronglySorted_NoDup; [apply position_lt_irrefl | exact Srt].
Qed.

(** X14: in every such state a metadata entry is filed under the file
    name it records, which is the base name of the path it records; a
    file name has at most one entry. *)
Theorem metadata_is_filed_under_the_file_name (w : W) :
  served ext bext w ->
  NoDup (dict_keys (document_metadata w)) /\
  forall name info,
    dict_get name (document_metadata w) = Some info ->
    filename info = name /\ basename ext (full_path info) = name.
Proof.
  intros S. apply served_consistent in S.
  destruct S as (_ & _ & NM & _ & Meta & _). split; assumption.
Qed.

Lemma log_extends_refl (l : list QAEntry) :
  exists added, l = (l ++ added)%list /\ List.length added <= 1.
Proof. exists []. rewrite app_nil_r. simpl. split; [reflexivity | lia]. Qed.

Lemma log_step_extends (l l' : list QAEntry) :
  (l' = l \/
   exists entry,
     l' = (l ++ [entry])%list /\
     List.length (sources entry) = List.length (source_details entry)) ->
  exists added, l' = (l ++ added)%list /\ List.length added <= 1.
Proof.
  intros [-> | (entry & -> & _)]; [apply log_extends_refl |].
  exists [entry]. split; [reflexivity | simpl; lia].
Qed.

(** X15: the log is append-only: a request other than [/initialize] and
    [/clear] leaves the entries it found in place and adds at most one;
    those two requests empty the log.  In every state of the service an
    entry has as many source labels as source details. *)
Theorem log_is_append_only r (w : W) :
  (if is_reset r
   then qa_log (handle ext bext r w) = []
   else exists added,
          qa_log (handle ext bext r w) = (qa_log w ++ added)%list /\
          List.length added <= 1) /\
  (served ext bext w ->
   Forall (fun entry =>
             List.length (sources entry) = List.length (source_details entry))
          (qa_log w)).
Proof.
  split.
  2:{ intros S. apply served_consistent in S. apply S. }
  assert (Tick : forall w0 w1 w2 : W,
            same_stores w1 w2 -> qa_log w1 = qa_log w0 ->
            qa_log w2 = qa_log w0).
  { intros w0 w1 w2 (_ & _ & Q & _) H. congruence. }
  assert (Proc : forall (w0 : W) p id w1,
            qa_log w1 = qa_log w0 ->
            qa_log (snd (process_pdf ext p id w1)) = qa_log w0).
  { intros w0 p id w1 H.
    destruct (process_pdf_leaves_the_rest_of_the_log ext p id w1).
    congruence. }
  destruct r; simpl.
  - reflexivity.
  - assert (E : qa_log (snd (process_pdfs ext bext data w)) = qa_log w).
    { unfold process_pdfs, try_except, bind.
      destruct data as [| |pdf_paths]; simpl; auto.
      destruct pdf_paths as [|p rest]; [reflexivity |]. cbn [is_nil].
      pose proof (batch_loop_preserves ext bext
                    (fun w1 => qa_log w1 = qa_log w) (Tick w) (Proc w)
                    (p :: rest) 0 [] w eq_refl) as X.
      destruct (batch_loop ext bext 0 (p :: rest) [] w)
        as [[results|e] w1]; simpl in *; exact X. }
    rewrite E. apply log_extends_refl.
  - apply log_step_extends, (ask_question_multiple_log ext).
  - destruct (ask_question_single_state ext document_id data w)
      as [-> | [q ->]]; [apply log_extends_refl |].
    apply log_step_extends, (answer_question_log ext).
  - apply log_extends_refl.
  - reflexivity.
  - rewrite (upload_pdf_preserves ext bext (fun w1 => qa_log w1 = qa_log w)
               (Tick w) (Proc w) file tmp_name w eq_refl).
    apply log_extends_refl.
  - apply log_extends_refl.
  - pose proof (delete_document_outcome ext document_id w) as O.
    destruct (dict_get document_id (documents w)).
    + destruct O as (_ & -> & _). apply log_extends_refl.
    + rewrite O. apply log_extends_refl.
  - apply log_extends_refl.
  - apply log_extends_refl.
  - rewrite (Proc w pdf_path document_id w eq_refl). apply log_extends_refl.
  - apply log_step_extends, (answer_question_log ext).
Qed.

End ServiceProperties.

(** ** Deleting, resetting and reading *)

Section LifecycleProperties.
Import PyStr PyStrFacts DictFacts DictLaws.

Variable ext : Externals.
Variable bext : BatchExternals.

Local Abbreviation W := (World (Index ext)).

(** X16: deleting an identifier that is not registered answers 404 and
    changes nothing. *)
Theorem delete_unknown_document_is_a_404 document_id (w : W) :
  ~ In document_id (dict_keys (documents w)) ->
  delete_document ext document_id w =
    (Returns (ErrorBody "Document not found" None, 404), w).
Proof.
  intros N. apply dict_get_None in N.
  pose proof (delete_document_outcome ext document_id w) as O.
  now rewrite N in O.
Qed.

(** X17: deleting a registered document in a state of the service
    answers 200 with the source name of its first chunk (never
    "Unknown"); afterwards the identifier is in neither [documents] nor
    [vectorstores], every other document and index is as before, the
    metadata entry of that source name is gone and the other entries are
    as before, the log is untouched, and a search on the identifier
    raises "not found". *)
Theorem delete_removes_document_index_and_metadata
    document_id docs (w : W) :
  served ext bext w ->
  dict_get document_id (documents w) = Some docs ->
  exists first,
    hd_error docs = Some first /\
    let run := delete_document ext document_id w in
    fst run =
      Returns (DeletedBody "Document deleted successfully" document_id
                 (source first), 200) /\
    dict_get document_id (documents (snd run)) = None /\
    dict_get document_id (vectorstores (snd run)) = None /\
    (forall other, other <> document_id ->
       dict_get other (documents (snd run)) = dict_get other (documents w) /\
       dict_get other (vectorstores (snd run))
         = dict_get other (vectorstores w)) /\
    dict_get (source first) (document_metadata (snd run)) = None /\
    (forall other, other <> source first ->
       dict_get other (document_metadata (snd run))
         = dict_get other (document_metadata w)) /\
    qa_log (snd run) = qa_log w /\
    forall query top_k,
      search_similar_chunks ext query document_id top_k (snd run) =
        (Raises (ValueError ("Document " ++ document_id ++ " not found")),
         snd run).
Proof.
  intros S G. apply served_consistent in S.
  destruct S as (K & ND & NM & Look & _).
  destruct (Look document_id docs G) as ((N & _) & index & GV & _).
  destruct docs as [|first rest]; [contradiction |].
  exists first. split; [reflexivity |].
  pose proof (delete_document_outcome ext document_id w) as O.
  rewrite G in O. simpl in O. destruct O as (HD & HQ & _ & _ & O).
  assert (M : dict_mem document_id (vectorstores w) = true)
    by (apply dict_mem_In; eapply dict_get_Some_In; eauto).
  rewrite M in O. destruct O as (R & HV & HM).
  assert (NV : NoDup (dict_keys (vectorstores w)))
    by (unfold keys_agree in K; now rewrite <- K).
  simpl. rewrite HD, HV, HM, HQ.
  split; [exact R |].
  split; [now apply dict_get_del_same |].
  assert (GV' : dict_get document_id (dict_del document_id (vectorstores w))
                = None) by now apply dict_get_del_same.
  split; [exact GV' |].
  split; [intros other Ho; split; now apply dict_get_del_other |].
  split; [now apply dict_get_del_same |].
  split; [intros other Ho; now apply dict_get_del_other |].
  split; [reflexivity |].
  intros query top_k. unfold search_similar_chunks, bind, get. simpl.
  rewrite HV, GV'. reflexivity.
Qed.

(** X18: two documents ingested from files of the same name share one
    metadata entry: after one of them is deleted the other is still
    registered, with its chunks and index, but the metadata entry of its
    file name is gone. *)
Theorem deleting_one_document_drops_the_metadata_of_its_namesake
    document_id other docs docs' first first' (w : W) :
  served ext bext w ->
  other <> document_id ->
  dict_get document_id (documents w) = Some docs ->
  dict_get other (documents w) = Some docs' ->
  hd_error docs = Some first -> hd_error docs' = Some first' ->
  source first = source first' ->
  let w' := snd (delete_document ext document_id w) in
  dict_get other (documents w') = Some docs' /\
  In other (dict_keys (vectorstores w')) /\
  dict_get (source first') (document_metadata w') = None.
Proof.
  intros S N G G' H H' E. apply served_consistent in S.
  destruct S as (K & ND & NM & Look & _).
  destruct (Look document_id docs G) as (_ & index & GV & _).
  destruct (Look other docs' G') as (_ & index' & GV' & _).
  pose proof (delete_document_outcome ext document_id w) as O.
  rewrite G in O. simpl in O. destruct O as (HD & _ & _ & _ & O).
  assert (M : dict_mem document_id (vectorstores w) = true)
    by (apply dict_mem_In; eapply dict_get_Some_In; eauto).
  rewrite M in O. destruct O as (_ & HV & HM).
  destruct docs as [|f rest]; [discriminate |]. injection H as ->.
  simpl. rewrite HD, HV, HM. split; [|split].
  - now rewrite dict_get_del_other.
  - apply (dict_get_Some_In other _ index').
    now rewrite dict_get_del_other.
  - rewrite <- E. now apply dict_get_del_same.
Qed.

(** X19: ingesting a file under a fresh identifier and then deleting that
    identifier puts [documents] and [vectorstores] back as they were, but
    not [document_metadata]: the entry of the file name is gone, also
    when an earlier document of the same name had put one there. *)
Theorem ingest_then_delete_restores_the_indexes_only
    pdf_path document_id (w : W) result w1 :
  served ext bext w ->
  ~ In document_id (dict_keys (documents w)) ->
  process_pdf ext pdf_path document_id w = (Returns result, w1) ->
  let run := delete_document ext document_id w1 in
  fst run =
    Returns (DeletedBody "Document deleted successfully" document_id
               (basename ext pdf_path), 200) /\
  documents (snd run) = documents w /\
  vectorstores (snd run) = vectorstores w /\
  dict_get (basename ext pdf_path) (document_metadata (snd run)) = None.
Proof.
  intros S N P. apply served_consistent in S.
  destruct S as (K & ND & NM & _).
  pose proof (process_pdf_outcome ext pdf_path document_id w) as O.
  simpl in O. rewrite P in O.
  destruct O as (pages & docs & index & w0 & _ & X & Nd & _ & _ & HD & HV
                 & HM & _).
  destruct (extracted_chunks ext _ _ _ _ _ X) as (pages' & _ & A & _).
  destruct docs as [|first rest]; [contradiction |].
  inversion A as [|? ? (_ & Src & _) _]; subst.
  pose proof (delete_document_outcome ext document_id w1) as D.
  rewrite HD, dict_get_set_same in D. simpl in D.
  destruct D as (DD & _ & _ & _ & D).
  assert (M : dict_mem document_id (vectorstores w1) = true).
  { apply dict_mem_In. rewrite HV.
    eapply dict_get_Some_In. apply dict_get_set_same. }
  rewrite M in D. destruct D as (R & DV & DM).
  simpl. split; [rewrite R; now rewrite Src |].
  split; [rewrite DD; now apply dict_del_set_new |].
  split.
  - rewrite DV, HV. apply dict_del_set_new.
    unfold keys_agree in K. now rewrite <- K.
  - rewrite DM, HM, Src. apply dict_get_del_same. now apply NoDup_keys_set.
Qed.

(** X20: [/initialize] and [/clear] answer 200 from any state and leave
    all four stores empty; after either, a question across documents is
    refused with a 400 without reaching the model, a question on any
    identifier is a 404, and so is a deletion. *)
Theorem reset_empties_every_store (w : W) :
  let after_initialize := snd (initialize ext w) in
  let after_clear := snd (clear_documents ext w) in
  (exists stamp,
     fst (initialize ext w) =
       Returns (StatusBody "success"
                  "PDF Q&A processor initialized successfully" stamp, 200)) /\
  (exists stamp,
     fst (clear_documents ext w) =
       Returns (StatusBody "success"
                  "All documents and Q&A history cleared successfully" stamp,
                200)) /\
  forall w',
    w' = after_initialize \/ w' = after_clear ->
    documents w' = [] /\ vectorstores w' = [] /\ qa_log w' = [] /\
    document_metadata w' = [] /\
    (forall q,
       strip q <> EmptyString ->
       ask_question_multiple ext (Some q) w' =
         (Returns (ErrorBody
                     "No documents found. Please upload and process PDFs first."
                     None, 400), w')) /\
    (forall document_id q,
       strip q <> EmptyString ->
       ask_question_single ext document_id (Some q) w' =
         (Returns (SingleError
                     ("Document " ++ document_id ++
                      " not found. Please upload and process the PDF first.")
                     None, 404), w')) /\
    (forall document_id,
       delete_document ext document_id w' =
         (Returns (ErrorBody "Document not found" None, 404), w')).
Proof.
  split; [eexists; reflexivity |]. split; [eexists; reflexivity |].
  intros w' [-> | ->]; simpl; repeat split;
    try (intros q Q; apply is_empty_false in Q;
         unfold ask_question_multiple, try_except, bind, get;
         rewrite Q; reflexivity);
    try (intros document_id q Q; apply is_empty_false in Q;
         unfold ask_question_single, try_except, bind, get;
         rewrite Q; reflexivity).
Qed.

End LifecycleProperties.

(** ** Reading the stores *)

Section ReadingProperties.
Import PyStr PyStrFacts DictFacts DictLaws.

Variable ext : Externals.
Variable bext : BatchExternals.

Local Abbreviation W := (World (Index ext)).

Lemma dict_entry_get {V} k (v : V) d :
  NoDup (dict_keys d) -> In (k, v) d -> dict_get k d = Some v.
Proof.
  induction d as [|[k1 v1] d IH]; simpl; intros N I; [contradiction |].
  inversion N as [|? ? Hn Hd]; subst. destruct I as [E | I].
  - injection E as -> ->. now rewrite String.eqb_refl.
  - destruct (String.eqb_spec k k1) as [->|Nk].
    + exfalso. apply Hn. apply in_map_iff. now exists (k1, v).
    + now apply IH.
Qed.

(** X21: [/documents], [/export/json] and [/health] write to no store.
    In a state of the service the listing has one entry per registered
    document, in registration order, each with at least one chunk and
    with its name, page count and processing time present; the health
    report counts as many documents as indexes; and the export carries
    the whole log and, per document, all its chunks exactly when content
    was asked for. *)
Theorem listings_report_the_stores (w : W) :
  served ext bext w ->
  (exists listing,
     list_documents ext w = (Returns (listing, 200), w) /\
     map di_document_id (listed listing) = dict_keys (documents w) /\
     total_count listing = List.length (documents w) /\
     qa_history_count listing = List.length (qa_log w) /\
     listed_metadata listing = document_metadata w /\
     Forall (fun info =>
               1 <= di_chunks_count info /\
               di_document_name info <> None /\
               di_total_pages info <> None /\
               di_processed_at info <> None /\
               di_content info = None) (listed listing)) /\
  (exists health w',
     health_check ext w = (Returns (health, 200), w') /\
     same_stores w w' /\
     documents_loaded health = List.length (documents w) /\
     documents_loaded health = vectorstores_loaded health) /\
  forall include_content,
    exists export w',
      export_qa_json ext include_content w = (Returns (export, 200), w') /\
      same_stores w w' /\
      total_documents export = List.length (exported export) /\
      map di_document_id (exported export) = dict_keys (documents w) /\
      qa_history export = qa_log w /\
      Forall (fun info =>
                match di_content info with
                | Some chunks =>
                    include_content = true /\
                    dict_get (di_document_id info) (documents w)
                      = Some chunks /\
                    List.length chunks = di_chunks_count info
                | None => include_content = false
                end) (exported export).
Proof.
  intros S. apply served_consistent in S.
  destruct S as (K & ND & _ & Look & _). split; [|split].
  - eexists. split; [reflexivity |]. simpl.
    rewrite map_map, !length_map. repeat split.
    apply Forall_map, Forall_forall. intros [id docs] I.
    pose proof (dict_entry_get id docs _ ND I) as G.
    destruct (Look id docs G) as ((N & _) & _).
    destruct docs as [|first rest]; [contradiction |].
    simpl. repeat split; try discriminate. lia.
  - eexists. eexists. split; [reflexivity |]. simpl.
    split; [repeat split |]. split; [reflexivity |].
    unfold keys_agree in K. now rewrite <- !dict_keys_length, K.
  - intros include_content. eexists. eexists. split; [reflexivity |].
    simpl. rewrite map_map, !length_map.
    split; [repeat split |]. repeat split.
    apply Forall_map, Forall_forall. intros [id docs] I.
    pose proof (dict_entry_get id docs _ ND I) as G.
    destruct include_content; simpl; repeat split; auto.
Qed.

(** X22: [answer_question] on an identifier that is not registered raises
    its "not found" [ValueError] and changes nothing.  On a registered
    identifier, in a state of the service, it can only fail because the
    index search fails, with nothing changed, or because the model
    fails, with the prompt sent and the log unchanged. *)
Theorem answer_question_fails_only_through_its_collaborators
    document_id q (w : W) :
  let run := answer_question ext document_id q w in
  (~ In document_id (dict_keys (documents w)) ->
   run = (Raises (ValueError
                    ("Document " ++ document_id ++
                     " not found. Please upload and process the PDF first.")),
          w)) /\
  (served ext bext w ->
   In document_id (dict_keys (documents w)) ->
   forall e,
     fst run = Raises e ->
     (e = CollaboratorError "faiss" /\ snd run = w) \/
     (e = CollaboratorError "gemini" /\ qa_log (snd run) = qa_log w /\
      exists prompt,
        prompts_sent (snd run) = (prompts_sent w ++ [prompt])%list)).
Proof.
  split.
  - intros N. unfold answer_question, bind, get. simpl.
    destruct (dict_mem document_id (documents w)) eqn:M; [|reflexivity].
    apply dict_mem_In in M. contradiction.
  - intros S I e. apply served_consistent in S.
    destruct S as (K & _ & _ & Look & _).
    destruct (dict_In_get _ _ I) as (docs & G).
    destruct (Look document_id docs G) as (_ & index & GV & _).
    apply dict_mem_In in I.
    unfold answer_question, bind, get. simpl. rewrite I. simpl.
    unfold search_similar_chunks, bind, get. simpl. rewrite GV. simpl.
    destruct (similarity_search_with_score ext index q 5) as [raw|]; simpl.
    2:{ intros H. injection H as <-. left. split; reflexivity. }
    destruct (map fst (sort_by_score raw)) as [|d hits]; simpl;
      [discriminate |].
    unfold generate_answer, bind, ask_model.
    destruct (generate_content ext (prompts_sent w)
                (make_prompt q (d :: hits))) as [text|]; simpl;
      [discriminate |].
    intros H. injection H as <-. right.
    split; [reflexivity |]. split; [reflexivity |]. eexists. reflexivity.
Qed.

Lemma insert_by_score_front x l :
  Forall (fun y => (snd x <= snd y)%Q) l -> insert_by_score x l = x :: l.
Proof.
  intros F. destruct l as [|y l]; simpl; [reflexivity |].
  inversion F as [|? ? H _]; subst.
  apply Qle_bool_iff in H. now rewrite H.
Qed.

Lemma sort_by_score_sorted_input l :
  StronglySorted (fun a b => (snd a <= snd b)%Q) l -> sort_by_score l = l.
Proof.
  induction 1 as [|x l S IH F]; simpl; [reflexivity |].
  rewrite IH. now apply insert_by_score_front.
Qed.

(** X23: a successful search returns as many chunks as the index
    reported, the same chunks counted with repetition; and when the index
    already reports them by non-decreasing distance the re-sort keeps its
    order, ties included. *)
Theorem search_keeps_every_chunk_and_a_sorted_order
    query document_id top_k (w : W) index raw :
  dict_get document_id (vectorstores w) = Some index ->
  similarity_search_with_score ext index query top_k = Some raw ->
  exists chunks,
    search_similar_chunks ext query document_id top_k w =
      (Returns chunks, w) /\
    List.length chunks = List.length raw /\
    Permutation (map fst raw) chunks /\
    (StronglySorted (fun a b => (snd a <= snd b)%Q) raw ->
     chunks = map fst raw).
Proof.
  intros GI R. exists (map fst (sort_by_score raw)).
  split; [|split; [|split]].
  - unfold search_similar_chunks, bind, get. simpl. rewrite GI. simpl.
    now rewrite R.
  - rewrite !length_map. symmetry. apply Permutation_length.
    apply sort_by_score_permutation.
  - apply Permutation_map, sort_by_score_permutation.
  - intros S. now rewrite sort_by_score_sorted_input.
Qed.

End ReadingProperties.

(** ** Prompts and previews *)

Section PromptProperties.
Import PyStr PyStrFacts.

Lemma Substring_refl s : Substring s s.
Proof. exists EmptyString, EmptyString. simpl. now rewrite append_empty_r. Qed.

Lemma Substring_trans a b c : Substring a b -> Substring b c -> Substring a c.
Proof.
  intros (p & q & ->) (p' & q' & ->). exists (p' ++ p), (q ++ q').
  now rewrite !append_assoc.
Qed.

Lemma Substring_join sep part parts :
  In part parts -> Substring part (join sep parts).
Proof.
  induction parts as [|p rest IH]; [intros [] |].
  intros [<- | I].
  - destruct rest; simpl; [apply Substring_refl |].
    apply Substring_append_l, Substring_refl.
  - destruct rest as [|p' rest']; [destruct I |].
    change (join sep (p :: p' :: rest'))
      with (p ++ sep ++ join sep (p' :: rest')).
    apply Substring_append_r, Substring_append_r. now apply IH.
Qed.

Lemma context_parts_nth docs :
  forall i k doc,
    nth_error docs k = Some doc ->
    In ("[SOURCE " ++ str_of_nat (i + k) ++ "] " ++ format_source_info doc ++
        nl ++ page_content doc ++ nl)
       (context_parts i docs).
Proof.
  induction docs as [|d docs IH]; intros i [|k] doc H; simpl in H;
    try discriminate.
  - injection H as <-. rewrite Nat.add_0_r. now left.
  - right. replace (i + S k) with (S i + k) by lia. now apply IH.
Qed.

(** X24: the prompt that [generate_answer] sends holds the question and,
    for the chunk at each position of the list it was given, a block made
    of "[SOURCE n]" (n counted from 1), the chunk's source label and the
    whole chunk text: nothing that was retrieved is left out or cut. *)
Theorem prompt_carries_question_and_every_chunk query docs :
  Substring ("Question: " ++ query ++ nl) (make_prompt query docs) /\
  forall k doc,
    nth_error docs k = Some doc ->
    Substring ("[SOURCE " ++ str_of_nat (S k) ++ "] " ++
               format_source_info doc ++ nl ++ page_content doc ++ nl)
              (make_prompt query docs).
Proof.
  unfold make_prompt. split.
  - do 11 apply Substring_append_r.
    match goal with
    | |- Substring _ (_ ++ _ ++ _ ++ ?rest) =>
        exists EmptyString, rest
    end.
    simpl. now rewrite !append_assoc.
  - intros k doc H. do 8 apply Substring_append_r.
    apply Substring_append_l.
    apply Substring_join. apply (context_parts_nth docs 1 k doc H).
Qed.

Lemma len_append a b : len (a ++ b) = len a + len b.
Proof.
  induction a as [|c r IH]; simpl; [reflexivity |]. rewrite IH. lia.
Qed.

Lemma len_lstrip_from inside s : len (lstrip_from inside s) <= len s.
Proof.
  revert inside; induction s as [|c r IH]; intros inside; [simpl; lia |].
  cbn [lstrip_from].
  destruct (is_continuation c) eqn:C.
  - destruct inside; [|lia]. specialize (IH true). cbn [len]. lia.
  - destruct (isspace_at (code_point c r)); [|lia].
    specialize (IH true). cbn [len]. lia.
Qed.

Lemma len_rstrip s : len (rstrip s) <= len s.
Proof.
  induction s as [|c r IH]; [simpl; lia |]. cbn [rstrip].
  destruct (negb (is_continuation c) && is_empty (lstrip (String c r))).
  - simpl. lia.
  - cbn [len]. lia.
Qed.

Lemma len_strip s : len (strip s) <= len s.
Proof.
  unfold strip, lstrip.
  pose proof (len_rstrip (lstrip_from false s)).
  pose proof (len_lstrip_from false s). lia.
Qed.

Lemma len_take n s : len (take n s) <= n.
Proof.
  revert n; induction s as [|c r IH]; intros n; [simpl; lia |].
  cbn [take]. destruct (is_continuation c) eqn:C.
  - cbn [len]. rewrite C. apply IH.
  - destruct n as [|n]; [simpl; lia |]. cbn [len]. rewrite C.
    specialize (IH n). lia.
Qed.

Lemma take_all n s : len s <= n -> take n s = s.
Proof.
  revert n; induction s as [|c r IH]; intros n H; [reflexivity |].
  cbn [take]. cbn [len] in H. destruct (is_continuation c).
  - f_equal. apply IH. lia.
  - destruct n as [|n]; [lia |]. f_equal. apply IH. lia.
Qed.

(** X25: the content previews of a reply are bounded: a source detail
    shows at most 203 characters of its chunk and a relevant chunk at
    most 303, the last three being "..." exactly when the chunk is longer
    than 200, respectively 300, characters; a chunk that fits is shown
    stripped and whole. *)
Theorem previews_are_bounded doc :
  len (content_preview (source_detail_of doc)) <= 203 /\
  len (content (relevant_chunk_of doc)) <= 303 /\
  forall n,
    len (preview n doc) <= n + 3 /\
    (len (page_content doc) <= n ->
     preview n doc = strip (page_content doc)) /\
    (n < len (page_content doc) ->
     preview n doc = strip (take n (page_content doc)) ++ "...").
Proof.
  assert (B : forall n, len (preview n doc) <= n + 3).
  { intros n. unfold preview. rewrite len_append.
    pose proof (len_strip (take n (page_content doc))).
    pose proof (len_take n (page_content doc)).
    destruct (n <? len (page_content doc)); simpl; lia. }
  split; [apply (B 200) |]. split; [apply (B 300) |].
  intros n. split; [apply B |]. unfold preview. split; intros H.
  - apply Nat.ltb_ge in H. rewrite H, append_empty_r.
    apply Nat.ltb_ge in H. now rewrite take_all.
  - apply Nat.ltb_lt in H. now rewrite H.
Qed.

End PromptProperties.

(** ** Identifiers of a batch *)

Section IdentifierProperties.
Import PyStr PyStrFacts DictFacts DictLaws.

Variable ext : Externals.
Variable bext : BatchExternals.

Local Abbreviation W := (World (Index ext)).

Lemma digits_value_append a b : forall v,
  digits_value v (a ++ b) = digits_value (digits_value v a) b.
Proof. induction a as [|c a IH]; intros v; simpl; auto. Qed.

Lemma has_char_append c a b :
  has_char c (a ++ b) = has_char c a || has_char c b.
Proof.
  induction a as [|x a IH]; simpl; [reflexivity |].
  now rewrite IH, orb_assoc.
Qed.

Lemma digit_facts d :
  d < 10 ->
  has_char "_"%char (digit d) = false /\
  forall v, digits_value v (digit d) = 10 * v + d.
Proof.
  intros H. do 10 (destruct d as [|d]; [split; [reflexivity | intros v; simpl; lia] |]).
  lia.
Qed.

(** [str(n)] is a run of decimal digits that writes [n]. *)
Lemma str_of_nat_fuel_digits fuel :
  forall n acc,
    n < fuel ->
    exists ds,
      str_of_nat_fuel fuel n acc = ds ++ acc /\
      has_char "_"%char ds = false /\
      forall v, digits_value v ds = v * 10 ^ length ds + n.
Proof.
  induction fuel as [|fuel IH]; intros n acc H; [lia |].
  cbn [str_of_nat_fuel]. destruct (n <? 10) eqn:E.
  - apply Nat.ltb_lt in E. rewrite Nat.mod_small by exact E.
    exists (digit n). destruct (digit_facts n E) as (U & V).
    split; [reflexivity |]. split; [exact U |].
    intros v. rewrite V. simpl. lia.
  - apply Nat.ltb_ge in E.
    assert (Hd : n / 10 < fuel).
    { pose proof (Nat.div_lt n 10). lia. }
    destruct (IH (n / 10) (digit (n mod 10) ++ acc) Hd) as (ds & -> & U & V).
    assert (M : n mod 10 < 10) by (apply Nat.mod_upper_bound; lia).
    destruct (digit_facts (n mod 10) M) as (U0 & V0).
    exists (ds ++ digit (n mod 10)).
    split; [now rewrite append_assoc |].
    split; [rewrite has_char_append, U, U0; reflexivity |].
    intros v. rewrite digits_value_append, V, V0, length_append.
    simpl length. rewrite Nat.add_1_r, Nat.pow_succ_r'.
    pose proof (Nat.div_mod_eq n 10). nia.
Qed.

Lemma str_of_nat_digits n :
  has_char "_"%char (str_of_nat n) = false /\
  digits_value 0 (str_of_nat n) = n.
Proof.
  unfold str_of_nat.
  destruct (str_of_nat_fuel_digits (S n) n EmptyString) as (ds & -> & U & V);
    [lia |].
  rewrite append_empty_r. split; [exact U |]. rewrite V. lia.
Qed.

Lemma str_of_nat_injective n m : str_of_nat n = str_of_nat m -> n = m.
Proof.
  intros H. destruct (str_of_nat_digits n) as (_ & <-).
  destruct (str_of_nat_digits m) as (_ & <-). now rewrite H.
Qed.

Lemma append_same_length a b x y :
  length a = length b -> a ++ x = b ++ y -> a = b /\ x = y.
Proof.
  revert b; induction a as [|c a IH]; intros [|c' b] L H; simpl in *;
    try discriminate.
  - now split.
  - injection H as -> H. injection L as L.
    destruct (IH b L H) as (-> & ->). now split.
Qed.

Lemma split_at_underscore a b x y :
  has_char "_"%char a = false -> has_char "_"%char b = false ->
  a ++ "_" ++ x = b ++ "_" ++ y -> a = b.
Proof.
  revert b; induction a as [|c a IH]; intros [|c' b] Ha Hb H; simpl in *.
  - reflexivity.
  - injection H as <- _. discriminate.
  - injection H as -> _. discriminate.
  - injection H as -> H. apply orb_false_iff in Ha, Hb.
    f_equal. apply (IH b); tauto.
Qed.

(** Two identifiers of line 472 with time stamps of the same width are
    equal only at the same position of the batch. *)
Lemma batch_document_id_position stamp stamp' i j p p' :
  length stamp = length stamp' ->
  batch_document_id bext stamp i p = batch_document_id bext stamp' j p' ->
  i = j.
Proof.
  unfold batch_document_id. intros L H. simpl in H.
  injection H as H.
  apply append_same_length in H; [|exact L]. destruct H as (_ & H).
  simpl in H. injection H as H.
  apply str_of_nat_injective.
  eapply split_at_underscore; [| |exact H]; apply str_of_nat_digits.
Qed.

Lemma batch_file_effect i p (w : W) :
  let run := batch_file ext bext i p w in
  (exists r, fst run = Returns r /\ result_path r = p) /\
  (forall other,
     (forall c, other <> batch_document_id bext (strftime_now bext c) i p) ->
     dict_get other (documents (snd run)) = dict_get other (documents w)) /\
  (forall result p',
     fst run = Returns (FileProcessed result p') ->
     (exists c,
        pr_document_id result =
        batch_document_id bext (strftime_now bext c) i p) /\
     exists docs,
       dict_get (pr_document_id result) (documents (snd run)) = Some docs /\
       List.length docs = chunks_count result).
Proof.
  pose proof (batch_file_cases ext bext i p w) as C.
  destruct (path_exists bext p).
  2:{ rewrite C. simpl. split; [eexists; split; reflexivity |].
      split; [reflexivity | discriminate]. }
  simpl in C.
  match type of C with
  | match process_pdf ext p ?id ?w0 with _ => _ end =>
      pose proof (process_pdf_outcome ext p id w0) as O;
      destruct (process_pdf ext p id w0) as [[r|e] w']
  end; simpl in O.
  - destruct C as (-> & _). simpl.
    destruct O as (pages & docs & index & w1 & _ & _ & _ & _ & -> & HD & _).
    split; [eexists; split; reflexivity |]. split.
    + intros other N. rewrite HD. apply dict_get_set_other. apply N.
    + intros result p' H. injection H as <- <-. simpl.
      split; [eexists; reflexivity |].
      exists docs. rewrite HD. split; [apply dict_get_set_same | reflexivity].
  - rewrite C. simpl. destruct O as (HD & _).
    split; [eexists; split; reflexivity |].
    split; [intros other N; now rewrite HD | discriminate].
Qed.

Section Widths.

Hypothesis stamps_have_one_width :
  forall n m,
    length (strftime_now bext n) = length (strftime_now bext m).

Lemma batch_loop_keeps_older pdf_paths :
  forall i results (w : W) c0 j p0,
    j < i ->
    dict_get (batch_document_id bext (strftime_now bext c0) j p0)
      (documents (snd (batch_loop ext bext i pdf_paths results w)))
    = dict_get (batch_document_id bext (strftime_now bext c0) j p0)
        (documents w).
Proof.
  induction pdf_paths as [|p rest IH]; intros i results w c0 j p0 H; simpl;
    [reflexivity |].
  unfold bind. destruct (batch_file_effect i p w) as ((r & R & _) & Keep & _).
  destruct (batch_file ext bext i p w) as [o w1]. simpl in *. subst o.
  rewrite IH by lia. apply Keep. intros c E.
  apply batch_document_id_position in E;
    [lia | apply stamps_have_one_width].
Qed.

Lemma batch_loop_registered pdf_paths :
  forall i results (w : W),
  exists new w',
    batch_loop ext bext i pdf_paths results w =
      (Returns (results ++ new)%list, w') /\
    forall k result p,
      nth_error new k = Some (FileProcessed result p) ->
      (exists c,
         pr_document_id result =
         batch_document_id bext (strftime_now bext c) (i + k) p) /\
      exists docs,
        dict_get (pr_document_id result) (documents w') = Some docs /\
        List.length docs = chunks_count result.
Proof.
  induction pdf_paths as [|p rest IH]; intros i results w; simpl.
  - exists [], w. rewrite app_nil_r. split; [reflexivity |].
    intros [|k] ? ? H; discriminate.
  - unfold bind.
    destruct (batch_file_effect i p w) as ((r & R & Pr) & _ & Reg).
    destruct (batch_file ext bext i p w) as [o w1] eqn:B. simpl in *.
    subst o.
    pose proof (batch_loop_keeps_older rest (S i) (results ++ [r])%list w1)
      as Older.
    destruct (IH (S i) (results ++ [r])%list w1) as (new & w' & E & Ids).
    rewrite E in *. simpl in Older.
    exists (r :: new), w'. rewrite <- app_assoc.
    split; [reflexivity |].
    intros [|k] result p' H; simpl in H.
    + injection H as ->.
      destruct (Reg result p' eq_refl) as ((c & Id) & docs & G & L).
      simpl in Pr. subst p'. rewrite Nat.add_0_r.
      split; [now exists c |]. exists docs. split; [|exact L].
      rewrite Id, Older by lia. now rewrite <- Id.
    + replace (i + S k) with (S i + k) by lia. now apply Ids.
Qed.

(** X26: when the time stamps of the identifiers all have the same width
    (as the pattern of line 472 gives), the files of one batch get
    pairwise different identifiers, so none overwrites another: every
    file that the reply reports as processed is registered when the
    batch ends, with the number of chunks the reply gives for it. *)
Theorem batch_files_do_not_overwrite_each_other
    pdf_paths (w : W) status total successful failed results stamp w' :
  process_pdfs ext bext (PathsList pdf_paths) w =
    (Returns (BatchCompleted status total successful failed results stamp,
              200), w') ->
  (forall i j ri pi rj pj,
     nth_error results i = Some (FileProcessed ri pi) ->
     nth_error results j = Some (FileProcessed rj pj) ->
     pr_document_id ri = pr_document_id rj -> i = j) /\
  forall k result p,
    nth_error results k = Some (FileProcessed result p) ->
    exists docs,
      dict_get (pr_document_id result) (documents w') = Some docs /\
      List.length docs = chunks_count result.
Proof.
  unfold process_pdfs, try_except, bind.
  destruct pdf_paths as [|p0 rest]; [discriminate |]. cbn [is_nil].
  destruct (batch_loop_registered (p0 :: rest) 0 [] w)
    as (new & w1 & -> & Ids).
  simpl. intros H. injection H as _ _ _ _ <- _ <-. split.
  - intros i j ri pi rj pj Hi Hj E.
    destruct (Ids i ri pi Hi) as ((c & Ii) & _).
    destruct (Ids j rj pj Hj) as ((c' & Ij) & _).
    rewrite Ii, Ij in E. simpl in E.
    eapply batch_document_id_position; [|exact E].
    apply stamps_have_one_width.
  - intros k result p H. destruct (Ids k result p H) as (_ & docs & G & L).
    exists docs. split; [exact G | exact L].
Qed.

End Widths.

End IdentifierProperties.

(** ** The service properties at work on the small installation *)

Module ServiceExamples.
Import PyStr Demo Site.

Lemma two_guides_served : served demo site two_guides.
Proof.
  apply (served_request demo site with_guide
           (CallProcessPdf "/data/guide.pdf" "doc_2")).
  apply (served_request demo site start
           (CallProcessPdf "/data/guide.pdf" "doc_1")).
  apply served_init.
Qed.

Lemma extracted_chunks_are_in_reading_order_witness :
  extract_text_from_pdf demo "/data/guide.pdf" "guide.pdf" start =
    (Returns guide_docs, after_extraction) /\
  NoDup (map chunk_position guide_docs).
Proof.
  split; [reflexivity |].
  exact (proj1 (proj2 (extracted_chunks_are_in_reading_order demo
                         "/data/guide.pdf" "guide.pdf" start guide_docs
                         after_extraction eq_refl))).
Defined.

Lemma chunks_of_a_page_share_method_and_section_witness :
  extract_text_from_pdf demo "/data/guide.pdf" "guide.pdf" start =
    (Returns guide_docs, after_extraction) /\
  forall d d', In d guide_docs -> In d' guide_docs ->
    page_number d = page_number d' ->
    extraction_method d = extraction_method d' /\ section d = section d'.
Proof.
  split; [reflexivity |].
  destruct (chunks_of_a_page_share_method_and_section demo "/data/guide.pdf"
              "guide.pdf" start guide_docs after_extraction eq_refl)
    as (pages & _ & _ & H).
  exact H.
Defined.

Lemma process_pdf_reports_and_registers_witness :
  process_pdf demo "/data/guide.pdf" "doc_3" two_guides =
    (Returns third_result, three_guides) /\
  exists docs,
    dict_get "doc_3" (documents three_guides) = Some docs /\
    chunks_count third_result = List.length docs.
Proof.
  split; [reflexivity |].
  destruct (process_pdf_reports_and_registers demo "/data/guide.pdf" "doc_3"
              two_guides third_result three_guides eq_refl)
    as (pages & docs & index & _ & _ & _ & _ & _ & C & _ & _ & G & _).
  exists docs. split; [exact G | exact C].
Defined.

Lemma ask_question_single_follows_answer_question_witness :
  strip "What is covered?" <> EmptyString /\
  snd (ask_question_single demo "doc_1" (Some "What is covered?") two_guides)
  = snd (answer_question demo "doc_1" "What is covered?" two_guides).
Proof.
  assert (Q : strip "What is covered?" <> EmptyString) by discriminate.
  split; [exact Q |].
  exact (proj1 (ask_question_single_follows_answer_question demo "doc_1"
                  "What is covered?" two_guides Q)).
Defined.

Lemma process_pdfs_accounts_for_every_file_witness :
  batch_paths <> [] /\
  exists successful failed results stamp w',
    process_pdfs demo site (PathsList batch_paths) start =
      (Returns (BatchCompleted "completed" (List.length batch_paths)
                  successful failed results stamp, 200), w') /\
    successful + failed = List.length batch_paths.
Proof.
  assert (N : batch_paths <> []) by discriminate.
  split; [exact N |].
  destruct (process_pdfs_accounts_for_every_file demo site batch_paths start N)
    as (s & f & rs & st & w' & E & _ & A & _).
  exists s, f, rs, st, w'. split; [exact E | exact A].
Defined.

Lemma upload_pdf_names_the_document_after_the_temporary_file_witness :
  "Report.PDF" <> EmptyString /\
  (exists stem, lower "Report.PDF" = stem ++ ".pdf") /\
  snd (upload_pdf demo site (Some "Report.PDF") "/data/guide.pdf" start) =
  snd (process_pdf demo "/data/guide.pdf"
         (upload_document_id site (strftime_now site (clock_reads start))
            "Report.PDF")
         (snd (strftime demo site start))).
Proof.
  assert (N : "Report.PDF" <> EmptyString) by discriminate.
  assert (E : exists stem, lower "Report.PDF" = stem ++ ".pdf")
    by (exists "report"; reflexivity).
  split; [exact N |]. split; [exact E |].
  exact (proj1 (upload_pdf_names_the_document_after_the_temporary_file demo
                  site "Report.PDF" "/data/guide.pdf" start N E)).
Defined.

Lemma every_index_is_built_from_its_chunk_list_witness :
  served demo site two_guides /\
  List.length (documents two_guides) = List.length (vectorstores two_guides).
Proof.
  split; [exact two_guides_served |].
  exact (proj1 (every_index_is_built_from_its_chunk_list demo site two_guides
                  two_guides_served)).
Defined.

Lemma registered_chunk_lists_are_well_formed_witness :
  served demo site two_guides /\
  dict_get "doc_2" (documents two_guides)
    = Some (registered two_guides "doc_2") /\
  registered two_guides "doc_2" <> [] /\
  NoDup (map chunk_position (registered two_guides "doc_2")).
Proof.
  split; [exact two_guides_served |]. split; [reflexivity |].
  destruct (registered_chunk_lists_are_well_formed demo site two_guides
              "doc_2" (registered two_guides "doc_2") two_guides_served
              eq_refl) as (N & _ & _ & D).
  split; [exact N | exact D].
Defined.

Lemma metadata_is_filed_under_the_file_name_witness :
  served demo site two_guides /\
  forall name info,
    dict_get name (document_metadata two_guides) = Some info ->
    filename info = name /\ basename demo (full_path info) = name.
Proof.
  split; [exact two_guides_served |].
  exact (proj2 (metadata_is_filed_under_the_file_name demo site two_guides
                  two_guides_served)).
Defined.

Lemma delete_unknown_document_is_a_404_witness :
  ~ In "doc_9" (dict_keys (documents two_guides)) /\
  delete_document demo "doc_9" two_guides =
    (Returns (ErrorBody "Document not found" None, 404), two_guides).
Proof.
  assert (N : ~ In "doc_9" (dict_keys (documents two_guides))).
  { vm_compute. intros [H | [H | []]]; discriminate H. }
  split; [exact N |].
  exact (delete_unknown_document_is_a_404 demo "doc_9" two_guides N).
Defined.

Lemma delete_removes_document_index_and_metadata_witness :
  served demo site two_guides /\
  dict_get "doc_1" (documents two_guides)
    = Some (registered two_guides "doc_1") /\
  exists first,
    hd_error (registered two_guides "doc_1") = Some first /\
    dict_get (source first)
      (document_metadata (snd (delete_document demo "doc_1" two_guides)))
      = None.
Proof.
  split; [exact two_guides_served |]. split; [reflexivity |].
  destruct (delete_removes_document_index_and_metadata demo site "doc_1"
              (registered two_guides "doc_1") two_guides two_guides_served
              eq_refl) as (first & H & _ & _ & _ & _ & M & _).
  exists first. split; [exact H | exact M].
Defined.

Lemma deleting_one_document_drops_the_metadata_of_its_namesake_witness :
  served demo site two_guides /\
  "doc_2" <> "doc_1" /\
  source (first_chunk two_guides "doc_1")
    = source (first_chunk two_guides "doc_2") /\
  dict_get "doc_2" (documents (snd (delete_document demo "doc_1" two_guides)))
    = Some (registered two_guides "doc_2") /\
  dict_get "guide.pdf"
    (document_metadata (snd (delete_document demo "doc_1" two_guides)))
    = None.
Proof.
  assert (N : "doc_2" <> "doc_1") by discriminate.
  split; [exact two_guides_served |]. split; [exact N |].
  split; [reflexivity |].
  destruct (deleting_one_document_drops_the_metadata_of_its_namesake demo
              site "doc_1" "doc_2" (registered two_guides "doc_1")
              (registered two_guides "doc_2") (first_chunk two_guides "doc_1")
              (first_chunk two_guides "doc_2") two_guides two_guides_served N
              eq_refl eq_refl eq_refl eq_refl eq_refl) as (A & _ & B).
  split; [exact A | exact B].
Defined.

Lemma ingest_then_delete_restores_the_indexes_only_witness :
  served demo site two_guides /\
  ~ In "doc_3" (dict_keys (documents two_guides)) /\
  process_pdf demo "/data/guide.pdf" "doc_3" two_guides =
    (Returns third_result, three_guides) /\
  documents (snd (delete_document demo "doc_3" three_guides))
    = documents two_guides /\
  dict_get "guide.pdf"
    (document_metadata (snd (delete_document demo "doc_3" three_guides)))
    = None.
Proof.
  assert (N : ~ In "doc_3" (dict_keys (documents two_guides))).
  { vm_compute. intros [H | [H | []]]; discriminate H. }
  split; [exact two_guides_served |]. split; [exact N |].
  split; [reflexivity |].
  destruct (ingest_then_delete_restores_the_indexes_only demo site
              "/data/guide.pdf" "doc_3" two_guides third_result three_guides
              two_guides_served N eq_refl) as (_ & D & _ & M).
  split; [exact D | exact M].
Defined.

Lemma listings_report_the_stores_witness :
  served demo site two_guides /\
  exists health w',
    health_check demo two_guides = (Returns (health, 200), w') /\
    documents_loaded health = vectorstores_loaded health.
Proof.
  split; [exact two_guides_served |].
  destruct (listings_report_the_stores demo site two_guides two_guides_served)
    as (_ & (health & w' & E & _ & _ & C) & _).
  exists health, w'. split; [exact E | exact C].
Defined.

Lemma search_keeps_every_chunk_and_a_sorted_order_witness :
  dict_get "doc_1" (vectorstores with_guide) = Some guide_docs /\
  similarity_search_with_score demo guide_docs "What is covered?" 3
    = Some guide_raw /\
  exists chunks,
    search_similar_chunks demo "What is covered?" "doc_1" 3 with_guide =
      (Returns chunks, with_guide) /\
    List.length chunks = List.length guide_raw.
Proof.
  split; [reflexivity |]. split; [reflexivity |].
  destruct (search_keeps_every_chunk_and_a_sorted_order demo
              "What is covered?" "doc_1" 3 with_guide guide_docs guide_raw
              eq_refl eq_refl) as (chunks & E & L & _).
  exists chunks. split; [exact E | exact L].
Defined.

Lemma batch_files_do_not_overwrite_each_other_witness :
  (forall n m,
     length (strftime_now site n) = length (strftime_now site m)) /\
  process_pdfs demo site (PathsList batch_paths) start =
    (Returns (BatchCompleted "completed" 3 2 1 batch_results batch_stamp,
              200), snd batch_run) /\
  forall k result p,
    nth_error batch_results k = Some (FileProcessed result p) ->
    exists docs,
      dict_get (pr_document_id result) (documents (snd batch_run))
        = Some docs /\
      List.length docs = chunks_count result.
Proof.
  assert (Wd : forall n m,
            length (strftime_now site n) = length (strftime_now site m)).
  { intros n m. unfold site, strftime_now, digit.
    rewrite !length_append. reflexivity. }
  assert (E : process_pdfs demo site (PathsList batch_paths) start =
              (Returns (BatchCompleted "completed" 3 2 1 batch_results
                          batch_stamp, 200), snd batch_run))
    by (vm_compute; reflexivity).
  split; [exact Wd |]. split; [exact E |].
  exact (proj2 (batch_files_do_not_overwrite_each_other demo site Wd
                  batch_paths start "completed" 3 2 1 batch_results
                  batch_stamp (snd batch_run) E)).
Defined.

End ServiceExamples.
